(** * paraDime: shallow embedding of [paradime/dr.py] and [paradime/loss.py]

    The two modules are embedded function by function.  Python objects
    become records, exceptions become an error result, attribute
    mutation becomes explicit state passing, and everything that lives
    in torch, numpy, sklearn or in the paradime modules that are not
    part of the sources (models, relations, relationdata, utils) is an
    operation of an interface ([Numeric], [Objects], [Library]) that the
    embedding is parametric in. *)

From Stdlib Require Import ZArith List String Bool Lia Arith PeanoNat.
From Stdlib Require Import Sorting.Sorted.
Import ListNotations.
Local Open Scope string_scope.
Local Open Scope list_scope.

Set Implicit Arguments.
Set Warnings "-register-all".

(* ================================================================= *)
(** ** Python runtime: exceptions, results, insertion-ordered dicts *)

(** The exception classes the two modules raise or let escape. *)
Inductive exn : Type :=
| TypeError
| AttributeError
| KeyError
| ValueError
| IndexError
| NotImplementedError
| AssertionError
| ZeroDivisionError
| RuntimeError
| LossNotDeterminedError
| NoDatasetRegisteredError
| NotTrainedError
| RelationsNotComputedError.

(** The outcome of an expression that does not touch object state:
    a value, or the exception that escaped. *)
Inductive Res (A : Type) : Type :=
| Ok (a : A)
| Raise (e : exn).
Arguments Ok {A} a.
Arguments Raise {A} e.

Definition bind {A B : Type} (r : Res A) (k : A -> Res B) : Res B :=
  match r with
  | Ok a => k a
  | Raise e => Raise e
  end.

Notation "x <- c ;; k" := (bind c (fun x => k))
  (at level 61, c at next level, right associativity).
Notation "c ;;; k" := (bind c (fun _ => k))
  (at level 61, right associativity).

Fixpoint mapM {A B : Type} (f : A -> Res B) (l : list A) : Res (list B) :=
  match l with
  | [] => Ok []
  | a :: l' => b <- f a ;; bs <- mapM f l' ;; Ok (b :: bs)
  end.

(** A [dict] with string keys.  Python dicts keep insertion order, and
    assigning to a key that is present keeps its position. *)
Definition dict (V : Type) : Type := list (string * V).

Fixpoint dict_get {V : Type} (d : dict V) (k : string) : option V :=
  match d with
  | [] => None
  | (k', v) :: d' => if String.eqb k' k then Some v else dict_get d' k
  end.

(** [k in d] *)
Definition dict_in {V : Type} (k : string) (d : dict V) : bool :=
  match dict_get d k with
  | Some _ => true
  | None => false
  end.

(** [d[k] = v] *)
Fixpoint dict_set {V : Type} (d : dict V) (k : string) (v : V) : dict V :=
  match d with
  | [] => [(k, v)]
  | (k', v') :: d' =>
      if String.eqb k' k then (k', v) :: d' else (k', v') :: dict_set d' k v
  end.

(** [d[k]] as an expression: [KeyError] when the key is absent. *)
Definition subscript {V : Type} (d : dict V) (k : string) : Res V :=
  match dict_get d k with
  | Some v => Ok v
  | None => Raise KeyError
  end.

Definition dict_keys {V : Type} (d : dict V) : list string := map fst d.

(** [{**a, **b}] *)
Definition dict_merge {V : Type} (a b : dict V) : dict V :=
  fold_left (fun acc kv => dict_set acc (fst kv) (snd kv)) b a.

(** [x in l] for a list of strings. *)
Definition str_in (x : string) (l : list string) : bool :=
  existsb (String.eqb x) l.

(** [l[i]] for a Python list and a non-negative literal index. *)
Definition index {A : Type} (l : list A) (i : nat) : Res A :=
  match nth_error l i with
  | Some a => Ok a
  | None => Raise IndexError
  end.

(* ================================================================= *)
(** ** Numbers and tensors *)

(** Floating-point numbers are kept abstract: the code only adds and
    multiplies them, and no law of arithmetic is assumed of them. *)
Class Numeric : Type := {
  Float : Type;
  f0 : Float;                              (* 0. *)
  f1 : Float;                              (* 1. *)
  fadd : Float -> Float -> Float;
  fmul : Float -> Float -> Float;
  of_int : Z -> Float                      (* an int where a float is used *)
}.

Inductive Device : Type := cpu | cuda.

Section Tensors.
Context {N : Numeric}.

(** An array (numpy or torch) by its structure: a number, or the
    sequence of its sub-arrays along the first axis.  That the
    sub-arrays of one array have equal shapes is torch's business and
    is not tracked. *)
Inductive ndarray : Type :=
| Int (z : Z)
| Flt (x : Float)
| Arr (rows : list ndarray).

Record Tensor : Type := mkTensor {
  value : ndarray;
  device : Device
}.

(** [t.cpu()] and [t.cuda()] *)
Definition Tensor_cpu (t : Tensor) : Tensor := mkTensor (value t) cpu.
Definition Tensor_cuda (t : Tensor) : Tensor := mkTensor (value t) cuda.

(** [len(t)]: a zero-dimensional array has no length. *)
Definition len (t : Tensor) : Res nat :=
  match value t with
  | Arr rows => Ok (List.length rows)
  | _ => Raise TypeError
  end.

End Tensors.

(* ================================================================= *)
(** ** The libraries behind the two modules *)

(** Objects the modules hold but never look into. *)
Class Objects : Type := {
  Model : Type;          (* torch.nn.Module, paradime.models.Model *)
  Relations : Type;      (* paradime.relations.Relations *)
  RelationData : Type;   (* paradime.relationdata.RelationData *)
  LossFun : Type;        (* a comparison function, e.g. torch.nn.MSELoss() *)
  PyClass : Type;        (* a class object, e.g. torch.optim.Adam *)
  Optimizer : Type;      (* an instance of torch.optim.Optimizer *)
  UserLoss : Type;       (* an instance of a subclass of Loss defined by the caller *)
  UserFun : Type         (* a caller's function for a derived dataset entry *)
}.

Section Values.
Context {N : Numeric} {O : Objects}.

(** The values a declarative spec (validated JSON-like data, possibly
    holding arrays and class objects) is made of. *)
Inductive pyval : Type :=
| PNone
| PBool (b : bool)
| PInt (z : Z)
| PFloat (x : Float)
| PStr (s : string)
| PList (l : list pyval)                  (* a list or a tuple *)
| PDict (d : list (string * pyval))
| PArray (t : Tensor)                     (* numpy.ndarray or torch.Tensor *)
| PType (c : PyClass).

(** An attribute of a model object. *)
Inductive ModelAttr : Type :=
| Method (f : Tensor -> Res Tensor)
| Plain.

(** The coordinate form of sparse relation data:
    [relations.to_sparse_array().data.tocoo()]. *)
Record Coo : Type := mkCoo {
  coo_row : list Z;
  coo_col : list Z;
  coo_data : list Float;
  coo_shape0 : Z
}.

(** An argument of a derived-entry function: a dataset column or the
    data of a global relation. *)
Inductive DerivedArg : Type :=
| FromData (t : Tensor)
| FromRel (r : RelationData).

End Values.

(** What torch, numpy, sklearn and the paradime modules outside the
    sources compute. *)
Class Library {N : Numeric} {O : Objects} : Type := {
  (* torch.nn.Module *)
  model_call : Model -> Tensor -> Res Tensor;            (* model(X) *)
  model_attr : Model -> string -> option ModelAttr;      (* any other attribute *)
  model_device : Model -> option Device;                 (* device of the first parameter *)
  model_cuda : Model -> Res Model;
  model_train : Model -> Model;
  model_eval : Model -> Model;
  FullyConnectedEmbeddingModel : Z -> Z -> list Z -> Res Model;
  (* paradime.relations / paradime.relationdata *)
  rel_data_key : Relations -> string;
  rel_compute_relations : Relations -> Tensor -> Res RelationData;
  rel_set_verbosity : Relations -> bool -> Relations;
  rd_sub : RelationData -> Tensor -> Res RelationData;
  rd_data : RelationData -> Tensor;
  rd_tocoo : RelationData -> Res Coo;
  rd_to_square_array : RelationData -> Res Tensor;
  (* comparison functions *)
  lossfun_rel : LossFun -> RelationData -> Tensor -> Res Float;
  lossfun_apply : LossFun -> Tensor -> Tensor -> Res Float;
  MSELoss : LossFun;
  CrossEntropyLoss : LossFun;
  is_IntTensor : Tensor -> bool;
  to_torch : Tensor -> Tensor;                           (* utils.convert.to_torch *)
  shape_last : Tensor -> Res Z;                          (* t.shape[-1] *)
  (* sklearn *)
  PCA_fit_transform : pyval -> DerivedArg -> Res Tensor;
  SpectralEmbedding_fit_transform : pyval -> Tensor -> Res Tensor;
  (* the caller's own code *)
  userfun_apply : UserFun -> list DerivedArg -> dict pyval -> Res Tensor;
  user_forward4 :
    UserLoss -> Model -> RelationData -> Relations -> dict Tensor -> Res Float;
  user_forward5 :
    UserLoss -> Model -> dict RelationData -> dict Relations -> dict Tensor ->
    Device -> Res (Float * UserLoss);
  user_checkpoint : UserLoss -> Res UserLoss;
  user_history_last : UserLoss -> Res Float;
  user_is_relation_or_compound : UserLoss -> bool;
  user_check_sampling_and_relations :
    UserLoss -> string -> dict Relations -> Res unit;
  (* torch.optim, torch.utils.data *)
  is_Optimizer_subclass : PyClass -> bool;
  Adam : PyClass;
  new_optimizer : PyClass -> Model -> Float -> dict pyval -> Res Optimizer;
  backward_and_step : Optimizer -> Model -> Float -> Res (Model * Optimizer);
  lr_default : Float                                      (* 0.01 *)
}.

(* ================================================================= *)
(** ** paradime/loss.py *)

Section LossModule.
Context {N : Numeric} {O : Objects} {L : Library}.

(** An instance of [Loss] or of one of its subclasses, by its class
    and the attributes the constructor stores.  [SubclassLoss] is an
    instance of a subclass written by the caller ([Loss] is an open
    class whose [forward] is meant to be overridden). *)
Inductive Loss : Type :=
| BaseLoss (name : string)
| RelationLoss (loss_function : LossFun) (name : string)
| ClassificationLoss (loss_function : LossFun) (name : string)
| PositionLoss (loss_function : LossFun) (name : string)
| ReconstructionLoss (loss_function : LossFun) (name : string)
| CompoundLoss (losses : list Loss) (weights : list Float) (name : string)
| SubclassLoss (u : UserLoss).

(** [Loss.__init__]: the name given, or the class's [_prefix] followed
    by [str(uuid.uuid4())]; [uuid4] is that random draw. *)
Definition Loss_init (_prefix : string) (name : option string)
  (uuid4 : string) : string :=
  match name with
  | None => String.append _prefix uuid4
  | Some n => n
  end.

Definition Loss_new (name : option string) (uuid4 : string) : Loss :=
  BaseLoss (Loss_init "loss" name uuid4).

Definition RelationLoss_init (loss_function : LossFun)
  (name : option string) (uuid4 : string) : Loss :=
  RelationLoss loss_function (Loss_init "rel_loss" name uuid4).

(** [label_key] is accepted and not stored. *)
Definition ClassificationLoss_init (label_key : string)
  (loss_function : LossFun) (name : option string) (uuid4 : string) : Loss :=
  ClassificationLoss loss_function (Loss_init "class_loss" name uuid4).

(** [position_key] is accepted and not stored. *)
Definition PositionLoss_init (position_key : string)
  (loss_function : LossFun) (name : option string) (uuid4 : string) : Loss :=
  PositionLoss loss_function (Loss_init "pos_loss" name uuid4).

Definition ReconstructionLoss_init (loss_function : LossFun)
  (name : option string) (uuid4 : string) : Loss :=
  ReconstructionLoss loss_function (Loss_init "recon_loss" name uuid4).

(** [CompoundLoss.__init__]: [weights] is [None] or a sequence. *)
Definition CompoundLoss_init (losses : list Loss)
  (weights : option (list Float)) (name : option string) (uuid4 : string)
  : Res Loss :=
  let nm := Loss_init "comp_loss" name uuid4 in
  match weights with
  | None => Ok (CompoundLoss losses (repeat f1 (List.length losses)) nm)
  | Some w =>
      if negb (Nat.eqb (List.length w) (List.length losses))
      then Raise ValueError
      else Ok (CompoundLoss losses w nm)
  end.

(** The parameters of the constructors besides [self]: the name, and
    whether the parameter has a default. *)
Definition RelationLoss_params : list (string * bool) :=
  [("loss_function", false); ("name", true)].
Definition ClassificationLoss_params : list (string * bool) :=
  [("label_key", true); ("loss_function", true); ("name", true)].
Definition PositionLoss_params : list (string * bool) :=
  [("position_key", true); ("loss_function", true); ("name", true)].
Definition ReconstructionLoss_params : list (string * bool) :=
  [("loss_function", true); ("name", true)].

(** Binding a call's keyword arguments to a function's parameters:
    [TypeError] for a keyword that names no parameter, and for a
    parameter left with neither an argument nor a default. *)
Definition bind_keywords (params : list (string * bool))
  (keywords : list string) : Res unit :=
  if negb (forallb (fun k => str_in k (map fst params)) keywords)
  then Raise TypeError
  else if negb (forallb (fun p => snd p || str_in (fst p) keywords) params)
  then Raise TypeError
  else Ok tt.

(** [getattr(model, name)]; every [torch.nn.Module] has [__call__]. *)
Definition getattr_model (model : Model) (name : string) : option ModelAttr :=
  if String.eqb name "__call__" then Some (Method (model_call model))
  else model_attr model name.

(** The attribute lookup of [model.name(...)]. *)
Definition model_method (model : Model) (name : string) : Res ModelAttr :=
  match getattr_model model name with
  | Some a => Ok a
  | None => Raise AttributeError
  end.

(** Calling the attribute found. *)
Definition call_attr (a : ModelAttr) (x : Tensor) : Res Tensor :=
  match a with
  | Method f => f x
  | Plain => Raise TypeError
  end.

(** [forward(self, model, hd_relations, ld_relations, batch)] of each
    class.  Sub-expressions are evaluated in Python's order. *)
Fixpoint forward (l : Loss) (model : Model) (hd_relations : RelationData)
  (ld_relations : Relations) (batch : dict Tensor) {struct l} : Res Float :=
  match l with
  | BaseLoss _ => Raise NotImplementedError
  | RelationLoss loss_function _ =>
      i <- subscript batch "indices" ;;
      if negb (is_IntTensor i) then Raise AssertionError else
      i <- subscript batch "indices" ;;
      hd <- rd_sub hd_relations i ;;
      embed <- model_method model "embed" ;;
      x <- subscript batch "data" ;;
      e <- call_attr embed x ;;
      ld <- rel_compute_relations ld_relations e ;;
      lossfun_rel loss_function hd (rd_data ld)
  | ClassificationLoss loss_function _ =>
      classify <- model_method model "classify" ;;
      x <- subscript batch "data" ;;
      y <- call_attr classify x ;;
      labels <- subscript batch "labels" ;;
      lossfun_apply loss_function y labels
  | PositionLoss loss_function _ =>
      embed <- model_method model "embed" ;;
      x <- subscript batch "data" ;;
      e <- call_attr embed x ;;
      pos <- subscript batch "pos" ;;
      lossfun_apply loss_function e pos
  | ReconstructionLoss loss_function _ =>
      x <- subscript batch "data" ;;
      decode <- model_method model "decode" ;;
      encode <- model_method model "encode" ;;
      x' <- subscript batch "data" ;;
      c <- call_attr encode x' ;;
      r <- call_attr decode c ;;
      lossfun_apply loss_function x r
  | CompoundLoss losses weights _ =>
      (* total_loss = torch.tensor(0.)
         for l, w in zip(self.losses, self.weights):
             total_loss += w * l(model, hd_relations, ld_relations, batch) *)
      (fix loop (ls : list Loss) (ws : list Float) (total_loss : Float)
         {struct ls} : Res Float :=
         match ls, ws with
         | l' :: ls', w :: ws' =>
             v <- forward l' model hd_relations ld_relations batch ;;
             loop ls' ws' (fadd total_loss (fmul w v))
         | _, _ => Ok total_loss
         end) losses weights f0
  | SubclassLoss u => user_forward4 u model hd_relations ld_relations batch
  end.

(** The loop of [CompoundLoss.forward], named. *)
Fixpoint compound_loop (model : Model) (hd_relations : RelationData)
  (ld_relations : Relations) (batch : dict Tensor)
  (ls : list Loss) (ws : list Float) (total_loss : Float) : Res Float :=
  match ls, ws with
  | l' :: ls', w :: ws' =>
      v <- forward l' model hd_relations ld_relations batch ;;
      compound_loop model hd_relations ld_relations batch ls' ws'
        (fadd total_loss (fmul w v))
  | _, _ => Ok total_loss
  end.

(** A loss called with the five arguments
    [(model, global_relation_data, batch_relations, batch, device)]:
    [torch.nn.Module.__call__] passes them on to [forward], which takes
    four in every class of loss.py.  A caller's subclass may keep
    running totals, so its call also gives the object afterwards. *)
Definition Loss_call5 (l : Loss) (model : Model)
  (global_relation_data : dict RelationData)
  (batch_relations : dict Relations) (batch : dict Tensor) (dev : Device)
  : Res (Float * Loss) :=
  match l with
  | SubclassLoss u =>
      r <- user_forward5 u model global_relation_data batch_relations batch
             dev ;;
      Ok (fst r, SubclassLoss (snd r))
  | _ => Raise TypeError
  end.

(** [loss.checkpoint()]: no class of loss.py defines it, and
    [torch.nn.Module.__getattr__] raises [AttributeError]. *)
Definition Loss_checkpoint (l : Loss) : Res Loss :=
  match l with
  | SubclassLoss u => u' <- user_checkpoint u ;; Ok (SubclassLoss u')
  | _ => Raise AttributeError
  end.

(** [loss.history[-1]] *)
Definition Loss_history_last (l : Loss) : Res Float :=
  match l with
  | SubclassLoss u => user_history_last u
  | _ => Raise AttributeError
  end.

(** [isinstance(loss, (RelationLoss, CompoundLoss))] *)
Definition is_relation_or_compound (l : Loss) : bool :=
  match l with
  | RelationLoss _ _ | CompoundLoss _ _ _ => true
  | SubclassLoss u => user_is_relation_or_compound u
  | _ => false
  end.

(** [loss._check_sampling_and_relations(sampling, batch_relations)]:
    not defined by any class of loss.py. *)
Definition Loss_check_sampling_and_relations (l : Loss) (sampling : string)
  (batch_relations : dict Relations) : Res unit :=
  match l with
  | SubclassLoss u =>
      user_check_sampling_and_relations u sampling batch_relations
  | _ => Raise AttributeError
  end.

(** [copy.deepcopy]: values of the embedding carry no identity, so a
    deep copy of an object is the object's value. *)
Definition deepcopy {A : Type} (x : A) : A := x.

End LossModule.

(* ================================================================= *)
(** ** paradime/dr.py: datasets *)

Section DatasetLayer.
Context {N : Numeric} {O : Objects} {L : Library}.

(** The functions a derived entry can hold: the two of the module
    ([_pca], [_spectral]) or one of the caller's. *)
Inductive DataFun : Type :=
| F_pca
| F_spectral
| F_user (u : UserFun).

(** [_pca(x, **kwargs)] *)
Definition _pca (args : list DerivedArg) (kwargs : dict pyval) : Res Tensor :=
  match args with
  | [x] =>
      out_dim <- subscript kwargs "out_dim" ;;
      PCA_fit_transform out_dim x
  | _ => Raise TypeError
  end.

(** [_spectral(reldata, **kwargs)] *)
Definition _spectral (args : list DerivedArg) (kwargs : dict pyval)
  : Res Tensor :=
  match args with
  | [reldata] =>
      out_dim <- subscript kwargs "out_dim" ;;
      match reldata with
      | FromRel r =>
          sq <- rd_to_square_array r ;;
          SpectralEmbedding_fit_transform out_dim sq
      | FromData _ => Raise AttributeError
      end
  | _ => Raise TypeError
  end.

(** [func] applied to positional and keyword arguments *)
Definition call_func (f : DataFun) (args : list DerivedArg)
  (kwargs : dict pyval) : Res Tensor :=
  match f with
  | F_pca => _pca args kwargs
  | F_spectral => _spectral args kwargs
  | F_user u => userfun_apply u args kwargs
  end.

Record DerivedDatasetEntry : Type := mkEntry {
  func : DataFun;
  requires_relations : bool;
  type_key_tuples : list (string * string);
  entry_kwargs : dict pyval
}.

(** The loop over [types] of [DerivedDatasetEntry.__init__]. *)
Fixpoint check_types (types : list string) (requires : bool) : Res bool :=
  match types with
  | [] => Ok requires
  | t :: ts =>
      if String.eqb t "data" then check_types ts requires
      else if String.eqb t "rel" then check_types ts true
      else Raise ValueError
  end.

(** [DerivedDatasetEntry.__init__(func, type_key_tuples, **kwargs)];
    unpacking [types, keys = list(zip( *type_key_tuples))] fails on an
    empty list of tuples. *)
Definition DerivedDatasetEntry_init (func : DataFun)
  (type_key_tuples : list (string * string)) (kwargs : dict pyval)
  : Res DerivedDatasetEntry :=
  match type_key_tuples with
  | [] => Raise ValueError
  | _ =>
      r <- check_types (map fst type_key_tuples) false ;;
      Ok (mkEntry func r type_key_tuples kwargs)
  end.

(** A value of the mapping [Dataset] is built from. *)
Inductive DataValue : Type :=
| VTensor (t : Tensor)                 (* numpy array or torch tensor *)
| VEntry (e : DerivedDatasetEntry)
| VOther (length : option nat).        (* anything else, with its [len()]
                                          when it has one *)

(** The argument of [Dataset]: an array, a dict, or anything else. *)
Inductive DataArg : Type :=
| ATensor (t : Tensor)
| ADict (d : dict DataValue)
| AOther.

Record Dataset : Type := mkDataset {
  data : dict Tensor;
  _derived_entries : dict DerivedDatasetEntry
}.

(** [Dataset.__len__] *)
Definition Dataset_len (self : Dataset) : Res nat :=
  t <- subscript (data self) "data" ;; len t.

(** [torch.arange(n)] *)
Definition arange (n : nat) : Tensor :=
  mkTensor (Arr (map (fun i => Int (Z.of_nat i)) (seq 0 n))) cpu.

(** The loop [for k, val in data.items()] of [Dataset.__init__]. *)
Fixpoint Dataset_init_loop (d items : dict DataValue) (self : Dataset)
  : Res Dataset :=
  match items with
  | [] => Ok self
  | (k, val) :: items' =>
      match val with
      | VEntry e =>
          Dataset_init_loop d items'
            (mkDataset (data self) (dict_set (_derived_entries self) k e))
      | VOther _ => Raise ValueError
      | VTensor t =>
          n <- len t ;;
          d0 <- subscript d "data" ;;
          m <- match d0 with
               | VTensor t0 => len t0
               | VOther (Some m) => Ok m
               | VOther None | VEntry _ => Raise TypeError
               end ;;
          if negb (Nat.eqb n m) then Raise ValueError
          else Dataset_init_loop d items'
                 (mkDataset (dict_set (data self) k (to_torch t))
                    (_derived_entries self))
      end
  end.

(** [Dataset.__init__] *)
Definition Dataset_init (data0 : DataArg) : Res Dataset :=
  d <- match data0 with
       | ATensor t => Ok [("data", VTensor t)]
       | AOther => Raise ValueError
       | ADict d =>
           if negb (dict_in "data" d) then Raise AttributeError else Ok d
       end ;;
  self <- Dataset_init_loop d d (mkDataset [] []) ;;
  if negb (dict_in "indices" (data self)) then
    n <- Dataset_len self ;;
    Ok (mkDataset (dict_set (data self) "indices" (arange n))
          (_derived_entries self))
  else Ok self.

(** [a[i]] for an integer [i]: negative indices count from the end. *)
Definition take_row (a : ndarray) (i : Z) : Res ndarray :=
  match a with
  | Arr rows =>
      let n := Z.of_nat (List.length rows) in
      if ((0 <=? i) && (i <? n))%Z then index rows (Z.to_nat i)
      else if ((- n <=? i) && (i <? 0))%Z then index rows (Z.to_nat (n + i))
      else Raise IndexError
  | _ => Raise IndexError
  end.

(** [t[ids]] for a tensor of integer indices. *)
Definition index_select (t : Tensor) (ids : list Z) : Res Tensor :=
  rows <- mapM (take_row (value t)) ids ;;
  Ok (mkTensor (Arr rows) (device t)).

(** [Dataset.__getitem__] for an integer index. *)
Definition Dataset_getitem (self : Dataset) (i : Z) : Res (dict Tensor) :=
  mapM (fun kv =>
          r <- take_row (value (snd kv)) i ;;
          Ok (fst kv, mkTensor r (device (snd kv))))
    (data self).

(** [torch.stack(ts)]: a new first axis over the arguments. *)
Definition torch_stack (ts : list Tensor) : Res Tensor :=
  match ts with
  | [] => Raise RuntimeError
  | t0 :: _ => Ok (mkTensor (Arr (map value ts)) (device t0))
  end.

(** [torch.utils.data.default_collate] of a list of dicts of tensors:
    for every key of the first, the stack of the items' values. *)
Definition default_collate (items : list (dict Tensor)) : Res (dict Tensor) :=
  match items with
  | [] => Raise IndexError
  | elem :: _ =>
      mapM (fun k =>
              col <- mapM (fun d => subscript d k) items ;;
              t <- torch_stack col ;;
              Ok (k, t))
        (dict_keys elem)
  end.

(** The sub-arrays of an array to be concatenated. *)
Definition rows_of (a : ndarray) : Res (list ndarray) :=
  match a with
  | Arr rows => Ok rows
  | _ => Raise RuntimeError
  end.

(** [torch.concat(ts)] along the first axis. *)
Definition torch_concat (ts : list Tensor) : Res Tensor :=
  match ts with
  | [] => Raise RuntimeError
  | t0 :: _ =>
      rs <- mapM (fun t => rows_of (value t)) ts ;;
      Ok (mkTensor (Arr (List.concat rs)) (device t0))
  end.

(** [torch.concat(ts, dim=1)]: row [j] of the result is the
    concatenation of the rows [j] of the arguments. *)
Definition torch_concat_dim1 (ts : list Tensor) : Res Tensor :=
  match ts with
  | [] => Raise RuntimeError
  | t0 :: _ =>
      rs <- mapM (fun t => rows_of (value t)) ts ;;
      n <- len t0 ;;
      if negb (forallb (fun r => Nat.eqb (List.length r) n) rs)
      then Raise RuntimeError
      else
        rows <- mapM (fun j =>
                        parts <- mapM (fun r => index r j) rs ;;
                        ps <- mapM rows_of parts ;;
                        Ok (Arr (List.concat ps)))
                  (seq 0 n) ;;
        Ok (mkTensor (Arr rows) (device t0))
  end.

(** The integers of a one-dimensional integer array, which is what the
    [indices] of a dataset are; [numpy.unique] of an array of another
    kind is outside the embedding and stands as [TypeError]. *)
Definition as_ints (a : ndarray) : Res (list Z) :=
  rows <- rows_of a ;;
  mapM (fun r => match r with Int z => Ok z | _ => Raise TypeError end) rows.

Definition of_ints (l : list Z) : Tensor := mkTensor (Arr (map Int l)) cpu.

(** [numpy.unique]: the sorted values, each once. *)
Fixpoint insert_unique (x : Z) (l : list Z) : list Z :=
  match l with
  | [] => [x]
  | y :: l' =>
      if (x <? y)%Z then x :: l
      else if (x =? y)%Z then l
      else y :: insert_unique x l'
  end.

Definition np_unique (l : list Z) : list Z := fold_right insert_unique [] l.

(** The position of the first occurrence of [x] in [l]. *)
Fixpoint first_index (x : Z) (l : list Z) : nat :=
  match l with
  | [] => 0
  | y :: l' => if (y =? x)%Z then 0 else S (first_index x l')
  end.

(** The second result of [numpy.unique(l, return_index=True)]. *)
Definition np_unique_index (l : list Z) : list nat :=
  map (fun x => first_index x l) (np_unique l).

Record NegSampledEdgeDataset : Type := mkNegSampled {
  nse_dataset : Dataset;
  p_ij : Coo;
  nse_weights : list Float;
  nse_neg_sampling_rate : Z
}.

(** [NegSampledEdgeDataset.__init__] *)
Definition NegSampledEdgeDataset_init (dataset : Dataset)
  (relations : RelationData) (neg_sampling_rate : Z)
  : Res NegSampledEdgeDataset :=
  p <- rd_tocoo relations ;;
  Ok (mkNegSampled dataset p (coo_data p) neg_sampling_rate).

(** [NegSampledEdgeDataset.__len__] *)
Definition NegSampledEdgeDataset_len (self : NegSampledEdgeDataset) : Res nat :=
  Dataset_len (nse_dataset self).

(** [a[i]] for a numpy vector. *)
Definition np_index (l : list Z) (i : Z) : Res Z :=
  let n := Z.of_nat (List.length l) in
  if ((0 <=? i) && (i <? n))%Z then index l (Z.to_nat i)
  else if ((- n <=? i) && (i <? 0))%Z then index l (Z.to_nat (n + i))
  else Raise IndexError.

(** [NegSampledEdgeDataset.__getitem__(idx)].  [randint j] is the
    [j]-th number [torch.randint] draws. *)
Definition NegSampledEdgeDataset_getitem (self : NegSampledEdgeDataset)
  (idx : Z) (randint : nat -> Z) : Res (dict Tensor) :=
  let r1 := (nse_neg_sampling_rate self + 1)%Z in
  row_idx <- np_index (coo_row (p_ij self)) idx ;;
  if (r1 <? 0)%Z then Raise RuntimeError else
  let n := Z.to_nat r1 in
  let rows := repeat row_idx n in
  if (coo_shape0 (p_ij self) <=? 0)%Z then Raise RuntimeError else
  let drawn := map randint (seq 0 n) in
  col_idx <- np_index (coo_col (p_ij self)) idx ;;
  cols <- match drawn with
          | [] => Raise IndexError
          | _ :: rest => Ok (col_idx :: rest)
          end ;;
  p_simpl <- match repeat (Flt f0) n with
             | [] => Raise IndexError
             | _ :: rest => Ok (Flt f1 :: rest)
             end ;;
  let indices := np_unique (rows ++ cols) in
  let edge_data :=
    [("row", of_ints rows); ("col", of_ints cols);
     ("rel", mkTensor (Arr p_simpl) cpu)] in
  x <- subscript (data (nse_dataset self)) "data" ;;
  from <- index_select x rows ;;
  x' <- subscript (data (nse_dataset self)) "data" ;;
  to <- index_select x' cols ;;
  from_to <- torch_stack [from; to] ;;
  let edge_data := dict_set edge_data "from_to_data" from_to in
  items <- mapM (Dataset_getitem (nse_dataset self)) indices ;;
  remaining_data <- default_collate items ;;
  Ok (dict_merge remaining_data edge_data).

(** The value [_collate_edge_batch] computes for the key [k]. *)
Definition collate_value (raw_batch : list (dict Tensor)) (unique_ids : list nat)
  (k : string) : Res Tensor :=
  if str_in k ["row"; "col"; "rel"] then
    ts <- mapM (fun i => subscript i k) raw_batch ;;
    torch_concat ts
  else if String.eqb k "from_to_data" then
    ts <- mapM (fun i => subscript i k) raw_batch ;;
    torch_concat_dim1 ts
  else
    ts <- mapM (fun i => subscript i k) raw_batch ;;
    c <- torch_concat ts ;;
    index_select c (map Z.of_nat unique_ids).

(** The loop over the keys of [raw_batch[0]] in [_collate_edge_batch]. *)
Fixpoint collate_keys (raw_batch : list (dict Tensor)) (unique_ids : list nat)
  (keys : list string) (collated_batch : dict Tensor) : Res (dict Tensor) :=
  match keys with
  | [] => Ok collated_batch
  | k :: keys' =>
      v <- collate_value raw_batch unique_ids k ;;
      collate_keys raw_batch unique_ids keys' (dict_set collated_batch k v)
  end.

(** The indices of the items of a batch, concatenated. *)
Definition batch_indices (raw_batch : list (dict Tensor)) : Res (list Z) :=
  ts <- mapM (fun i => subscript i "indices") raw_batch ;;
  c <- torch_concat ts ;;
  as_ints (value c).

(** [_collate_edge_batch(raw_batch)] *)
Definition _collate_edge_batch (raw_batch : list (dict Tensor))
  : Res (dict Tensor) :=
  ts <- mapM (fun i => subscript i "indices") raw_batch ;;
  c <- torch_concat ts ;;
  flat <- as_ints (value c) ;;
  let indices := np_unique flat in
  let unique_ids := np_unique_index flat in
  let collated_batch := [("indices", of_ints indices)] in
  first <- index raw_batch 0 ;;
  collate_keys raw_batch unique_ids (dict_keys first) collated_batch.

End DatasetLayer.

(* ================================================================= *)
(** ** paradime/dr.py: training phases *)

Section TrainingPhases.
Context {N : Numeric} {O : Objects} {L : Library}.

(** A [TrainingPhase] object.  [loss_weights] is [None] while the
    attribute has never been assigned; [_loss] is [None] while it holds
    Python's [None]. *)
Record TrainingPhase : Type := mkPhase {
  tp_name : option string;
  epochs : Z;
  batch_size : Z;
  batches_per_epoch : Z;
  sampling : string;
  edge_rel_key : string;
  neg_sampling_rate : Z;
  loss_keys : list string;
  loss_weights : option (list Float);
  _loss : option Loss;
  optimizer : PyClass;
  learning_rate : Float;
  report_interval : Z;
  tp_kwargs : dict pyval
}.

(** [TrainingPhase.__init__].  The weights passed are only compared
    with [None], whatever they are. *)
Definition TrainingPhase_init {W : Type} (name : option string)
  (epochs batch_size batches_per_epoch : Z) (sampling edge_rel_key : string)
  (neg_sampling_rate : Z) (loss_keys : list string)
  (loss_weights : option W) (optimizer : pyval) (learning_rate : Float)
  (report_interval : Z) (kwargs : dict pyval) : Res TrainingPhase :=
  if negb (str_in sampling ["standard"; "negative_edge"])
  then Raise ValueError
  else
    match loss_keys with
    | [] => Raise ValueError
    | _ =>
        let weights_attr :=
          match loss_weights with
          | None => Some (repeat f1 (List.length loss_keys))
          | Some _ => None
          end in
        match optimizer with
        | PType c =>
            if negb (is_Optimizer_subclass c) then Raise ValueError
            else Ok (mkPhase name epochs batch_size batches_per_epoch
                       sampling edge_rel_key neg_sampling_rate loss_keys
                       weights_attr None c learning_rate report_interval
                       kwargs)
        | _ => Raise TypeError
        end
    end.

(** [TrainingPhase()] with every default. *)
Definition TrainingPhase_default : Res TrainingPhase :=
  TrainingPhase_init (W := list Float) None 5 50 (-1) "standard" "rel" 5
    ["loss"] None (PType Adam) lr_default 5 [].

(** The [loss] property. *)
Definition TrainingPhase_loss (self : TrainingPhase) : Res Loss :=
  match _loss self with
  | None => Raise LossNotDeterminedError
  | Some l => Ok l
  end.

(** The [loss] setter. *)
Definition set_loss (self : TrainingPhase) (ls : Loss) : TrainingPhase :=
  mkPhase (tp_name self) (epochs self) (batch_size self)
    (batches_per_epoch self) (sampling self) (edge_rel_key self)
    (neg_sampling_rate self) (loss_keys self) (loss_weights self) (Some ls)
    (optimizer self) (learning_rate self) (report_interval self)
    (tp_kwargs self).

(** Reading the attribute [self.loss_weights]. *)
Definition get_loss_weights (self : TrainingPhase) : Res (list Float) :=
  match loss_weights self with
  | Some w => Ok w
  | None => Raise AttributeError
  end.

(** One key of the loops of [_determine_loss]. *)
Definition lookup_loss (loss_dict : dict Loss) (lk : string) : Res Loss :=
  if negb (dict_in lk loss_dict) then Raise KeyError
  else l <- subscript loss_dict lk ;; Ok (deepcopy l).

(** [TrainingPhase._determine_loss(loss_dict)]; [uuid4] is the draw a
    [CompoundLoss] without a name would use. *)
Definition _determine_loss (self : TrainingPhase) (loss_dict : dict Loss)
  (uuid4 : string) : Res TrainingPhase :=
  if Nat.eqb (List.length (loss_keys self)) 1 then
    lk <- index (loss_keys self) 0 ;;
    l <- lookup_loss loss_dict lk ;;
    Ok (set_loss self l)
  else
    losses <- mapM (lookup_loss loss_dict) (loss_keys self) ;;
    w <- get_loss_weights self ;;
    c <- CompoundLoss_init losses (Some w) (tp_name self) uuid4 ;;
    Ok (set_loss self c).

End TrainingPhases.

(* ================================================================= *)
(** ** paradime/dr.py: the ParametricDR routine *)

(** The text [f"{before}'{k}'{after}"] of a log message. *)
Definition message (before k after : string) : string :=
  String.append before (String.append "'" (String.append k (String.append "'" after))).
Arguments message : simpl never.

Section Routine.
Context {N : Numeric} {O : Objects} {L : Library}.

(** What an instance does to the world outside it, in order.  The
    record of these events is ghost state: it lets a statement count
    calls. *)
Inductive event : Type :=
| Logged (msg : string)                  (* utils.logging.log *)
| RelationsComputed (k : string)         (* rel.compute_relations for key k *)
| DerivedComputed (k : string)           (* entry.func for key k *)
| ZeroGrad                               (* optimizer.zero_grad() *)
| LossCalled                             (* training_phase.loss called with five arguments *)
| BackwardStep                           (* loss.backward(); optimizer.step() *)
| CheckpointCalled                       (* training_phase.loss.checkpoint() *)
| LossReported (epoch : nat) (v : Float). (* the log of loss.history[-1] *)

Record ParametricDR : Type := mkDR {
  verbose : bool;
  _dataset : option Dataset;
  _dataset_registered : bool;
  model : Model;
  global_relations : dict Relations;
  global_relation_data : dict RelationData;
  _global_relations_computed : bool;
  batch_relations : dict Relations;
  losses : dict Loss;
  training_defaults : TrainingPhase;
  training_phases : list TrainingPhase;
  use_cuda : bool;
  trained : bool;
  events : list event
}.

(** The outcome of a method that may change the instance: it returns
    or raises, and either way leaves the instance in some state. *)
Inductive outcome (A : Type) : Type :=
| Ret (a : A) (self : ParametricDR)
| Exc (e : exn) (self : ParametricDR).
Arguments Ret {A} a self.
Arguments Exc {A} e self.

Definition M (A : Type) : Type := ParametricDR -> outcome A.

Definition ret {A : Type} (a : A) : M A := fun self => Ret a self.

Definition raise {A : Type} (e : exn) : M A := fun self => Exc e self.

Definition mbind {A B : Type} (c : M A) (k : A -> M B) : M B :=
  fun self =>
    match c self with
    | Ret a self' => k a self'
    | Exc e self' => Exc e self'
    end.

(** An expression that only reads. *)
Definition lift {A : Type} (f : ParametricDR -> Res A) : M A :=
  fun self =>
    match f self with
    | Ok a => Ret a self
    | Raise e => Exc e self
    end.

Definition modify (f : ParametricDR -> ParametricDR) : M unit :=
  fun self => Ret tt (f self).

Notation "x <~ c ;; k" := (mbind c (fun x => k))
  (at level 61, c at next level, right associativity).
Notation "c ;;~ k" := (mbind c (fun _ => k))
  (at level 61, right associativity).

Fixpoint for_each {A : Type} (body : A -> M unit) (l : list A) : M unit :=
  match l with
  | [] => ret tt
  | a :: l' => body a ;;~ for_each body l'
  end.

(** *** Attribute assignments *)

Definition with_dataset (d : option Dataset) (s : ParametricDR) : ParametricDR :=
  mkDR (verbose s) d (_dataset_registered s) (model s) (global_relations s)
    (global_relation_data s) (_global_relations_computed s)
    (batch_relations s) (losses s) (training_defaults s) (training_phases s)
    (use_cuda s) (trained s) (events s).

Definition with_dataset_registered (b : bool) (s : ParametricDR) : ParametricDR :=
  mkDR (verbose s) (_dataset s) b (model s) (global_relations s)
    (global_relation_data s) (_global_relations_computed s)
    (batch_relations s) (losses s) (training_defaults s) (training_phases s)
    (use_cuda s) (trained s) (events s).

Definition with_model (m : Model) (s : ParametricDR) : ParametricDR :=
  mkDR (verbose s) (_dataset s) (_dataset_registered s) m (global_relations s)
    (global_relation_data s) (_global_relations_computed s)
    (batch_relations s) (losses s) (training_defaults s) (training_phases s)
    (use_cuda s) (trained s) (events s).

Definition with_global_relation_data (d : dict RelationData)
  (s : ParametricDR) : ParametricDR :=
  mkDR (verbose s) (_dataset s) (_dataset_registered s) (model s)
    (global_relations s) d (_global_relations_computed s)
    (batch_relations s) (losses s) (training_defaults s) (training_phases s)
    (use_cuda s) (trained s) (events s).

Definition with_global_relations_computed (b : bool) (s : ParametricDR)
  : ParametricDR :=
  mkDR (verbose s) (_dataset s) (_dataset_registered s) (model s)
    (global_relations s) (global_relation_data s) b
    (batch_relations s) (losses s) (training_defaults s) (training_phases s)
    (use_cuda s) (trained s) (events s).

Definition with_training_defaults (tp : TrainingPhase) (s : ParametricDR)
  : ParametricDR :=
  mkDR (verbose s) (_dataset s) (_dataset_registered s) (model s)
    (global_relations s) (global_relation_data s)
    (_global_relations_computed s) (batch_relations s) (losses s) tp
    (training_phases s) (use_cuda s) (trained s) (events s).

Definition with_training_phases (tps : list TrainingPhase) (s : ParametricDR)
  : ParametricDR :=
  mkDR (verbose s) (_dataset s) (_dataset_registered s) (model s)
    (global_relations s) (global_relation_data s)
    (_global_relations_computed s) (batch_relations s) (losses s)
    (training_defaults s) tps (use_cuda s) (trained s) (events s).

Definition with_trained (b : bool) (s : ParametricDR) : ParametricDR :=
  mkDR (verbose s) (_dataset s) (_dataset_registered s) (model s)
    (global_relations s) (global_relation_data s)
    (_global_relations_computed s) (batch_relations s) (losses s)
    (training_defaults s) (training_phases s) (use_cuda s) b (events s).

Definition with_events (ev : list event) (s : ParametricDR) : ParametricDR :=
  mkDR (verbose s) (_dataset s) (_dataset_registered s) (model s)
    (global_relations s) (global_relation_data s)
    (_global_relations_computed s) (batch_relations s) (losses s)
    (training_defaults s) (training_phases s) (use_cuda s) (trained s) ev.

Definition emit (e : event) : M unit :=
  modify (fun s => with_events (events s ++ [e]) s).

(** [if self.verbose: utils.logging.log(msg)] *)
Definition log_if_verbose (msg : string) : M unit :=
  fun self => if verbose self then emit (Logged msg) self else Ret tt self.

(** *** Properties *)

(** The [dataset] property. *)
Definition dataset (self : ParametricDR) : Res Dataset :=
  match _dataset self with
  | Some d => Ok d
  | None => Raise NoDatasetRegisteredError
  end.

(** The [device] property: the device of the model's first parameter,
    the CPU for a model without parameters. *)
Definition device_of (self : ParametricDR) : Device :=
  match model_device (model self) with
  | Some d => d
  | None => cpu
  end.

(** [self.dataset.data = d] and [self.dataset._derived_entries = d]:
    the registered [Dataset] object is changed in place. *)
Definition set_dataset_data (d : dict Tensor) : M unit :=
  ds <~ lift dataset ;;
  modify (with_dataset (Some (mkDataset d (_derived_entries ds)))).

Definition set_derived_entries (d : dict DerivedDatasetEntry) : M unit :=
  ds <~ lift dataset ;;
  modify (with_dataset (Some (mkDataset (data ds) d))).

(** *** Applying the model *)

(** [_call_model_method_by_name(method_name, X)]; it changes nothing
    of the instance. *)
Definition _call_model_method_by_name (self : ParametricDR)
  (method_name : string) (X : Tensor) : Res Tensor :=
  let X := to_torch X in
  let X := if use_cuda self then Tensor_cuda X else X in
  match getattr_model (model self) method_name with
  | None => Raise AttributeError
  | Some Plain => Raise ValueError
  | Some (Method f) =>
      if trained self then f X else Raise NotTrainedError
  end.

(** [apply(X, method=None)] *)
Definition apply (self : ParametricDR) (X : Tensor) (method : option string)
  : Res Tensor :=
  let method := match method with None => "__call__" | Some m => m end in
  r <- _call_model_method_by_name self method X ;;
  Ok (Tensor_cpu r).

Definition embed (self : ParametricDR) (X : Tensor) : Res Tensor :=
  _call_model_method_by_name self "embed" X.

Definition classify (self : ParametricDR) (X : Tensor) : Res Tensor :=
  _call_model_method_by_name self "classify" X.

(** *** The dataset *)

(** [register_dataset(dataset)]: a [Dataset] (left) or raw data. *)
Definition register_dataset (d : Dataset + DataArg) : M unit :=
  log_if_verbose "Registering dataset." ;;~
  ds <~ lift (fun _ => match d with
                       | inl ds => Ok ds
                       | inr raw => Dataset_init raw
                       end) ;;
  modify (with_dataset (Some ds)) ;;~
  modify (with_dataset_registered true).

(** The body of the loop of [add_to_dataset]. *)
Definition add_one (kv : string * DataValue) : M unit :=
  let k := fst kv in
  match snd kv with
  | VEntry e =>
      (fun self =>
         if verbose self then
           (ds <~ lift dataset ;;
            if dict_in k (_derived_entries ds)
            then emit (Logged (message "Overwriting derived entry " k
                                 " in dataset."))
            else emit (Logged (message "Adding derived entry " k
                                 " to dataset."))) self
         else Ret tt self) ;;~
      ds <~ lift dataset ;;
      set_derived_entries (dict_set (_derived_entries ds) k e)
  | VTensor t =>
      (fun self =>
         if verbose self then
           (ds <~ lift dataset ;;
            if dict_in k (data ds)
            then emit (Logged (message "Overwriting entry " k " in dataset."))
            else emit (Logged (message "Adding entry " k " to dataset."))) self
         else Ret tt self) ;;~
      ds <~ lift dataset ;;
      set_dataset_data (dict_set (data ds) k (to_torch t))
  | VOther _ => raise ValueError
  end.

(** [add_to_dataset(data)] *)
Definition add_to_dataset (data0 : dict DataValue) : M unit :=
  fun self =>
    if negb (_dataset_registered self)
    then Exc NoDatasetRegisteredError self
    else for_each add_one data0 self.

(** [selector[i][j]] of [compute_derived_data]. *)
Definition select_arg (self : ParametricDR) (ij : string * string)
  : Res DerivedArg :=
  ds <- dataset self ;;
  if String.eqb (fst ij) "data" then
    t <- subscript (data ds) (snd ij) ;; Ok (FromData t)
  else if String.eqb (fst ij) "rel" then
    r <- subscript (global_relation_data self) (snd ij) ;; Ok (FromRel r)
  else Raise KeyError.

(** [options = entry.kwargs] with [out_dim] defaulted in place. *)
Definition default_out_dim (entry : DerivedDatasetEntry) : DerivedDatasetEntry :=
  if negb (dict_in "out_dim" (entry_kwargs entry))
  then mkEntry (func entry) (requires_relations entry)
         (type_key_tuples entry)
         (dict_set (entry_kwargs entry) "out_dim" (PInt 2))
  else entry.

(** The loop of [compute_derived_data] over the items of the dict that
    [self.dataset._derived_entries] was bound to when the loop began.
    Assigning [{}] to the attribute binds it to a new dict and leaves
    the one under iteration as it is; [same] tells whether the
    attribute is still bound to the dict under iteration (whose entry
    objects the loop changes in place). *)
Fixpoint derived_loop (keep_definitions : bool)
  (items : dict DerivedDatasetEntry) (same : bool) : M unit :=
  match items with
  | [] => ret tt
  | (k, entry) :: items' =>
      (fun self =>
         if requires_relations entry && negb (_global_relations_computed self)
         then Exc RelationsNotComputedError self
         else
           (log_if_verbose
              (message "Computing derived data entry " k ".") ;;~
            let entry' := default_out_dim entry in
            (if same then
               ds <~ lift dataset ;;
               set_derived_entries (dict_set (_derived_entries ds) k entry')
             else ret tt) ;;~
            args <~ lift (fun s => mapM (select_arg s) (type_key_tuples entry')) ;;
            emit (DerivedComputed k) ;;~
            v <~ lift (fun _ => call_func (func entry') args
                                  (entry_kwargs entry')) ;;
            add_to_dataset [(k, VTensor v)]) self) ;;~
      (if negb keep_definitions then set_derived_entries [] else ret tt) ;;~
      derived_loop keep_definitions items' (same && keep_definitions)
  end.

(** [compute_derived_data(keep_definitions=False)] *)
Definition compute_derived_data (keep_definitions : bool) : M unit :=
  fun self =>
    if negb (_dataset_registered self)
    then Exc NoDatasetRegisteredError self
    else
      (ds <~ lift dataset ;;
       derived_loop keep_definitions (_derived_entries ds) true) self.

(** *** Global relations *)

(** The body of the loop of [compute_global_relations]. *)
Definition compute_one (k : string) : M unit :=
  log_if_verbose
    (message "Computing global relations " k ".") ;;~
  rel <~ lift (fun self => subscript (global_relations self) k) ;;
  x <~ lift (fun self =>
               ds <- dataset self ;; subscript (data ds) (rel_data_key rel)) ;;
  emit (RelationsComputed k) ;;~
  r <~ lift (fun _ => rel_compute_relations rel x) ;;
  modify (fun self =>
            with_global_relation_data
              (dict_set (global_relation_data self) k r) self).

(** [compute_global_relations(force=False)] *)
Definition compute_global_relations (force : bool) : M unit :=
  fun self =>
    if negb (_dataset_registered self)
    then Exc NoDatasetRegisteredError self
    else
      (lift dataset ;;~
       (fun self =>
          if force || negb (_global_relations_computed self)
          then for_each compute_one (dict_keys (global_relations self)) self
          else Ret tt self) ;;~
       modify (with_global_relations_computed true)) self.


(** *** Training phases of the routine *)

(** The optional arguments of [set_training_defaults] and
    [add_training_phase] besides [training_phase]; [None] is Python's
    [None]. *)
Record PhaseArgs : Type := mkPhaseArgs {
  a_name : option string;
  a_epochs : option Z;
  a_batch_size : option Z;
  a_batches_per_epoch : option Z;
  a_sampling : option string;
  a_edge_rel_key : option string;
  a_neg_sampling_rate : option Z;
  a_loss_keys : option (list string);
  a_loss_weights : option (list Float);
  a_optimizer : option PyClass;
  a_learning_rate : option Float;
  a_report_interval : option Z;
  a_kwargs : dict pyval
}.

Definition or_keep {A : Type} (new : option A) (old : A) : A :=
  match new with
  | Some a => a
  | None => old
  end.

(** The assignments of [add_training_phase] to the phase. *)
Definition override_phase (a : PhaseArgs) (tp : TrainingPhase) : TrainingPhase :=
  mkPhase
    (match a_name a with Some n => Some n | None => tp_name tp end)
    (or_keep (a_epochs a) (epochs tp))
    (or_keep (a_batch_size a) (batch_size tp))
    (or_keep (a_batches_per_epoch a) (batches_per_epoch tp))
    (or_keep (a_sampling a) (sampling tp))
    (or_keep (a_edge_rel_key a) (edge_rel_key tp))
    (or_keep (a_neg_sampling_rate a) (neg_sampling_rate tp))
    (or_keep (a_loss_keys a) (loss_keys tp))
    (match a_loss_weights a with Some w => Some w | None => loss_weights tp end)
    (_loss tp)
    (or_keep (a_optimizer a) (optimizer tp))
    (or_keep (a_learning_rate a) (learning_rate tp))
    (or_keep (a_report_interval a) (report_interval tp))
    (match a_kwargs a with
     | [] => tp_kwargs tp
     | _ => dict_merge (tp_kwargs tp) (a_kwargs a)
     end).

(** The assignments of [set_training_defaults] to the defaults:
    [batches_per_epoch] is written to [batch_size], and there is no
    [name]. *)
Definition override_defaults (a : PhaseArgs) (tp : TrainingPhase) : TrainingPhase :=
  mkPhase
    (tp_name tp)
    (or_keep (a_epochs a) (epochs tp))
    (or_keep (a_batches_per_epoch a) (or_keep (a_batch_size a) (batch_size tp)))
    (batches_per_epoch tp)
    (or_keep (a_sampling a) (sampling tp))
    (or_keep (a_edge_rel_key a) (edge_rel_key tp))
    (or_keep (a_neg_sampling_rate a) (neg_sampling_rate tp))
    (or_keep (a_loss_keys a) (loss_keys tp))
    (match a_loss_weights a with Some w => Some w | None => loss_weights tp end)
    (_loss tp)
    (or_keep (a_optimizer a) (optimizer tp))
    (or_keep (a_learning_rate a) (learning_rate tp))
    (or_keep (a_report_interval a) (report_interval tp))
    (match a_kwargs a with
     | [] => tp_kwargs tp
     | _ => dict_merge (tp_kwargs tp) (a_kwargs a)
     end).

(** [set_training_defaults(training_phase, ...)] *)
Definition set_training_defaults (training_phase : option TrainingPhase)
  (a : PhaseArgs) : M unit :=
  modify (fun self =>
            let d := match training_phase with
                     | Some tp => deepcopy tp
                     | None => training_defaults self
                     end in
            with_training_defaults (override_defaults a d) self).

(** [add_training_phase(training_phase, ...)]; [uuid4] is the draw for
    the name of a compound loss of a phase without a name. *)
Definition add_training_phase (training_phase : option TrainingPhase)
  (a : PhaseArgs) (uuid4 : string) : M unit :=
  fun self =>
    let tp := match training_phase with
              | None => deepcopy (training_defaults self)
              | Some tp => tp
              end in
    let tp := override_phase a tp in
    (tp' <~ lift (fun s => _determine_loss tp (losses s) uuid4) ;;
     l <~ lift (fun _ => TrainingPhase_loss tp') ;;
     (if is_relation_or_compound l
      then lift (fun s => Loss_check_sampling_and_relations l (sampling tp')
                            (batch_relations s))
      else ret tt) ;;~
     modify (fun s => with_training_phases (training_phases s ++ [tp']) s))
      self.

(** What torch makes of the sampler and [DataLoader] that
    [_prepare_loader] asks for: it refuses the arguments with an
    exception, or gives a loader that in epoch [e] yields a sequence of
    batches, possibly cut short by an exception. *)
Record Loader : Type := mkLoader {
  loader_refused : option exn;
  loader_epoch : nat -> list (dict Tensor) * option exn
}.

(** [int(np.ceil(a / b))] for integers [a] and [b <> 0]. *)
Definition ceil_div (a b : Z) : Z := (- ((- a) / b))%Z.

(** [_prepare_loader(training_phase)] *)
Definition _prepare_loader (self : ParametricDR) (training_phase : TrainingPhase)
  (torch_loader : Loader) : Res Loader :=
  if negb (_dataset_registered self) then Raise NoDatasetRegisteredError else
  ds <- dataset self ;;
  if negb (_global_relations_computed self)
  then Raise RelationsNotComputedError else
  if String.eqb (sampling training_phase) "negative_edge" then
    if negb (dict_in (edge_rel_key training_phase) (global_relation_data self))
    then Raise KeyError else
    num_edges <-
      (if (batches_per_epoch training_phase =? -1)%Z then
         n <- Dataset_len ds ;;
         if (neg_sampling_rate training_phase + 1 =? 0)%Z
         then Raise ZeroDivisionError
         else Ok (Z.max (batch_size training_phase)
                    (ceil_div (Z.of_nat n)
                       (neg_sampling_rate training_phase + 1)))
       else Ok (batch_size training_phase
                * batches_per_epoch training_phase)%Z) ;;
    rd <- subscript (global_relation_data self) (edge_rel_key training_phase) ;;
    edge_dataset <- NegSampledEdgeDataset_init ds rd
                      (neg_sampling_rate training_phase) ;;
    match loader_refused torch_loader with
    | Some e => Raise e
    | None => Ok torch_loader
    end
  else
    match loader_refused torch_loader with
    | Some e => Raise e
    | None => Ok torch_loader
    end.

(** [_prepare_optimizer(training_phase)] *)
Definition _prepare_optimizer (self : ParametricDR)
  (training_phase : TrainingPhase) : Res Optimizer :=
  new_optimizer (optimizer training_phase) (model self)
    (learning_rate training_phase) (tp_kwargs training_phase).

(** [_prepare_training()] *)
Definition _prepare_training : M unit := ret tt.

(** The loop [for batch in dataloader] of [run_training_phase].  The
    phase (whose loss object a call may change) and the optimizer are
    passed along. *)
Fixpoint batch_loop (dev : Device) (batches : list (dict Tensor))
  (st : TrainingPhase * Optimizer) : M (TrainingPhase * Optimizer) :=
  match batches with
  | [] => ret st
  | batch :: rest =>
      emit ZeroGrad ;;~
      l <~ lift (fun _ => TrainingPhase_loss (fst st)) ;;
      emit LossCalled ;;~
      r <~ lift (fun self =>
                   Loss_call5 l (model self) (global_relation_data self)
                     (batch_relations self) batch dev) ;;
      emit BackwardStep ;;~
      mo <~ lift (fun self => backward_and_step (snd st) (model self) (fst r)) ;;
      modify (with_model (fst mo)) ;;~
      batch_loop dev rest (set_loss (fst st) (snd r), snd mo)
  end.

(** The loop [for epoch in range(training_phase.epochs)]. *)
Fixpoint epoch_loop (dev : Device) (dataloader : Loader) (range : list nat)
  (st : TrainingPhase * Optimizer) : M (TrainingPhase * Optimizer) :=
  match range with
  | [] => ret st
  | epoch :: rest =>
      st1 <~ batch_loop dev (fst (loader_epoch dataloader epoch)) st ;;
      match snd (loader_epoch dataloader epoch) with
      | Some e => raise e
      | None => ret tt
      end ;;~
      l <~ lift (fun _ => TrainingPhase_loss (fst st1)) ;;
      emit CheckpointCalled ;;~
      l' <~ lift (fun _ => Loss_checkpoint l) ;;
      let tp1 := set_loss (fst st1) l' in
      (fun self =>
         if verbose self then
           if (report_interval tp1 =? 0)%Z then Exc ZeroDivisionError self
           else if (Z.of_nat epoch mod report_interval tp1 =? 0)%Z then
             (l2 <~ lift (fun _ => TrainingPhase_loss tp1) ;;
              h <~ lift (fun _ => Loss_history_last l2) ;;
              emit (LossReported epoch h)) self
           else Ret tt self
         else Ret tt self) ;;~
      modify (with_trained true) ;;~
      epoch_loop dev dataloader rest (tp1, snd st1)
  end.

(** [run_training_phase(training_phase)]; the phase object is changed
    in place, and the result is what it has become. *)
Definition run_training_phase (training_phase : TrainingPhase)
  (torch_loader : Loader) : M TrainingPhase :=
  dataloader <~ lift (fun self =>
                        _prepare_loader self training_phase torch_loader) ;;
  optimizer <~ lift (fun self => _prepare_optimizer self training_phase) ;;
  dev <~ lift (fun self => Ok (device_of self)) ;;
  log_if_verbose
    (message "Beginning training phase "
       (match tp_name training_phase with Some n => n | None => "None" end)
       ".") ;;~
  st <~ epoch_loop dev dataloader
          (seq 0 (Z.to_nat (epochs training_phase)))
          (training_phase, optimizer) ;;
  ret (fst st).

(** [l[i] = x] for an index within the list. *)
Fixpoint set_nth {A : Type} (i : nat) (x : A) (l : list A) : list A :=
  match l, i with
  | [], _ => []
  | _ :: l', 0 => x :: l'
  | y :: l', S i' => y :: set_nth i' x l'
  end.

(** The loop [for tp in self.training_phases] of [train]: the phases
    are objects of the list, so what a phase becomes is seen in it. *)
Fixpoint train_loop (loaders : nat -> Loader) (i : nat)
  (tps : list TrainingPhase) : M unit :=
  match tps with
  | [] => ret tt
  | tp :: rest =>
      tp' <~ run_training_phase tp (loaders i) ;;
      modify (fun self =>
                with_training_phases (set_nth i tp' (training_phases self))
                  self) ;;~
      train_loop loaders (S i) rest
  end.

(** [train()]; [loaders i] is the loader torch gives phase [i]. *)
Definition train (loaders : nat -> Loader) : M unit :=
  _prepare_training ;;~
  compute_derived_data false ;;~
  compute_global_relations false ;;~
  modify (fun self => with_model (model_train (model self)) self) ;;~
  (fun self => train_loop loaders 0 (training_phases self) self) ;;~
  modify (fun self => with_model (model_eval (model self)) self).

(** [rel._set_verbosity(verbose)] for every relation of a dict. *)
Definition set_verbosity_all (d : dict Relations) (v : bool) : dict Relations :=
  map (fun kv => (fst kv, rel_set_verbosity (snd kv) v)) d.

(** A single object under the key given, a dict as it is, and nothing
    as [None]. *)
Definition one_or_dict {A : Type} (key : string) (x : option (A + dict A))
  : option (dict A) :=
  match x with
  | Some (inl a) => Some [(key, a)]
  | Some (inr d) => Some d
  | None => None
  end.

(** The loop of [__init__] over [training_phases]. *)
Fixpoint add_phases (tps : list TrainingPhase) (uuid4 : nat -> string)
  (i : nat) : M unit :=
  match tps with
  | [] => ret tt
  | tp :: rest =>
      add_training_phase (Some tp)
        (mkPhaseArgs None None None None None None None None None None None
           None []) (uuid4 i) ;;~
      add_phases rest uuid4 (S i)
  end.

(** [ParametricDR.__init__]; [uuid4 i] is the draw for the [i]-th
    phase.  An exception leaves no instance. *)
Definition ParametricDR_init (model0 : option Model) (in_dim : option Z)
  (out_dim : Z) (hidden_dims : list Z) (dataset0 : option (Dataset + DataArg))
  (global_relations0 batch_relations0 : option (Relations + dict Relations))
  (losses0 : option (Loss + dict Loss)) (training_defaults0 : TrainingPhase)
  (training_phases0 : option (list TrainingPhase)) (use_cuda0 verbose0 : bool)
  (uuid4 : nat -> string) : Res ParametricDR :=
  (* self.register_dataset(dataset) *)
  ds <- match dataset0 with
        | None => Ok None
        | Some (inl d) => Ok (Some d)
        | Some (inr raw) => d <- Dataset_init raw ;; Ok (Some d)
        end ;;
  let registered := match dataset0 with Some _ => true | None => false end in
  let ev := if verbose0 && registered then [Logged "Registering dataset."]
            else [] in
  m <- match model0 with
       | Some m => Ok m
       | None =>
           match in_dim, ds with
           | None, None => Raise ValueError
           | None, Some d =>
               match dict_get (data d) "data" with
               | None => Raise KeyError
               | Some x =>
                   n <- shape_last x ;;
                   FullyConnectedEmbeddingModel n out_dim hidden_dims
               end
           | Some n, _ => FullyConnectedEmbeddingModel n out_dim hidden_dims
           end
       end ;;
  let grels := match one_or_dict "rel" global_relations0 with
               | Some d => set_verbosity_all d verbose0
               | None => []
               end in
  let brels := match one_or_dict "rel" batch_relations0 with
               | Some d => set_verbosity_all d verbose0
               | None => []
               end in
  ls <- match one_or_dict "loss" losses0 with
        | Some d => Ok d
        | None => Raise ValueError
        end ;;
  let self := mkDR verbose0 ds registered m grels [] false brels ls
                training_defaults0 [] use_cuda0 false ev in
  match add_phases (match training_phases0 with Some l => l | None => [] end)
          uuid4 0 self with
  | Exc e _ => Raise e
  | Ret _ self =>
      if use_cuda0 then
        m' <- model_cuda (model self) ;; Ok (with_model m' self)
      else Ok self
  end.

End Routine.

Arguments Ret {N O A} a self.
Arguments Exc {N O A} e self.

(* ================================================================= *)
(** ** paradime/dr.py: objects from a declarative spec *)

Section FromSpec.
Context {N : Numeric} {O : Objects} {L : Library}.

(** [d[key]] for a dict with string keys and a key that is any value:
    a list, a dict or an array cannot be hashed. *)
Definition lookup_by {V : Type} (d : dict V) (key : pyval) : Res V :=
  match key with
  | PStr s => subscript d s
  | PList _ | PDict _ | PArray _ => Raise TypeError
  | _ => Raise KeyError
  end.

(** [v[key]] for a string literal [key]. *)
Definition py_subscript (v : pyval) (key : string) : Res pyval :=
  match v with
  | PDict d => subscript d key
  | PArray _ => Raise IndexError
  | _ => Raise TypeError
  end.

(** [v[i]] for a literal index [i]. *)
Definition py_index (v : pyval) (i : nat) : Res pyval :=
  match v with
  | PList l => index l i
  | PStr s =>
      match String.get i s with
      | Some c => Ok (PStr (String c EmptyString))
      | None => Raise IndexError
      end
  | PDict _ => Raise KeyError
  | PArray t => r <- take_row (value t) (Z.of_nat i) ;; Ok (PArray (mkTensor r (device t)))
  | _ => Raise TypeError
  end.

(** Reading a value of a spec at the type its use is annotated with.
    A value of another type is refused here with [TypeError]; Python
    passes it on and fails where the value is first used.  A number is
    a number: an [int] (a [bool] is one) is accepted where a [float] is
    annotated. *)
Definition as_int (v : pyval) : Res Z :=
  match v with
  | PInt z => Ok z
  | _ => Raise TypeError
  end.

Definition as_str (v : pyval) : Res string :=
  match v with
  | PStr s => Ok s
  | _ => Raise TypeError
  end.

Definition as_float (v : pyval) : Res Float :=
  match v with
  | PFloat x => Ok x
  | PInt z => Ok (of_int z)
  | PBool b => Ok (of_int (if b then 1 else 0))
  | _ => Raise TypeError
  end.

Definition as_opt_str (v : pyval) : Res (option string) :=
  match v with
  | PNone => Ok None
  | PStr s => Ok (Some s)
  | _ => Raise TypeError
  end.

Definition as_str_list (v : pyval) : Res (list string) :=
  match v with
  | PList l => mapM as_str l
  | _ => Raise TypeError
  end.

(** The keyword arguments of [**v]: [v] has to be a mapping. *)
Definition as_kwargs (v : pyval) : Res (dict pyval) :=
  match v with
  | PDict d => Ok d
  | _ => Raise TypeError
  end.

(** [entry["keys"]] read as [TypeKeyTuples], a list of pairs of
    strings.  A value of another shape is refused with [ValueError]:
    Python fails on it when unpacking, here or on first use. *)
Definition as_type_key_tuples (v : pyval) : Res (list (string * string)) :=
  match v with
  | PList l =>
      mapM (fun p => match p with
                     | PList [PStr t; PStr k] => Ok (t, k)
                     | _ => Raise ValueError
                     end) l
  | _ => Raise TypeError
  end.

(** *** [_dataset_from_spec] *)

Definition df_dict : dict DataFun :=
  [("pca", F_pca); ("spectral", F_spectral)].

(** [len(v)] of a value that is not an array, where it has one. *)
Definition py_len (v : pyval) : option nat :=
  match v with
  | PStr s => Some (String.length s)
  | PList l => Some (List.length l)
  | PDict d => Some (List.length d)
  | _ => None
  end.

(** An array is a regular value of the dataset dict; any other value
    of a spec is neither an array nor a derived entry. *)
Definition to_DataValue (v : pyval) : DataValue :=
  match v with
  | PArray t => VTensor t
  | _ => VOther (py_len v)
  end.

(** The right-hand side of the assignment in the loop. *)
Definition dataset_entry_value (entry : dict pyval) : Res DataValue :=
  if dict_in "data" entry then
    v <- subscript entry "data" ;; Ok (to_DataValue v)
  else
    fname <- subscript entry "data func" ;;
    f <- lookup_by df_dict fname ;;
    keys <- subscript entry "keys" ;;
    options <- subscript entry "options" ;;
    kwargs <- as_kwargs options ;;
    (* a keyword that names one of the two positional parameters *)
    if dict_in "func" kwargs || dict_in "type_key_tuples" kwargs
    then Raise TypeError
    else
      tkt <- as_type_key_tuples keys ;;
      e <- DerivedDatasetEntry_init f tkt kwargs ;;
      Ok (VEntry e).

(** The loop: every entry is assigned to [dataset["name"]]. *)
Fixpoint dataset_spec_loop (spec : list (dict pyval)) (dataset0 : dict DataValue)
  : Res (dict DataValue) :=
  match spec with
  | [] => Ok dataset0
  | entry :: spec' =>
      v <- dataset_entry_value entry ;;
      dataset_spec_loop spec' (dict_set dataset0 "name" v)
  end.

(** [_dataset_from_spec(spec)] *)
Definition _dataset_from_spec (spec : list (dict pyval)) : Res Dataset :=
  d <- dataset_spec_loop spec [] ;;
  Dataset_init (ADict d).

(** *** [_losses_from_spec] *)

(** The classes of the registry [loss_dict]. *)
Inductive LossClass : Type :=
| C_RelationLoss
| C_ClassificationLoss
| C_ReconstructionLoss
| C_PositionLoss.

Definition loss_dict : dict LossClass :=
  [("relation", C_RelationLoss); ("classification", C_ClassificationLoss);
   ("reconstruction", C_ReconstructionLoss); ("position", C_PositionLoss)].

(** The functions loss.py defines at module level, by name: the
    module defines the classes [Loss], [RelationLoss],
    [ClassificationLoss], [PositionLoss], [ReconstructionLoss] and
    [CompoundLoss], and no function. *)
Definition pdloss_functions : dict LossFun := [].

(** [pdloss.name], read where a comparison function is expected. *)
Definition pdloss_attr (name : string) : Res LossFun :=
  match dict_get pdloss_functions name with
  | Some f => Ok f
  | None => Raise AttributeError
  end.

(** The dict display of the registry [loss_func_dict], whose values
    are evaluated in order before the loop starts. *)
Definition loss_func_dict : Res (dict LossFun) :=
  let mse := MSELoss in
  kl_div <- pdloss_attr "kullback_leibler_div" ;;
  let cross_entropy := CrossEntropyLoss in
  umap_cross_entropy <- pdloss_attr "cross_entropy_loss" ;;
  Ok [("mse", mse); ("kl div", kl_div);
      ("cross entropy", cross_entropy);
      ("umap cross entropy", umap_cross_entropy)].

(** The keywords each branch of the loop calls its class with. *)
Definition RelationLoss_keywords : list string :=
  ["loss_function"; "global_relation_key"; "batch_relation_key";
   "embedding_method"].
Definition ClassificationLoss_keywords : list string :=
  ["loss_function"; "data_key"; "label_key"; "classification_method"].
Definition ReconstructionLoss_keywords : list string :=
  ["loss_function"; "data_key"; "encoding_method"; "decoding_method"].
Definition PositionLoss_keywords : list string :=
  ["loss_function"; "data_key"; "position_key"; "embedding_method"].

(** [entry["keys"][group][i]] *)
Definition entry_key (entry : dict pyval) (group : string) (i : nat)
  : Res pyval :=
  ks <- subscript entry "keys" ;;
  g <- py_subscript ks group ;;
  py_index g i.

(** [loss_func_dict[entry["func"]]], for the registry the loop has. *)
Definition entry_func (registry : dict LossFun) (entry : dict pyval)
  : Res LossFun :=
  fn <- subscript entry "func" ;;
  lookup_by registry fn.

(** The arguments of the call of a branch, evaluated left to right. *)
Definition loss_call_args (registry : dict LossFun) (c : LossClass)
  (entry : dict pyval) : Res (LossFun * list pyval) :=
  f <- entry_func registry entry ;;
  match c with
  | C_RelationLoss =>
      g <- entry_key entry "rels" 0 ;;
      b <- entry_key entry "rels" 1 ;;
      m <- entry_key entry "methods" 0 ;;
      Ok (f, [g; b; m])
  | C_ClassificationLoss =>
      d <- entry_key entry "data" 0 ;;
      l <- entry_key entry "data" 1 ;;
      m <- entry_key entry "methods" 0 ;;
      Ok (f, [d; l; m])
  | C_ReconstructionLoss =>
      d <- entry_key entry "data" 0 ;;
      e <- entry_key entry "methods" 0 ;;
      m <- entry_key entry "methods" 1 ;;
      Ok (f, [d; e; m])
  | C_PositionLoss =>
      d <- entry_key entry "data" 0 ;;
      p <- entry_key entry "data" 1 ;;
      m <- entry_key entry "methods" 0 ;;
      Ok (f, [d; p; m])
  end.

(** The call of the class with the keywords of its branch: the
    keywords are bound to the parameters of [__init__], and then the
    constructor runs with the parameters it has. *)
Definition construct_loss (c : LossClass) (f : LossFun) (args : list pyval)
  (uuid4 : string) : Res Loss :=
  match c with
  | C_RelationLoss =>
      bind_keywords RelationLoss_params RelationLoss_keywords ;;;
      Ok (RelationLoss_init f None uuid4)
  | C_ClassificationLoss =>
      bind_keywords ClassificationLoss_params ClassificationLoss_keywords ;;;
      label_key <- index args 1 ;;
      label_key <- as_str label_key ;;
      Ok (ClassificationLoss_init label_key f None uuid4)
  | C_ReconstructionLoss =>
      bind_keywords ReconstructionLoss_params ReconstructionLoss_keywords ;;;
      Ok (ReconstructionLoss_init f None uuid4)
  | C_PositionLoss =>
      bind_keywords PositionLoss_params PositionLoss_keywords ;;;
      position_key <- index args 1 ;;
      position_key <- as_str position_key ;;
      Ok (PositionLoss_init position_key f None uuid4)
  end.

(** [loss_dict[entry["losstype"]]] *)
Definition entry_class (entry : dict pyval) : Res LossClass :=
  lt <- subscript entry "losstype" ;;
  lookup_by loss_dict lt.

(** [entry["loss"]["weights"]] of a training-phase entry. *)
Definition entry_weights (entry : dict pyval) : Res pyval :=
  l <- subscript entry "loss" ;; py_subscript l "weights".

(** One turn of the loop: the class of the entry (the chain of
    comparisons ends in [PositionLoss]), the arguments, the call, and
    the assignment to [losses[entry["name"]]]. *)
Definition losses_entry (registry : dict LossFun) (entry : dict pyval)
  (uuid4 : string) (losses0 : dict Loss) : Res (dict Loss) :=
  c <- entry_class entry ;;
  fa <- loss_call_args registry c entry ;;
  l <- construct_loss c (fst fa) (snd fa) uuid4 ;;
  nm <- subscript entry "name" ;;
  nm <- as_str nm ;;
  Ok (dict_set losses0 nm l).

Fixpoint losses_spec_loop (registry : dict LossFun)
  (spec : list (dict pyval)) (uuid4 : nat -> string)
  (i : nat) (losses0 : dict Loss) : Res (dict Loss) :=
  match spec with
  | [] => Ok losses0
  | entry :: spec' =>
      d <- losses_entry registry entry (uuid4 i) losses0 ;;
      losses_spec_loop registry spec' uuid4 (S i) d
  end.

(** [_losses_from_spec(spec)]: the two registries are built, and then
    the loop runs over the spec; [uuid4 i] is the draw for the name of
    the loss of entry [i]. *)
Definition _losses_from_spec (spec : list (dict pyval)) (uuid4 : nat -> string)
  : Res (dict Loss) :=
  registry <- loss_func_dict ;;
  losses_spec_loop registry spec uuid4 0 [].

(** *** [_training_phases_from_spec] *)

(** The parameters of [TrainingPhase.__init__] that the call of the
    loop gives by keyword. *)
Definition explicit_keywords : list string :=
  ["epochs"; "sampling"; "loss_keys"; "loss_weights"; "optimizer"].

(** [x in l] for every key of a dict. *)
Definition no_key_in (d : dict pyval) (l : list string) : bool :=
  forallb (fun k => negb (str_in k l)) (dict_keys d).

(** A keyword of the options that names a parameter is bound to it;
    the others are collected in [**kwargs]. *)
Definition named_parameters : list string :=
  ["name"; "batch_size"; "batches_per_epoch"; "edge_rel_key";
   "neg_sampling_rate"; "learning_rate"; "report_interval"].

Definition option_or {A : Type} (d : dict pyval) (k : string)
  (conv : pyval -> Res A) (default : A) : Res A :=
  match dict_get d k with
  | Some v => conv v
  | None => Ok default
  end.

(** One turn of the loop. *)
Definition phase_from_entry (entry : dict pyval) : Res TrainingPhase :=
  epochs0 <- subscript entry "epochs" ;;
  st <- (s <- subscript entry "sampling" ;; py_subscript s "samplingtype") ;;
  let sampling0 := match st with
                   | PStr "edge" => "negative_edge"
                   | _ => "standard"
                   end in
  loss_keys0 <- (l <- subscript entry "loss" ;; py_subscript l "components") ;;
  loss_weights0 <- entry_weights entry ;;
  optimizer0 <- (o <- subscript entry "optimizer" ;;
                 py_subscript o "optimtype") ;;
  so <- (s <- subscript entry "sampling" ;; py_subscript s "options") ;;
  so <- as_kwargs so ;;
  oo <- (o <- subscript entry "optimizer" ;; py_subscript o "options") ;;
  oo <- as_kwargs oo ;;
  (* a keyword given twice *)
  if negb (no_key_in so explicit_keywords && no_key_in oo explicit_keywords
           && no_key_in oo (dict_keys so))
  then Raise TypeError
  else
    let kw := dict_merge so oo in
    epochs1 <- as_int epochs0 ;;
    loss_keys1 <- as_str_list loss_keys0 ;;
    name1 <- option_or kw "name" as_opt_str None ;;
    batch_size1 <- option_or kw "batch_size" as_int 50%Z ;;
    batches_per_epoch1 <- option_or kw "batches_per_epoch" as_int (-1)%Z ;;
    edge_rel_key1 <- option_or kw "edge_rel_key" as_str "rel" ;;
    neg_sampling_rate1 <- option_or kw "neg_sampling_rate" as_int 5%Z ;;
    learning_rate1 <- option_or kw "learning_rate" as_float lr_default ;;
    report_interval1 <- option_or kw "report_interval" as_int 5%Z ;;
    TrainingPhase_init name1 epochs1 batch_size1 batches_per_epoch1 sampling0
      edge_rel_key1 neg_sampling_rate1 loss_keys1
      (match loss_weights0 with PNone => None | w => Some w end)
      optimizer0 learning_rate1 report_interval1
      (filter (fun kv => negb (str_in (fst kv) named_parameters)) kw).

(** [_training_phases_from_spec(spec)] *)
Definition _training_phases_from_spec (spec : list (dict pyval))
  : Res (list TrainingPhase) :=
  mapM phase_from_entry spec.

End FromSpec.

(* ================================================================= *)
(** ** Definitions the statements use *)

Section StatementDefinitions.
Context {N : Numeric} {O : Objects} {L : Library}.

(** The weighted sum in the words of the specification: the sum over
    [i < k] of [weights[i]] times the output of child [i], the terms
    added to [0.] in the order of their index (floating-point addition
    is not associative, so the order is part of the value). *)
Fixpoint weighted_sum (k : nat) (weights outputs : list Float) : Float :=
  match k with
  | 0 => f0
  | S i =>
      fadd (weighted_sum i weights outputs)
        (fmul (nth i weights f0) (nth i outputs f0))
  end.

(** Everything of an instance but the relation data and the events. *)
Definition outside_relation_data (s : ParametricDR) :=
  (verbose s, _dataset s, _dataset_registered s, model s, global_relations s,
   _global_relations_computed s, batch_relations s, losses s,
   training_defaults s, training_phases s, use_cuda s, trained s).

(** The value [compute_one] stores for a key. *)
Definition computed_for (s : ParametricDR) (k : string) : Res RelationData :=
  rel <- subscript (global_relations s) k ;;
  x <- (ds <- dataset s ;; subscript (data ds) (rel_data_key rel)) ;;
  rel_compute_relations rel x.

(** What training leaves alone: everything but the model, the flag
    [trained] and the events. *)
Definition outside_training (s : ParametricDR) :=
  (verbose s, _dataset s, _dataset_registered s, global_relations s,
   global_relation_data s, _global_relations_computed s, batch_relations s,
   losses s, training_defaults s, training_phases s, use_cuda s).

(** The keywords of a call that name no parameter of the function. *)
Definition rejected_keywords (params : list (string * bool))
  (keywords : list string) : list string :=
  filter (fun k => negb (str_in k (map fst params))) keywords.

(** The keys for which [rel.compute_relations] was called, and those
    for which a derived entry's function was called, in order. *)
Definition relations_computed (ev : list event) : list string :=
  flat_map (fun e => match e with RelationsComputed k => [k] | _ => [] end) ev.

Definition derived_computed (ev : list event) : list string :=
  flat_map (fun e => match e with DerivedComputed k => [k] | _ => [] end) ev.

(** How often the loss was called, and how often checkpointed. *)
Definition loss_calls (ev : list event) : nat :=
  List.length (filter (fun e => match e with LossCalled => true | _ => false end) ev).

Definition checkpoints (ev : list event) : nat :=
  List.length
    (filter (fun e => match e with CheckpointCalled => true | _ => false end) ev).

(** The values of a list in the order of their first occurrence,
    each once: the order the specification gives the deduplicated
    indices of a batch. *)
Fixpoint first_occurrences (l : list Z) : list Z :=
  match l with
  | [] => []
  | x :: l' => x :: filter (fun y => negb (Z.eqb y x)) (first_occurrences l')
  end.

(** An instance of one of the classes that loss.py defines. *)
Definition library_loss (l : Loss) : bool :=
  match l with
  | SubclassLoss _ => false
  | _ => true
  end.

(** The batches the loader yields over the epochs of a range. *)
Definition batches_yielded (dataloader : Loader) (range : list nat) : nat :=
  list_sum (map (fun e => List.length (fst (loader_epoch dataloader e))) range).

(** [compute_derived_data] as the specification reads it: when the
    definitions are not kept, clearing them after the first entry ends
    the loop, so the entries after the first are not computed. *)
Definition compute_derived_data_as_specified (keep_definitions : bool)
  : M unit :=
  fun self =>
    if negb (_dataset_registered self)
    then Exc NoDatasetRegisteredError self
    else
      mbind (lift dataset)
        (fun ds =>
           derived_loop keep_definitions
             (if keep_definitions then _derived_entries ds
              else firstn 1 (_derived_entries ds)) true) self.

(** The keys [NegSampledEdgeDataset.__getitem__] adds to an item. *)
Definition edge_keys : list string := ["row"; "col"; "rel"; "from_to_data"].

(** The [indices] of a dataset are a vector of integers: what
    [Dataset.__init__] makes them when the caller supplies none. *)
Definition integer_indices (ds : Dataset) : Prop :=
  exists t ids,
    dict_get (data ds) "indices" = Some t /\ value t = Arr (map Int ids).

(** What an item of a [NegSampledEdgeDataset] over a dataset with the
    columns [ks] looks like: the edge fields are arrays,
    [from_to_data] is a pair of arrays, [indices] holds the integers
    [ids], and every other column has one row per index. *)
Definition item_shape (ks : list string) (it : dict Tensor) (ids : list Z)
  : Prop :=
  (forall k, In k (dict_keys it) -> In k edge_keys \/ In k ks)
  /\ (forall k, In k ["row"; "col"; "rel"] ->
        exists f rows, dict_get it k = Some f /\ value f = Arr rows)
  /\ (exists f ra rb,
        dict_get it "from_to_data" = Some f /\ value f = Arr [Arr ra; Arr rb])
  /\ (exists f, dict_get it "indices" = Some f /\ value f = Arr (map Int ids))
  /\ (forall k, In k ks -> ~ In k edge_keys ->
        exists f rows, dict_get it k = Some f /\ value f = Arr rows
                       /\ List.length rows = List.length ids).

End StatementDefinitions.

(* ================================================================= *)
(** ** A small instance of the interface

    Integers for floating-point numbers, the identity for the model,
    relation data that is the tensor it was computed from, comparison
    functions that return a constant, and a caller's loss that counts
    its calls and logs the count at every checkpoint.  The examples run
    the embedding on it. *)

#[export] Instance ZNumeric : Numeric := {|
  Float := Z;
  f0 := 0%Z;
  f1 := 1%Z;
  fadd := Z.add;
  fmul := Z.mul;
  of_int := fun z => z
|}.

#[export] Instance SmallObjects : Objects := {|
  Model := unit;
  Relations := string;
  RelationData := Tensor;
  LossFun := Z;
  PyClass := bool;
  Optimizer := unit;
  UserLoss := Z * list Z;
  UserFun := unit
|}.

Definition empty_tensor : @Tensor ZNumeric := mkTensor (Arr []) cpu.

#[export] Instance SmallLibrary : @Library ZNumeric SmallObjects := {|
  model_call := fun _ x => Ok x;
  model_attr := fun _ name =>
    if String.eqb name "embed" then Some (Method (fun x => Ok x))
    else if String.eqb name "in_features" then Some Plain
    else None;
  model_device := fun _ => Some cpu;
  model_cuda := fun m => Ok m;
  model_train := fun m => m;
  model_eval := fun m => m;
  FullyConnectedEmbeddingModel := fun _ _ _ => Ok tt;
  rel_data_key := fun r => r;
  rel_compute_relations := fun _ x => Ok x;
  rel_set_verbosity := fun r _ => r;
  rd_sub := fun r _ => Ok r;
  rd_data := fun r => r;
  rd_tocoo := fun _ => Ok (mkCoo [] [] [] 0);
  rd_to_square_array := fun r => Ok r;
  lossfun_rel := fun f _ _ => Ok f;
  lossfun_apply := fun f _ _ => Ok f;
  MSELoss := 0%Z;
  CrossEntropyLoss := 1%Z;
  is_IntTensor := fun _ => true;
  to_torch := fun t => t;
  shape_last := fun _ => Ok 2%Z;
  PCA_fit_transform := fun _ x =>
    match x with
    | FromData t => Ok t
    | FromRel r => Ok r
    end;
  SpectralEmbedding_fit_transform := fun _ x => Ok x;
  userfun_apply := fun _ _ _ => Ok empty_tensor;
  user_forward4 := fun _ _ _ _ _ => Ok 1%Z;
  user_forward5 := fun u _ _ _ _ _ => Ok (1%Z, ((fst u + 1)%Z, snd u));
  user_checkpoint := fun u => Ok (0%Z, snd u ++ [fst u]);
  user_history_last := fun u =>
    match rev (snd u) with
    | h :: _ => Ok h
    | [] => Raise IndexError
    end;
  user_is_relation_or_compound := fun _ => false;
  user_check_sampling_and_relations := fun _ _ _ => Ok tt;
  is_Optimizer_subclass := fun c => c;
  Adam := true;
  new_optimizer := fun _ _ _ _ => Ok tt;
  backward_and_step := fun o m _ => Ok (m, o);
  lr_default := 0%Z
|}.

(** Values of the small instance at the types of the interface. *)
Definition num (z : Z) : @Float ZNumeric := z.
Definition constant_fun (z : Z) : @LossFun SmallObjects := z.
Definition counting_loss (count : Z) (history : list Z) : @UserLoss SmallObjects :=
  (count, history).
Definition the_model : @Model SmallObjects := tt.
Definition relation_on (data_key : string) : @Relations SmallObjects := data_key.
Definition relation_data (t : @Tensor ZNumeric) : @RelationData SmallObjects := t.

(** Two derived entries over the column ["data"], each computed by a
    function of the caller, in a registered dataset of three rows. *)
Definition three_rows : @Tensor ZNumeric :=
  mkTensor (Arr [Arr [Int 1; Int 2]; Arr [Int 3; Int 4]; Arr [Int 5; Int 6]]) cpu.

Definition derived_from_data : @DerivedDatasetEntry ZNumeric SmallObjects :=
  mkEntry (F_user tt) false [("data", "data")] [].

Definition two_derived_dataset : @Dataset ZNumeric SmallObjects :=
  mkDataset [("data", three_rows); ("indices", arange 3)]
    [("first", derived_from_data); ("second", derived_from_data)].

Definition plain_phase : @TrainingPhase ZNumeric SmallObjects :=
  mkPhase None 5 50 (-1) "standard" "rel" 5 ["loss"] (Some [num 1]) None true
    (num 0) 5 [].

Definition two_derived_dr : @ParametricDR ZNumeric SmallObjects :=
  mkDR false (Some two_derived_dataset) true the_model [] [] false []
    [("loss", SubclassLoss (counting_loss 0 []))] plain_phase [] false false [].

(** The columns and the derived-entry definitions an instance holds. *)
Definition columns_and_definitions (self : @ParametricDR ZNumeric SmallObjects)
  : list string * list string :=
  match _dataset self with
  | Some ds => (dict_keys (data ds), dict_keys (_derived_entries ds))
  | None => ([], [])
  end.

(** A registered dataset of three rows with one global relation on its
    column ["data"], and a phase of one epoch whose loader yields one
    batch. *)
Definition small_dataset : @Dataset ZNumeric SmallObjects :=
  mkDataset [("data", three_rows); ("indices", arange 3)] [].

Definition one_epoch_phase (l : @Loss ZNumeric SmallObjects)
  : @TrainingPhase ZNumeric SmallObjects :=
  mkPhase (Some "main") 1 50 (-1) "standard" "rel" 5 ["loss"] (Some [num 1])
    (Some l) true (num 0) 5 [].

Definition small_dr (computed : bool) (l : @Loss ZNumeric SmallObjects)
  : @ParametricDR ZNumeric SmallObjects :=
  mkDR false (Some small_dataset) true the_model [("rel", relation_on "data")]
    [] computed [("rel", relation_on "data")] [("loss", l)] plain_phase
    [one_epoch_phase l] false false [].

Definition one_batch_loader : @Loader ZNumeric :=
  mkLoader None
    (fun _ => ([[("data", three_rows); ("indices", arange 3)]], None)).

(** The two losses of the examples: one of a class of loss.py, and one
    of the caller's. *)
Definition position_loss : @Loss ZNumeric SmallObjects :=
  PositionLoss (constant_fun 5) "p".

Definition caller_loss : @Loss ZNumeric SmallObjects :=
  SubclassLoss (counting_loss 0 []).

(** A losses spec of one relation entry. *)
Definition relation_entry : dict (@pyval ZNumeric SmallObjects) :=
  [("name", PStr "rel_loss"); ("losstype", PStr "relation");
   ("func", PStr "kl div");
   ("keys", PDict [("rels", PList [PStr "rel"; PStr "rel"]);
                   ("methods", PList [PStr "embed"])])].

(** A dataset spec of a raw entry followed by a derived one. *)
Definition raw_entry : dict (@pyval ZNumeric SmallObjects) :=
  [("data", PArray three_rows)].

Definition pca_entry : dict (@pyval ZNumeric SmallObjects) :=
  [("data func", PStr "pca");
   ("keys", PList [PList [PStr "data"; PStr "data"]]);
   ("options", PDict [])].

(** A mapping with the two losses under ["a"] and ["b"], the arguments
    [loss_keys=["a", "b"]] of [add_training_phase], and an instance
    with that mapping and the default training defaults. *)
Definition ab_losses : dict (@Loss ZNumeric SmallObjects) :=
  [("a", position_loss); ("b", caller_loss)].

Definition keys_ab : @PhaseArgs ZNumeric SmallObjects :=
  mkPhaseArgs None None None None None None None (Some ["a"; "b"]) None None
    None None [].

Definition ab_dr : @ParametricDR ZNumeric SmallObjects :=
  mkDR false (Some small_dataset) true the_model [] [] false [] ab_losses
    plain_phase [] false false [].

Definition named_ab_phase : @TrainingPhase ZNumeric SmallObjects :=
  mkPhase (Some "both") 5 50 (-1) "standard" "rel" 5 ["a"; "b"]
    (Some [num 1; num 1]) None true (num 0) 5 [].

(** An edge dataset over eight rows with the edges (5, 7) and (2, 5)
    and negative-sampling rate 1, and the draws of [torch.randint] for
    two items. *)
Definition eight_rows : @Tensor ZNumeric :=
  mkTensor (Arr (map (fun i => Arr [Int i]) [10; 11; 12; 13; 14; 15; 16; 17]%Z))
    cpu.

Definition edge_dataset : @NegSampledEdgeDataset ZNumeric SmallObjects :=
  mkNegSampled (mkDataset [("data", eight_rows); ("indices", arange 8)] [])
    (mkCoo [5; 2]%Z [7; 5]%Z [num 1; num 1] 8) [num 1; num 1] 1.

Definition draw_six : nat -> Z := fun _ => 6%Z.
Definition draw_three : nat -> Z := fun _ => 3%Z.

(* ================================================================= *)
(** ** paradime/dr.py: relations and routines from a declarative spec

    The classes of [paradime.transforms] and [paradime.relations] and
    [utils.parsing.validate_spec] are not part of the sources: calling
    a class with its keyword arguments, and validating a spec, are
    parameters of this section. *)

Section SpecRoutine.
Context {N : Numeric} {O : Objects} {L : Library}.

(** The classes of the registries [tf_dict] and [rel_dict]. *)
Inductive TransformClass : Type :=
| C_Symmetrize
| C_Normalize
| C_NormalizeRows
| C_PerplexityBasedRescale
| C_StudentTTransform
| C_ConnectivityBasedRescale.

Inductive RelationsClass : Type :=
| C_Precomputed
| C_PDist
| C_NeighborBasedPDist
| C_DifferentiablePDist
| C_DistsFromTo.

Definition tf_dict : dict TransformClass :=
  [("symmetrize", C_Symmetrize); ("normalize", C_Normalize);
   ("normalize rows", C_NormalizeRows);
   ("perplexity", C_PerplexityBasedRescale);
   ("t-dist", C_StudentTTransform); ("connect", C_ConnectivityBasedRescale)].

Definition rel_dict : dict RelationsClass :=
  [("precomp", C_Precomputed); ("pdist", C_PDist);
   ("neighbor", C_NeighborBasedPDist); ("pdistdiff", C_DifferentiablePDist);
   ("fromto", C_DistsFromTo)].

(** A validated spec: the lists under its keys ["dataset"],
    ["relations"], ["losses"] and ["training phases"], each empty when
    the key is absent ([spec.get(key, {})]). *)
Record ValidSpec : Type := mkSpec {
  spec_dataset : list (dict pyval);
  spec_relations : list (dict pyval);
  spec_losses : list (dict pyval);
  spec_phases : list (dict pyval)
}.

Variable Transform : Type.
Variable FileOrSpec : Type.
(** A class of [tf_dict] called with the keyword arguments [options] *)
Variable new_transform : TransformClass -> dict pyval -> Res Transform.
(** A class of [rel_dict] called with [transform=tfs] and the keyword
    arguments [options] *)
Variable new_relations :
  RelationsClass -> list Transform -> dict pyval -> Res Relations.
(** [utils.parsing.validate_spec(file_or_spec)] *)
Variable validate_spec : FileOrSpec -> Res ValidSpec.

(** A list of dicts of a spec; a value of another type is refused
    with [TypeError] (see [as_int]). *)
Definition as_dict_list (v : pyval) : Res (list (dict pyval)) :=
  match v with
  | PList l => mapM as_kwargs l
  | _ => Raise TypeError
  end.

(** [v == s] for a string literal [s] *)
Definition py_eq_str (v : pyval) (s : string) : bool :=
  match v with
  | PStr s' => String.eqb s' s
  | _ => false
  end.

(** [_transforms_from_spec(spec)] *)
Definition _transforms_from_spec (spec : list (dict pyval))
  : Res (list Transform) :=
  mapM (fun tfspec =>
          t <- subscript tfspec "tftype" ;;
          c <- lookup_by tf_dict t ;;
          o <- subscript tfspec "options" ;;
          kw <- as_kwargs o ;;
          new_transform c kw)
    spec.

(** The loop of [_relations_from_spec]. *)
Fixpoint relations_spec_loop (spec : list (dict pyval))
  (global_relations0 batch_relations0 : dict Relations)
  : Res (dict Relations * dict Relations) :=
  match spec with
  | [] => Ok (global_relations0, batch_relations0)
  | entry :: spec' =>
      ts <- subscript entry "transforms" ;;
      ts <- as_dict_list ts ;;
      tfs <- _transforms_from_spec ts ;;
      rt <- subscript entry "reltype" ;;
      c <- lookup_by rel_dict rt ;;
      o <- subscript entry "options" ;;
      kw <- as_kwargs o ;;
      (* the keyword [transform] given twice *)
      if dict_in "transform" kw then Raise TypeError else
      rel <- new_relations c tfs kw ;;
      level <- subscript entry "level" ;;
      nm <- subscript entry "name" ;;
      nm <- as_str nm ;;
      if py_eq_str level "global" then
        relations_spec_loop spec' (dict_set global_relations0 nm rel)
          batch_relations0
      else
        relations_spec_loop spec' global_relations0
          (dict_set batch_relations0 nm rel)
  end.

(** [_relations_from_spec(spec)] *)
Definition _relations_from_spec (spec : list (dict pyval))
  : Res (dict Relations * dict Relations) :=
  relations_spec_loop spec [] [].

(** [ParametricDR.from_spec(file_or_spec)] for [cls = ParametricDR].
    [TrainingPhase()] is the default of the parameter
    [training_defaults], evaluated when the class is defined; [uuid4]
    and [uuid4'] are the draws for the names of the losses and of the
    compound losses of the phases. *)
Definition from_spec (file_or_spec : FileOrSpec) (uuid4 uuid4' : nat -> string)
  : Res ParametricDR :=
  training_defaults0 <- TrainingPhase_default ;;
  spec <- validate_spec file_or_spec ;;
  dataset0 <- match spec_dataset spec with
              | [] => Ok None
              | dataset_spec =>
                  d <- _dataset_from_spec dataset_spec ;; Ok (Some (inl d))
              end ;;
  rels <- _relations_from_spec (spec_relations spec) ;;
  losses0 <- _losses_from_spec (spec_losses spec) uuid4 ;;
  training_phases0 <- _training_phases_from_spec (spec_phases spec) ;;
  ParametricDR_init None None 2 [100; 50]%Z dataset0
    (Some (inr (fst rels))) (Some (inr (snd rels))) (Some (inr losses0))
    training_defaults0 (Some training_phases0) false false uuid4'.

(** [self(X)]: [__call__] is [embed]. *)
Definition ParametricDR_call (self : ParametricDR) (X : Tensor) : Res Tensor :=
  embed self X.

End SpecRoutine.

(* ================================================================= *)
(** ** Further definitions the statements use *)

Section MoreStatementDefinitions.
Context {N : Numeric} {O : Objects} {L : Library}.

(** The losses built from the classes of loss.py alone. *)
Fixpoint library_only (l : Loss) : bool :=
  match l with
  | SubclassLoss _ => false
  | CompoundLoss ls _ _ => forallb library_only ls
  | _ => true
  end.

(** The losses in which no [RelationLoss] takes part. *)
Fixpoint relation_free (l : Loss) : bool :=
  match l with
  | SubclassLoss _ => false
  | RelationLoss _ _ => false
  | CompoundLoss ls _ _ => forallb relation_free ls
  | _ => true
  end.

(** The keys of the batch that [forward] of a loss subscripts. *)
Fixpoint keys_read (l : Loss) : list string :=
  match l with
  | BaseLoss _ => []
  | RelationLoss _ _ => ["indices"; "data"]
  | ClassificationLoss _ _ => ["data"; "labels"]
  | PositionLoss _ _ => ["data"; "pos"]
  | ReconstructionLoss _ _ => ["data"]
  | CompoundLoss ls _ _ => flat_map keys_read ls
  | SubclassLoss _ => []
  end.

(** The argument types a derived entry accepts, and the one that makes
    it require the relations. *)
Definition valid_type (t : string) : bool :=
  String.eqb t "data" || String.eqb t "rel".

Definition relation_type (t : string) : bool := String.eqb t "rel".

(** Every column of a dataset has [n] rows. *)
Definition columns_aligned (ds : Dataset) (n : nat) : Prop :=
  Forall (fun kv => len (snd kv) = Ok n) (data ds).

(** [len(data["data"])] is [n], for the dict [Dataset] is built from. *)
Definition data_length (d : dict DataValue) (n : nat) : Prop :=
  exists d0, dict_get d "data" = Some d0
             /\ match d0 with
                | VTensor t0 => len t0 = Ok n
                | VOther (Some m) => m = n
                | _ => False
                end.

(** A call of [add_training_phase] with no optional argument: every
    parameter has the default [None]. *)
Definition no_arguments : PhaseArgs :=
  mkPhaseArgs None None None None None None None None None None None None [].

(** The call [set_training_defaults(batches_per_epoch=n)]: the
    parameters have the default [None], but for [report_interval],
    whose default is 5. *)
Definition only_batches_per_epoch (n : Z) : PhaseArgs :=
  mkPhaseArgs None None None (Some n) None None None None None None None
    (Some 5%Z) [].

(** The phase [add_training_phase] starts from. *)
Definition phase_to_add (training_phase : option TrainingPhase)
  (a : PhaseArgs) (self : ParametricDR) : TrainingPhase :=
  override_phase a
    (match training_phase with
     | None => deepcopy (training_defaults self)
     | Some tp => tp
     end).

(** A computation leaves the flag [trained] as it finds it, however
    it ends. *)
Definition leaves_trained {A : Type} (c : M A) : Prop :=
  forall s, match c s with
            | Ret _ s' => trained s' = trained s
            | Exc _ s' => trained s' = trained s
            end.

(** The flag [trained] after the run [whole], which begins with the
    run [first]: it is set when [whole] returns; when [whole] raises,
    it is set if [first] ran to its end, and is as it was if not. *)
Definition trained_by_first {A B : Type} (whole : M A) (first : M B) : Prop :=
  forall s, match whole s with
            | Ret _ s' => trained s' = true
            | Exc _ s' =>
                match first s with
                | Ret _ _ => trained s' = true
                | Exc _ _ => trained s' = trained s
                end
            end.

(** How often [loss.backward()] and [optimizer.step()] were reached. *)
Definition backward_steps (ev : list event) : nat :=
  List.length
    (filter (fun e => match e with BackwardStep => true | _ => false end) ev).

(** A method keeps the flag [trained] set, however it ends. *)
Definition keeps_trained {A : Type} (c : M A) : Prop :=
  forall s, trained s = true ->
            match c s with
            | Ret _ s' => trained s' = true
            | Exc _ s' => trained s' = true
            end.

(** Everything of an instance but the dataset and the events. *)
Definition outside_dataset (s : ParametricDR) :=
  (verbose s, _dataset_registered s, model s, global_relations s,
   global_relation_data s, _global_relations_computed s, batch_relations s,
   losses s, training_defaults s, training_phases s, use_cuda s, trained s).

End MoreStatementDefinitions.

(* ================================================================= *)
(** ** Further examples on the small instance *)

(** A batch with positions, and the same entries in another order
    beside an entry no loss reads. *)
Definition position_batch : dict (@Tensor ZNumeric) :=
  [("data", three_rows); ("pos", three_rows)].

Definition position_batch' : dict (@Tensor ZNumeric) :=
  [("labels", arange 3); ("pos", three_rows); ("data", three_rows)].

(** A loss of the base class. *)
Definition base_loss : @Loss ZNumeric SmallObjects := BaseLoss "base".

(** A mapping with the caller's loss under ["loss"]. *)
Definition one_loss : dict (@Loss ZNumeric SmallObjects) :=
  [("loss", caller_loss)].

(** A routine without phases over the small dataset. *)
Definition no_phase_dr : @ParametricDR ZNumeric SmallObjects :=
  mkDR false (Some small_dataset) true the_model [("rel", relation_on "data")]
    [] false [] one_loss plain_phase [] false false [].

(** A validation that finds nothing in the spec, and classes of
    transforms and relations that accept every argument. *)
Definition empty_spec : @ValidSpec ZNumeric SmallObjects := mkSpec [] [] [] [].

Definition validate_nothing (_ : unit)
  : Res (@ValidSpec ZNumeric SmallObjects) := Ok empty_spec.

Definition any_transform (_ : TransformClass)
  (_ : dict (@pyval ZNumeric SmallObjects)) : Res unit := Ok tt.

Definition any_relations (_ : RelationsClass) (_ : list unit)
  (_ : dict (@pyval ZNumeric SmallObjects)) : Res (@Relations SmallObjects) :=
  Ok (relation_on "data").

Definition no_uuid (_ : nat) : string := "".

(** A relations spec of a global relation and of one whose level is
    misspelt. *)
Definition relation_spec_entry (nm level : string)
  : dict (@pyval ZNumeric SmallObjects) :=
  [("name", PStr nm); ("level", PStr level); ("reltype", PStr "pdist");
   ("transforms", PList []); ("options", PDict [])].

Definition two_relations_spec : list (dict (@pyval ZNumeric SmallObjects)) :=
  [relation_spec_entry "hd" "global"; relation_spec_entry "ld" "Global"].

(** The small routine, trained. *)
Definition trained_dr : @ParametricDR ZNumeric SmallObjects :=
  with_trained true (small_dr false caller_loss).

(** A loader that yields one batch in an epoch and then raises. *)
Definition interrupted_loader : @Loader ZNumeric :=
  mkLoader None
    (fun _ => ([[("data", three_rows); ("indices", arange 3)]],
               Some RuntimeError)).

(* ================================================================= *)
(** ** Proof tactics *)

(** From [bind r k = Ok b]: the value of [r] and the rest of the run. *)
Ltac bind_inv H :=
  match type of H with
  | bind ?r ?k = Ok ?b =>
      let a := fresh "a" in
      let Ha := fresh "Ha" in
      assert (Ha : exists x, r = Ok x /\ k x = Ok b)
        by (destruct r as [a|a]; [exists a; split; [reflexivity|exact H]
                                 | discriminate H]);
      clear H; destruct Ha as [a [Ha H]]; cbv beta in H
  end.

(** Case analysis on the innermost test of a run that returned. *)
Ltac step_in H :=
  match type of H with
  | context [match ?x with _ => _ end] =>
      lazymatch x with
      | context [match _ with _ => _ end] => fail
      | _ => destruct x eqn:?; simpl in H; try discriminate H
      end
  end.

Ltac run_in H :=
  repeat (progress
            (unfold log_if_verbose, add_to_dataset, add_one, set_dataset_data,
               set_derived_entries, dataset, mbind, lift, modify, emit, ret,
               raise in H;
             simpl in H)
          || step_in H).

Ltac inject_all :=
  repeat match goal with
         | E : Ret _ _ = Ret _ _ |- _ => injection E as <-
         | E : Ok _ = Ok _ |- _ => injection E as <-
         | E : Some _ = Some _ |- _ => injection E as <-
         end.

(** Counting the events of a trace built by appending. *)
Ltac count_events :=
  simpl; unfold loss_calls, checkpoints;
  rewrite ?filter_app, ?length_app; simpl; try lia.

(* ================================================================= *)
(** * Theorems *)

Unset Implicit Arguments.

Section Proofs.
Context {N : Numeric} {O : Objects} {L : Library}.

(** ** Results and dicts *)

Lemma bind_Ok_inv {A B : Type} (r : Res A) (k : A -> Res B) (b : B) :
  bind r k = Ok b -> exists a, r = Ok a /\ k a = Ok b.
Proof.
  destruct r as [a|e]; simpl; intros H; [eauto | discriminate].
Qed.

Lemma mapM_length {A B : Type} (f : A -> Res B) (l : list A) (bs : list B) :
  mapM f l = Ok bs -> List.length bs = List.length l.
Proof.
  revert bs; induction l as [|a l IH]; simpl; intros bs H.
  - injection H as <-; reflexivity.
  - bind_inv H. bind_inv H. injection H as <-. simpl. f_equal. eauto.
Qed.

Lemma mapM_Forall2 {A B : Type} (f : A -> Res B) (l : list A) (bs : list B) :
  mapM f l = Ok bs <-> Forall2 (fun a b => f a = Ok b) l bs.
Proof.
  split.
  - revert bs; induction l as [|a l IH]; simpl; intros bs H.
    + injection H as <-; constructor.
    + bind_inv H. bind_inv H. injection H as <-. constructor; auto.
  - induction 1 as [|a b l bs Hab _ IH]; simpl; [reflexivity|].
    rewrite Hab; simpl. rewrite IH; reflexivity.
Qed.

(** ** CompoundLoss *)

Lemma forward_CompoundLoss (ls : list Loss) (ws : list Float) (nm : string)
  (model : Model) (hd : RelationData) (ld : Relations) (batch : dict Tensor) :
  forward (CompoundLoss ls ws nm) model hd ld batch
  = compound_loop model hd ld batch ls ws f0.
Proof.
  simpl. generalize f0. revert ws.
  induction ls as [|l ls IH]; intros ws t; simpl; [reflexivity|].
  destruct ws as [|w ws]; [reflexivity|].
  destruct (forward l model hd ld batch); simpl; [apply IH | reflexivity].
Qed.

Lemma compound_loop_fold (model : Model) (hd : RelationData) (ld : Relations)
  (batch : dict Tensor) (ls : list Loss) (outs : list Float) :
  Forall2 (fun l v => forward l model hd ld batch = Ok v) ls outs ->
  forall (ws : list Float) (t : Float),
    compound_loop model hd ld batch ls ws t
    = Ok (fold_left (fun acc wv => fadd acc (fmul (fst wv) (snd wv)))
            (combine ws outs) t).
Proof.
  induction 1 as [|l v ls outs Hl _ IH]; intros ws t; simpl.
  - destruct ws; reflexivity.
  - destruct ws as [|w ws]; [reflexivity|].
    rewrite Hl; simpl. apply IH.
Qed.

Lemma combine_snoc {A B : Type} (l : list A) (l' : list B) (a : A) (b : B) :
  List.length l = List.length l' ->
  combine (l ++ [a]) (l' ++ [b]) = combine l l' ++ [(a, b)].
Proof.
  revert l'; induction l as [|x l IH]; intros [|y l'] H; simpl in *;
    try discriminate; [reflexivity|].
  f_equal. apply IH. lia.
Qed.

Lemma weighted_sum_app (k : nat) (ws outs : list Float) (w v : Float) :
  k <= List.length ws -> k <= List.length outs ->
  weighted_sum k (ws ++ [w]) (outs ++ [v]) = weighted_sum k ws outs.
Proof.
  induction k as [|k IH]; simpl; intros Hw Ho; [reflexivity|].
  rewrite IH by lia.
  rewrite !app_nth1 by lia. reflexivity.
Qed.

Lemma fold_weighted_sum (k : nat) :
  forall ws outs : list Float,
    List.length ws = k -> List.length outs = k ->
    fold_left (fun acc wv => fadd acc (fmul (fst wv) (snd wv)))
      (combine ws outs) f0
    = weighted_sum k ws outs.
Proof.
  induction k as [|k IH]; intros ws outs Hw Ho.
  - destruct ws; [|discriminate]. reflexivity.
  - destruct (exists_last (l := ws)) as [ws' [w ->]];
      [intros ->; discriminate|].
    destruct (exists_last (l := outs)) as [outs' [v ->]];
      [intros ->; discriminate|].
    rewrite !length_app in *; simpl in *.
    assert (Hw' : List.length ws' = k) by lia.
    assert (Ho' : List.length outs' = k) by lia.
    rewrite combine_snoc by lia.
    rewrite fold_left_app; simpl.
    rewrite (IH ws' outs' Hw' Ho').
    simpl weighted_sum.
    rewrite weighted_sum_app by lia.
    replace (nth k (ws' ++ [w]) f0) with w
      by (rewrite <- Hw'; symmetry; apply nth_middle).
    replace (nth k (outs' ++ [v]) f0) with v
      by (rewrite <- Ho'; symmetry; apply nth_middle).
    reflexivity.
Qed.

(** C3.  A [CompoundLoss] built from [k] child losses and [k] weights
    returns, on any arguments on which the children return, the sum
    over [i] of [weights[i]] times the output of child [i]; a weights
    sequence of another length makes the constructor raise [ValueError]
    (the specification's InvalidInput); and without weights the
    constructor stores [k] weights equal to one, with which the output
    is the same sum. *)
Theorem C3_compound_loss_weighted_sum :
  forall (losses : list Loss) (weights : list Float) (name : option string)
         (uuid4 : string),
    (List.length weights = List.length losses ->
     exists c,
       CompoundLoss_init losses (Some weights) name uuid4 = Ok c /\
       forall model hd ld batch outputs,
         Forall2 (fun l v => forward l model hd ld batch = Ok v)
           losses outputs ->
         forward c model hd ld batch
         = Ok (weighted_sum (List.length losses) weights outputs))
    /\ (List.length weights <> List.length losses ->
        CompoundLoss_init losses (Some weights) name uuid4 = Raise ValueError)
    /\ (exists ones nm,
          CompoundLoss_init losses None name uuid4
          = Ok (CompoundLoss losses ones nm) /\
          List.length ones = List.length losses /\
          Forall (fun w => w = f1) ones /\
          forall model hd ld batch outputs,
            Forall2 (fun l v => forward l model hd ld batch = Ok v)
              losses outputs ->
            forward (CompoundLoss losses ones nm) model hd ld batch
            = Ok (weighted_sum (List.length losses) ones outputs)).
Proof.
  intros losses weights name uuid4.
  assert (Hfw : forall ws nm model hd ld batch outputs,
             List.length ws = List.length losses ->
             Forall2 (fun l v => forward l model hd ld batch = Ok v)
               losses outputs ->
             forward (CompoundLoss losses ws nm) model hd ld batch
             = Ok (weighted_sum (List.length losses) ws outputs)).
  { intros ws nm model hd ld batch outputs Hlen HF.
    rewrite forward_CompoundLoss.
    erewrite compound_loop_fold by eassumption.
    f_equal. apply fold_weighted_sum; [assumption|].
    symmetry. eapply Forall2_length; eassumption. }
  split; [|split].
  - intros Hlen. unfold CompoundLoss_init.
    rewrite Hlen, Nat.eqb_refl; simpl.
    eexists; split; [reflexivity|].
    intros; apply Hfw; assumption.
  - intros Hlen. unfold CompoundLoss_init.
    apply Nat.eqb_neq in Hlen. rewrite Hlen. reflexivity.
  - unfold CompoundLoss_init.
    do 2 eexists; split; [reflexivity|].
    split; [apply repeat_length|].
    split.
    + apply Forall_forall. intros w Hw. apply repeat_spec in Hw. exact Hw.
    + intros; apply Hfw; [apply repeat_length | assumption].
Qed.



(** ** Losses from a spec *)

Lemma construct_loss_TypeError (c : LossClass) (f : LossFun)
  (args : list pyval) (u : string) :
  construct_loss c f args u = Raise TypeError.
Proof. destruct c; reflexivity. Qed.

Lemma losses_entry_not_Ok (registry : dict LossFun) (entry : dict pyval)
  (u : string) (losses0 d : dict Loss) :
  losses_entry registry entry u losses0 = Ok d -> False.
Proof.
  unfold losses_entry. intros H.
  bind_inv H. bind_inv H. bind_inv H.
  rewrite construct_loss_TypeError in Ha1. discriminate.
Qed.

Lemma losses_entry_TypeError (registry : dict LossFun) (entry : dict pyval)
  (u : string) (losses0 : dict Loss) (c : LossClass)
  (fa : LossFun * list pyval) :
  entry_class entry = Ok c -> loss_call_args registry c entry = Ok fa ->
  losses_entry registry entry u losses0 = Raise TypeError.
Proof.
  intros Hc Hfa. unfold losses_entry. rewrite Hc; simpl. rewrite Hfa; simpl.
  rewrite construct_loss_TypeError. reflexivity.
Qed.

(** The registry of comparison functions cannot be built, so the
    function raises before its loop. *)
Lemma losses_from_spec_AttributeError (spec : list (dict pyval))
  (uuid4 : nat -> string) :
  _losses_from_spec spec uuid4 = Raise AttributeError.
Proof. reflexivity. Qed.

(** C2.  [_losses_from_spec] builds the registry [loss_func_dict]
    before its loop, and the registry reads
    [pdloss.kullback_leibler_div], a name that loss.py does not bind:
    the function raises [AttributeError] for every spec, the empty list
    included, and no class is called.  The keywords of the branches are
    as the claim has them: every branch names parameters that the
    [__init__] of its class lacks (the four lists), so that, whatever
    the registry, the call of a branch raises [TypeError], a turn of the
    loop whose class and argument expressions evaluate ends in
    [TypeError], the loop over a list that begins with such an entry
    raises [TypeError], and the loop returns only for the empty list. *)
Theorem C2_losses_from_spec_raises_AttributeError :
  forall (spec : list (dict pyval)) (uuid4 : nat -> string),
    pdloss_attr "kullback_leibler_div" = Raise AttributeError
    /\ loss_func_dict = Raise AttributeError
    /\ _losses_from_spec spec uuid4 = Raise AttributeError
    /\ _losses_from_spec [] uuid4 = Raise AttributeError
    /\ rejected_keywords RelationLoss_params RelationLoss_keywords
       = ["global_relation_key"; "batch_relation_key"; "embedding_method"]
    /\ rejected_keywords ClassificationLoss_params ClassificationLoss_keywords
       = ["data_key"; "classification_method"]
    /\ rejected_keywords ReconstructionLoss_params ReconstructionLoss_keywords
       = ["data_key"; "encoding_method"; "decoding_method"]
    /\ rejected_keywords PositionLoss_params PositionLoss_keywords
       = ["data_key"; "embedding_method"]
    /\ (forall c f args u, construct_loss c f args u = Raise TypeError)
    /\ (forall registry entry u losses0 c fa,
          In entry spec ->
          entry_class entry = Ok c ->
          loss_call_args registry c entry = Ok fa ->
          losses_entry registry entry u losses0 = Raise TypeError)
    /\ (forall registry entry rest c fa,
          spec = entry :: rest ->
          entry_class entry = Ok c ->
          loss_call_args registry c entry = Ok fa ->
          losses_spec_loop registry spec uuid4 0 [] = Raise TypeError)
    /\ (forall registry d,
          losses_spec_loop registry spec uuid4 0 [] = Ok d ->
          spec = [] /\ d = []).
Proof.
  intros spec uuid4.
  repeat (split; [reflexivity|]).
  split; [apply construct_loss_TypeError|].
  split; [intros; eapply losses_entry_TypeError; eassumption|].
  split.
  - intros registry entry rest c fa -> Hc Hfa. simpl.
    erewrite losses_entry_TypeError by eassumption. reflexivity.
  - intros registry d H. destruct spec as [|entry rest].
    + injection H as <-. split; reflexivity.
    + simpl in H. bind_inv H.
      exfalso. eapply losses_entry_not_Ok; eassumption.
Qed.

(** ** The dataset from a spec *)

Lemma dataset_spec_loop_name (spec : list (dict pyval)) :
  forall (d0 d : dict DataValue) (v0 : DataValue),
    (d0 = [] \/ d0 = [("name", v0)]) ->
    spec <> [] ->
    dataset_spec_loop spec d0 = Ok d ->
    exists v, dataset_entry_value (last spec []) = Ok v /\ d = [("name", v)].
Proof.
  induction spec as [|entry spec IH]; intros d0 d v0 Hd0 Hne H;
    [contradiction|].
  simpl in H. bind_inv H.
  assert (Hset : dict_set d0 "name" a = [("name", a)])
    by (destruct Hd0 as [-> | ->]; reflexivity).
  rewrite Hset in H.
  destruct spec as [|entry' spec'].
  - simpl in H. injection H as <-. exists a. split; [exact Ha | reflexivity].
  - apply (IH _ _ a) in H; [|right; reflexivity|discriminate].
    exact H.
Qed.

(** C6.  The loop of [_dataset_from_spec] assigns every entry, a raw
    data entry or a derived one, to the key ["name"] of the dataset
    dict: for a non-empty list the dict that [Dataset] is then called
    with holds the value of the last entry under ["name"] and nothing
    else. *)
Theorem C6_dataset_from_spec_keeps_last_entry :
  forall (spec : list (dict pyval)) (d : dict DataValue),
    spec <> [] ->
    dataset_spec_loop spec [] = Ok d ->
    (exists v,
       dataset_entry_value (last spec []) = Ok v /\ d = [("name", v)])
    /\ _dataset_from_spec spec = Dataset_init (ADict d).
Proof.
  intros spec d Hne H. split.
  - apply (dataset_spec_loop_name spec [] d (VOther None));
      [left; reflexivity | exact Hne | exact H].
  - unfold _dataset_from_spec. rewrite H. reflexivity.
Qed.

(** [_dataset_from_spec] never returns a dataset: the dict it builds
    has no key but ["name"], and [Dataset] wants a ["data"] entry.  So
    a call ends in the exception of the loop, or in the
    [AttributeError] of [Dataset.__init__]. *)
Theorem dataset_from_spec_never_returns :
  forall spec : list (dict pyval),
    _dataset_from_spec spec
    = match dataset_spec_loop spec [] with
      | Ok _ => Raise AttributeError
      | Raise e => Raise e
      end.
Proof.
  intros spec. unfold _dataset_from_spec.
  destruct (dataset_spec_loop spec []) as [d|e] eqn:E; [|reflexivity].
  cbn [bind]. destruct spec as [|entry rest].
  - injection E as <-. reflexivity.
  - apply (dataset_spec_loop_name _ [] d (VOther None)) in E;
      [|left; reflexivity|discriminate].
    destruct E as [v [_ ->]]. reflexivity.
Qed.

(** ** Training phases *)

Lemma TrainingPhase_init_Some {W : Type} (w : W) name ep bs bpe smp erk nsr
  lks opt lr ri kw (tp : TrainingPhase) :
  TrainingPhase_init name ep bs bpe smp erk nsr lks (Some w) opt lr ri kw
  = Ok tp ->
  loss_weights tp = None /\ loss_keys tp = lks.
Proof.
  unfold TrainingPhase_init. intros H.
  destruct (negb (str_in smp ["standard"; "negative_edge"])); [discriminate|].
  destruct lks as [|lk lks]; [discriminate|].
  destruct opt; try discriminate.
  destruct (negb (is_Optimizer_subclass c)); [discriminate|].
  injection H as <-. split; reflexivity.
Qed.

Lemma mapM_lookup_loss_all (loss_dict : dict Loss) (lks : list string) :
  Forall (fun lk => dict_in lk loss_dict = true) lks ->
  exists ls, mapM (lookup_loss loss_dict) lks = Ok ls.
Proof.
  induction 1 as [|lk lks Hin _ [ls IH]]; simpl; [eauto|].
  unfold lookup_loss at 1. rewrite Hin; simpl.
  unfold dict_in in Hin. unfold subscript.
  destruct (dict_get loss_dict lk); [|discriminate]. simpl.
  rewrite IH. simpl. eauto.
Qed.

Lemma phase_from_entry_weights (entry : dict pyval) (tp : TrainingPhase)
  (wv : pyval) :
  phase_from_entry entry = Ok tp ->
  entry_weights entry = Ok wv -> wv <> PNone ->
  loss_weights tp = None.
Proof.
  unfold phase_from_entry. intros H Hw Hne.
  bind_inv H. bind_inv H. bind_inv H. bind_inv H.
  rewrite Hw in Ha2. injection Ha2 as <-.
  bind_inv H. bind_inv H. bind_inv H. bind_inv H. bind_inv H.
  match type of H with
  | (if ?b then _ else _) = _ => destruct b; [discriminate|]
  end.
  repeat bind_inv H.
  destruct wv; try contradiction;
    eapply TrainingPhase_init_Some in H; apply H.
Qed.

(** C10.  A [TrainingPhase] constructed with weights other than [None]
    has no [loss_weights] attribute: reading it raises
    [AttributeError], as [_determine_loss] does once every one of its
    two or more loss keys is found, and as happens for every phase
    that [_training_phases_from_spec] builds from an entry whose
    weights are not [None]; the phase constructed is the same whatever
    the weights were. *)
Theorem C10_explicit_loss_weights_never_assigned :
  forall (W : Type) (w : W) name ep bs bpe smp erk nsr lks opt lr ri kw
         (tp : TrainingPhase),
    TrainingPhase_init name ep bs bpe smp erk nsr lks (Some w) opt lr ri kw
    = Ok tp ->
    loss_weights tp = None
    /\ get_loss_weights tp = Raise AttributeError
    /\ (forall (W' : Type) (w' : W'),
          TrainingPhase_init name ep bs bpe smp erk nsr lks (Some w') opt lr
            ri kw = Ok tp)
    /\ (forall loss_dict uuid4,
          List.length (loss_keys tp) <> 1 ->
          Forall (fun lk => dict_in lk loss_dict = true) (loss_keys tp) ->
          _determine_loss tp loss_dict uuid4 = Raise AttributeError)
    /\ (forall spec tps i entry tp' wv,
          _training_phases_from_spec spec = Ok tps ->
          nth_error spec i = Some entry -> nth_error tps i = Some tp' ->
          entry_weights entry = Ok wv -> wv <> PNone ->
          get_loss_weights tp' = Raise AttributeError).
Proof.
  intros W w name ep bs bpe smp erk nsr lks opt lr ri kw tp H.
  assert (HH := H). apply TrainingPhase_init_Some in HH.
  destruct HH as [Hw Hk].
  split; [exact Hw|].
  split; [unfold get_loss_weights; rewrite Hw; reflexivity|].
  split; [intros W' w'; exact H|].
  split.
  - intros loss_dict uuid4 Hlen Hall.
    unfold _determine_loss.
    apply Nat.eqb_neq in Hlen. rewrite Hlen.
    destruct (mapM_lookup_loss_all _ _ Hall) as [ls Hls].
    rewrite Hls; simpl.
    unfold get_loss_weights; rewrite Hw. reflexivity.
  - intros spec tps i entry tp' wv Hspec He Ht Hwv Hne.
    unfold _training_phases_from_spec in Hspec.
    apply mapM_Forall2 in Hspec.
    assert (Hp : phase_from_entry entry = Ok tp').
    { clear - Hspec He Ht. revert i He Ht.
      induction Hspec as [|e t spec tps Het _ IH]; intros [|i] He Ht;
        simpl in *; try discriminate.
      - injection He as <-; injection Ht as <-; exact Het.
      - eapply IH; eassumption. }
    unfold get_loss_weights.
    erewrite phase_from_entry_weights by eassumption. reflexivity.
Qed.

Lemma dict_get_in {V : Type} (d : dict V) (k : string) (v : V) :
  dict_get d k = Some v -> dict_in k d = true /\ subscript d k = Ok v.
Proof.
  intros H. unfold dict_in, subscript. rewrite H. split; reflexivity.
Qed.

(** C7, as the code has it.  For a phase with [loss_keys = ["a", "b"]],
    binding against a mapping without ["a"] or without ["b"] raises
    [KeyError] (the specification's MissingData); binding against a
    mapping with both, when the phase's [loss_weights] holds two
    weights, sets the loss to a [CompoundLoss] with these weights whose
    two children are the deep copies of the mapped losses, in the order
    of the keys, and whose name is the phase's name when it has one. *)
Theorem C7_determine_loss_two_keys :
  forall (tp : TrainingPhase) (loss_dict : dict Loss) (uuid4 : string),
    loss_keys tp = ["a"; "b"] ->
    (dict_in "a" loss_dict && dict_in "b" loss_dict = false ->
     _determine_loss tp loss_dict uuid4 = Raise KeyError)
    /\ (forall la lb w,
          dict_get loss_dict "a" = Some la ->
          dict_get loss_dict "b" = Some lb ->
          loss_weights tp = Some w -> List.length w = 2 ->
          exists nm,
            _determine_loss tp loss_dict uuid4
            = Ok (set_loss tp (CompoundLoss [deepcopy la; deepcopy lb] w nm))
            /\ nm = Loss_init "comp_loss" (tp_name tp) uuid4
            /\ (forall n, tp_name tp = Some n -> nm = n)).
Proof.
  intros tp loss_dict uuid4 Hk. split.
  - intros Hin. unfold _determine_loss. rewrite Hk. simpl.
    unfold lookup_loss.
    destruct (dict_in "a" loss_dict) eqn:Ea; simpl; [|reflexivity].
    simpl in Hin. rewrite Hin; simpl.
    unfold dict_in in Ea. unfold subscript.
    destruct (dict_get loss_dict "a"); [reflexivity|discriminate].
  - intros la lb w Ha Hb Hw Hlen.
    destruct (dict_get_in _ _ _ Ha) as [Ia Sa].
    destruct (dict_get_in _ _ _ Hb) as [Ib Sb].
    exists (Loss_init "comp_loss" (tp_name tp) uuid4).
    split; [|split; [reflexivity|]].
    + unfold _determine_loss. rewrite Hk. simpl.
      unfold lookup_loss. rewrite Ia, Ib, Sa, Sb. simpl.
      unfold get_loss_weights. rewrite Hw. simpl.
      unfold CompoundLoss_init. rewrite Hlen. reflexivity.
    + intros n Hn. rewrite Hn. reflexivity.
Qed.

(** ** Dicts *)

Lemma dict_get_set {V : Type} (d : dict V) (k k' : string) (v : V) :
  dict_get (dict_set d k v) k'
  = if String.eqb k k' then Some v else dict_get d k'.
Proof.
  induction d as [|[k0 v0] d IH]; simpl.
  - reflexivity.
  - destruct (String.eqb k0 k) eqn:E; simpl.
    + apply String.eqb_eq in E; subst k0.
      destruct (String.eqb k k'); reflexivity.
    + destruct (String.eqb k0 k') eqn:E'; [|exact IH].
      apply String.eqb_eq in E'; subst k0.
      rewrite String.eqb_sym, E. reflexivity.
Qed.

Lemma dict_in_set {V : Type} (d : dict V) (k k' : string) (v : V) :
  dict_in k' (dict_set d k v) = String.eqb k k' || dict_in k' d.
Proof.
  unfold dict_in. rewrite dict_get_set.
  destruct (String.eqb k k'); reflexivity.
Qed.

(** ** Global relations *)

Lemma relations_computed_app (ev ev' : list event) :
  relations_computed (ev ++ ev') = relations_computed ev ++ relations_computed ev'.
Proof. unfold relations_computed. apply flat_map_app. Qed.

Lemma computed_for_stable (s s' : ParametricDR) (k : string) :
  outside_relation_data s = outside_relation_data s' ->
  computed_for s' k = computed_for s k.
Proof.
  unfold outside_relation_data, computed_for, dataset. intros H.
  injection H as Hv Hd Hr Hm Hg Hc Hb Hl Htd Htp Hu Ht.
  rewrite Hg, Hd. reflexivity.
Qed.

Lemma compute_one_spec (k : string) (s : ParametricDR) :
  match compute_one k s with
  | Ret _ s' =>
      outside_relation_data s' = outside_relation_data s
      /\ relations_computed (events s')
         = relations_computed (events s) ++ [k]
      /\ exists r, computed_for s k = Ok r
                   /\ global_relation_data s'
                      = dict_set (global_relation_data s) k r
  | Exc _ s' =>
      outside_relation_data s' = outside_relation_data s
      /\ global_relation_data s' = global_relation_data s
  end.
Proof.
  unfold compute_one, computed_for, log_if_verbose, mbind, lift, emit, modify.
  destruct (verbose s) eqn:Ev; simpl;
    destruct (subscript (global_relations s) k) as [rel|e]; simpl;
    try (split; reflexivity);
    destruct (dataset s) as [ds|e] eqn:Ed; simpl;
    unfold dataset in *; simpl; rewrite ?Ed; simpl;
    try (split; reflexivity);
    destruct (subscript (data ds) (rel_data_key rel)) as [x|e]; simpl;
    try (split; reflexivity);
    destruct (rel_compute_relations rel x) as [r|e]; simpl;
    try (split; reflexivity).
  all: split; [reflexivity|]; split;
    [rewrite !relations_computed_app; simpl; rewrite ?app_nil_r; reflexivity
    | exists r; split; reflexivity].
Qed.

Lemma for_each_compute_one (ks : list string) :
  forall s s',
    for_each compute_one ks s = Ret tt s' ->
    outside_relation_data s' = outside_relation_data s
    /\ relations_computed (events s') = relations_computed (events s) ++ ks
    /\ (forall k, In k ks ->
        exists r, computed_for s k = Ok r
                  /\ dict_get (global_relation_data s') k = Some r).
Proof.
  induction ks as [|k ks IH]; intros s s' H; simpl in H.
  - unfold ret in H. injection H as <-.
    rewrite app_nil_r. repeat split. intros k [].
  - unfold mbind in H.
    pose proof (compute_one_spec k s) as Hone.
    destruct (compute_one k s) as [[] s1|e s1]; [|discriminate].
    destruct Hone as [Hout [Hev [r [Hr Hgrd]]]].
    destruct (IH _ _ H) as [Hout' [Hev' Hval]].
    split; [congruence|].
    split; [rewrite Hev', Hev, <- app_assoc; reflexivity|].
    intros k' [<- | Hin].
    + destruct (in_dec string_dec k ks) as [Hk|Hk].
      * destruct (Hval _ Hk) as [r' [Hr' Hg']].
        erewrite computed_for_stable in Hr' by (symmetry; exact Hout).
        exists r'. split; assumption.
      * exists r. split; [exact Hr|].
        clear - Hk Hgrd H.
        assert (Hkeep : forall ks0 s0 s0',
                   for_each compute_one ks0 s0 = Ret tt s0' ->
                   ~ In k ks0 ->
                   dict_get (global_relation_data s0') k
                   = dict_get (global_relation_data s0) k).
        { induction ks0 as [|k0 ks0 IH0]; intros s0 s0' H0 Hn; simpl in H0.
          - unfold ret in H0. injection H0 as <-. reflexivity.
          - unfold mbind in H0.
            pose proof (compute_one_spec k0 s0) as Hone0.
            destruct (compute_one k0 s0) as [[] s2|e s2]; [|discriminate].
            destruct Hone0 as [_ [_ [r0 [_ Hg0]]]].
            rewrite (IH0 _ _ H0) by (intros Hc; apply Hn; right; exact Hc).
            rewrite Hg0, dict_get_set.
            destruct (String.eqb k0 k) eqn:E; [|reflexivity].
            apply String.eqb_eq in E. exfalso. apply Hn. left. exact E. }
        rewrite (Hkeep _ _ _ H Hk), Hgrd, dict_get_set, String.eqb_refl.
        reflexivity.
    + destruct (Hval _ Hin) as [r' [Hr' Hg']].
      erewrite computed_for_stable in Hr' by (symmetry; exact Hout).
      exists r'. split; assumption.
Qed.

Lemma compute_global_relations_runs (force : bool) (s s' : ParametricDR) :
  force || negb (_global_relations_computed s) = true ->
  compute_global_relations force s = Ret tt s' ->
  _dataset_registered s' = true
  /\ _global_relations_computed s' = true
  /\ global_relations s' = global_relations s
  /\ _dataset s' = _dataset s
  /\ relations_computed (events s')
     = relations_computed (events s) ++ dict_keys (global_relations s)
  /\ (forall k, In k (dict_keys (global_relations s)) ->
      exists r, computed_for s k = Ok r
                /\ dict_get (global_relation_data s') k = Some r).
Proof.
  intros Hf H. unfold compute_global_relations in H.
  destruct (_dataset_registered s) eqn:Er; simpl in H; [|discriminate].
  unfold mbind, lift, modify in H.
  destruct (dataset s) as [ds|e]; [|discriminate].
  rewrite Hf in H.
  destruct (for_each compute_one (dict_keys (global_relations s)) s)
    as [[] s1|e s1] eqn:E1; [|discriminate].
  injection H as <-.
  destruct (for_each_compute_one _ _ _ E1) as [Hout [Hev Hval]].
  unfold outside_relation_data in Hout.
  injection Hout as Hv Hd Hr Hm Hg Hc Hb Hl Htd Htp Hu Ht.
  simpl. repeat split; try congruence; assumption.
Qed.

(** C9.  On an instance whose relations have not been computed, a
    call of [compute_global_relations()] that returns has called
    [compute_relations] once for every key of the global relations, in
    their order, and stored what each call returned; a second call
    without [force] returns with the instance as it was (no relation is
    computed, and the relation data is the same mapping); a call with
    [force=True] that returns has called [compute_relations] once more
    for every key and stored the results. *)
Theorem C9_compute_global_relations_once :
  forall (self self1 : ParametricDR),
    _global_relations_computed self = false ->
    compute_global_relations false self = Ret tt self1 ->
    relations_computed (events self1)
    = relations_computed (events self) ++ dict_keys (global_relations self)
    /\ (forall k, In k (dict_keys (global_relations self)) ->
        exists r, computed_for self k = Ok r
                  /\ dict_get (global_relation_data self1) k = Some r)
    /\ compute_global_relations false self1 = Ret tt self1
    /\ (forall self2,
          compute_global_relations true self1 = Ret tt self2 ->
          relations_computed (events self2)
          = relations_computed (events self1)
            ++ dict_keys (global_relations self)
          /\ (forall k, In k (dict_keys (global_relations self)) ->
              exists r, computed_for self1 k = Ok r
                        /\ dict_get (global_relation_data self2) k = Some r)).
Proof.
  intros self self1 Hc H.
  destruct (compute_global_relations_runs false self) with (s' := self1)
    as [Hr [Hc1 [Hg [Hd [Hev Hval]]]]];
    [rewrite Hc; reflexivity | exact H |].
  split; [exact Hev|]. split; [exact Hval|]. split.
  - unfold compute_global_relations. rewrite Hr; simpl.
    unfold mbind, lift, modify.
    assert (Hds : exists ds, dataset self1 = Ok ds).
    { unfold compute_global_relations in H.
      destruct (_dataset_registered self); simpl in H; [|discriminate].
      unfold mbind, lift in H. unfold dataset in *. rewrite Hd.
      destruct (_dataset self); [eauto | discriminate]. }
    destruct Hds as [ds ->]. rewrite Hc1; simpl.
    destruct self1; simpl in *; subst; reflexivity.
  - intros self2 H2.
    destruct (compute_global_relations_runs true self1) with (s' := self2)
      as [_ [_ [_ [_ [Hev2 Hval2]]]]]; [reflexivity | exact H2 |].
    rewrite Hg in Hev2, Hval2. split; assumption.
Qed.

(** ** Methods that change the instance *)

Lemma mbind_Ret_inv {A B : Type} (c : M A) (k : A -> M B)
  (s s' : ParametricDR) (b : B) :
  mbind c k s = Ret b s' ->
  exists a s1, c s = Ret a s1 /\ k a s1 = Ret b s'.
Proof.
  unfold mbind. destruct (c s) as [a s1|e s1]; intros H;
    [eauto | discriminate].
Qed.

Lemma derived_computed_app (ev ev' : list event) :
  derived_computed (ev ++ ev') = derived_computed ev ++ derived_computed ev'.
Proof. unfold derived_computed. apply flat_map_app. Qed.

(** ** Derived data *)

(** What one turn of the loop of [compute_derived_data] leaves. *)
Lemma derived_loop_cons (keep : bool) (k : string)
  (entry : DerivedDatasetEntry) (items : dict DerivedDatasetEntry)
  (same : bool) (s s' : ParametricDR) :
  derived_loop keep ((k, entry) :: items) same s = Ret tt s' ->
  exists s1 ds ds1 v,
    _dataset s = Some ds /\ _dataset s1 = Some ds1
    /\ data ds1 = dict_set (data ds) k v
    /\ (keep = false -> _derived_entries ds1 = [])
    /\ derived_computed (events s1) = derived_computed (events s) ++ [k]
    /\ derived_loop keep items (same && keep) s1 = Ret tt s'.
Proof.
  intros H. simpl in H.
  apply mbind_Ret_inv in H. destruct H as [[] [s1 [Hbody H]]].
  apply mbind_Ret_inv in H. destruct H as [[] [s2 [Hclear H]]].
  exists s2.
  destruct (requires_relations entry && negb (_global_relations_computed s));
    [discriminate|].
  run_in Hbody; run_in Hclear.
  all: inject_all; simpl in *; inject_all; subst.
  all: do 3 eexists.
  all: split; [reflexivity|]; split; [reflexivity|]; split; [reflexivity|].
  all: split;
    [intros Hk; subst keep; simpl in *; first [reflexivity | discriminate]|].
  all: split; [|exact H].
  all: rewrite !derived_computed_app; simpl; rewrite ?app_nil_r; reflexivity.
Qed.

Lemma derived_loop_all (keep : bool) (items : dict DerivedDatasetEntry) :
  forall (same : bool) (s s' : ParametricDR) (ds : Dataset),
    derived_loop keep items same s = Ret tt s' ->
    _dataset s = Some ds ->
    exists ds',
      _dataset s' = Some ds'
      /\ derived_computed (events s')
         = derived_computed (events s) ++ dict_keys items
      /\ (forall k, In k (dict_keys items) -> dict_in k (data ds') = true)
      /\ (forall k, dict_in k (data ds) = true -> dict_in k (data ds') = true)
      /\ (keep = false -> items <> [] -> _derived_entries ds' = []).
Proof.
  induction items as [|[k entry] items IH]; intros same s s' ds H Hds.
  - simpl in H. unfold ret in H. injection H as <-.
    exists ds. rewrite app_nil_r.
    split; [exact Hds|]. split; [reflexivity|].
    split; [intros k []|]. split; [auto|]. intros _ Hn; contradiction.
  - apply derived_loop_cons in H.
    destruct H as [s1 [ds0 [ds1 [v [Hs [Hs1 [Hdata [Hclear [Hev H]]]]]]]]].
    rewrite Hds in Hs. injection Hs as <-.
    assert (Hmono : forall k0, dict_in k0 (data ds) = true ->
                               dict_in k0 (data ds1) = true).
    { intros k0 Hk0. rewrite Hdata, dict_in_set, Hk0. apply orb_true_r. }
    assert (Hk : dict_in k (data ds1) = true).
    { rewrite Hdata, dict_in_set, String.eqb_refl. reflexivity. }
    destruct items as [|item items'].
    + simpl in H. unfold ret in H. injection H as <-.
      exists ds1. split; [exact Hs1|]. split; [exact Hev|].
      split; [intros k0 [<- | []]; exact Hk|].
      split; [exact Hmono|]. intros Hkeep _. apply Hclear, Hkeep.
    + eapply IH in H; [|exact Hs1].
      destruct H as [ds' [Hs' [Hev' [Hin [Hmono' Hcl]]]]].
      exists ds'. split; [exact Hs'|].
      split; [rewrite Hev', Hev, <- app_assoc; reflexivity|].
      split; [|split].
      * intros k0 [<- | Hk0]; [apply Hmono', Hk | apply Hin, Hk0].
      * intros k0 Hk0. apply Hmono', Hmono, Hk0.
      * intros Hkeep _. apply Hcl; [exact Hkeep | discriminate].
Qed.

(** C5, as the code has it.  Inside the loop of
    [compute_derived_data], [self.dataset._derived_entries = {}] binds
    the attribute to a new dict after every entry and leaves the dict
    under iteration as it is.  So a call with [keep_definitions] false
    that returns has called the function of every derived entry, in
    iteration order, every one of them is a column of the dataset, the
    columns there were are still there, and no definition is left. *)
Theorem C5_compute_derived_data_computes_every_entry :
  forall (self self' : ParametricDR),
    compute_derived_data false self = Ret tt self' ->
    exists ds ds',
      dataset self = Ok ds /\ dataset self' = Ok ds'
      /\ derived_computed (events self')
         = derived_computed (events self) ++ dict_keys (_derived_entries ds)
      /\ (forall k, In k (dict_keys (_derived_entries ds)) ->
          dict_in k (data ds') = true)
      /\ (forall k, dict_in k (data ds) = true -> dict_in k (data ds') = true)
      /\ (_derived_entries ds <> [] -> _derived_entries ds' = []).
Proof.
  intros self self' H. unfold compute_derived_data in H.
  destruct (negb (_dataset_registered self)); [discriminate|].
  apply mbind_Ret_inv in H. destruct H as [ds [s1 [Hds H]]].
  unfold lift in Hds. unfold dataset in *.
  destruct (_dataset self) as [ds0|] eqn:E; [|discriminate].
  injection Hds as <- <-.
  eapply derived_loop_all in H; [|exact E].
  destruct H as [ds' [Hs' [Hev [Hin [Hmono Hcl]]]]].
  exists ds0, ds'. rewrite Hs'.
  repeat split; auto.
Qed.

(** ** Training *)

Lemma loss_calls_app (ev ev' : list event) :
  loss_calls (ev ++ ev') = loss_calls ev + loss_calls ev'.
Proof. unfold loss_calls. rewrite filter_app, length_app. reflexivity. Qed.

Lemma checkpoints_app (ev ev' : list event) :
  checkpoints (ev ++ ev') = checkpoints ev + checkpoints ev'.
Proof. unfold checkpoints. rewrite filter_app, length_app. reflexivity. Qed.

Lemma batch_loop_Ret (dev : Device) (batches : list (dict Tensor)) :
  forall (st st' : TrainingPhase * Optimizer) (s s' : ParametricDR),
    batch_loop dev batches st s = Ret st' s' ->
    outside_training s' = outside_training s
    /\ trained s' = trained s
    /\ loss_calls (events s') = loss_calls (events s) + List.length batches
    /\ checkpoints (events s') = checkpoints (events s).
Proof.
  induction batches as [|batch rest IH]; intros st st' s s' H; simpl in H.
  - unfold ret in H. injection H as <- <-.
    repeat split; try reflexivity; simpl; lia.
  - unfold mbind, lift, emit, modify in H; simpl in H.
    destruct (TrainingPhase_loss (fst st)) as [l|e]; [|discriminate].
    simpl in H.
    destruct (Loss_call5 l (model s) (global_relation_data s)
                (batch_relations s) batch dev) as [r|e]; [|discriminate].
    simpl in H.
    destruct (backward_and_step (snd st) (model s) (fst r)) as [mo|e];
      [|discriminate].
    simpl in H. apply IH in H. simpl in H.
    destruct H as [Ho [Ht [Hl Hc]]].
    split; [exact Ho|]. split; [exact Ht|].
    rewrite !loss_calls_app in Hl. rewrite !checkpoints_app in Hc.
    rewrite Hl, Hc. unfold loss_calls, checkpoints. simpl. split; lia.
Qed.

Lemma epoch_loop_Ret (dev : Device) (dataloader : Loader) (range : list nat) :
  forall (st st' : TrainingPhase * Optimizer) (s s' : ParametricDR),
    epoch_loop dev dataloader range st s = Ret st' s' ->
    outside_training s' = outside_training s
    /\ trained s' = match range with [] => trained s | _ => true end
    /\ (trained s = true -> trained s' = true)
    /\ loss_calls (events s')
       = loss_calls (events s) + batches_yielded dataloader range
    /\ checkpoints (events s') = checkpoints (events s) + List.length range.
Proof.
  induction range as [|epoch rest IH]; intros st st' s s' H; simpl in H.
  - unfold ret in H. injection H as <- <-.
    unfold batches_yielded. simpl. repeat split; auto; try reflexivity; lia.
  - apply mbind_Ret_inv in H. destruct H as [st1 [s1 [Hb H]]].
    apply batch_loop_Ret in Hb. destruct Hb as [Ho1 [Ht1 [Hl1 Hc1]]].
    apply mbind_Ret_inv in H. destruct H as [[] [s2 [Hf H]]].
    assert (s2 = s1) as ->.
    { destruct (snd (loader_epoch dataloader epoch));
        [discriminate | injection Hf as <-; reflexivity]. }
    clear Hf.
    unfold mbind, lift, emit, modify, ret in H; simpl in H.
    destruct (TrainingPhase_loss (fst st1)) as [l|e]; [|discriminate].
    simpl in H.
    destruct (Loss_checkpoint l) as [l'|e]; [|discriminate].
    simpl in H.
    assert (Hrest : exists s3,
               outside_training s3 = outside_training s1
               /\ loss_calls (events s3) = loss_calls (events s1)
               /\ checkpoints (events s3) = checkpoints (events s1) + 1
               /\ trained s3 = true
               /\ epoch_loop dev dataloader rest (set_loss (fst st1) l', snd st1)
                    s3 = Ret st' s').
    { destruct (verbose s1) eqn:Ev.
      - destruct (report_interval (fst st1) =? 0)%Z; [discriminate|].
        destruct (Z.of_nat epoch mod report_interval (fst st1) =? 0)%Z.
        + simpl in H.
          destruct (Loss_history_last l') as [h|e]; [|discriminate].
          simpl in H. refine (ex_intro _ _ (conj _ (conj _ (conj _ (conj _ H)))));
            try reflexivity; count_events.
        + simpl in H. refine (ex_intro _ _ (conj _ (conj _ (conj _ (conj _ H)))));
            try reflexivity; count_events.
      - simpl in H. refine (ex_intro _ _ (conj _ (conj _ (conj _ (conj _ H)))));
          try reflexivity; count_events. }
    destruct Hrest as [s3 [Ho3 [Hl3 [Hc3 [Ht3 Hloop]]]]].
    apply IH in Hloop. destruct Hloop as [Ho [Ht [Hm [Hl Hc]]]].
    split; [congruence|].
    split; [apply Hm, Ht3|].
    split; [intros _; apply Hm, Ht3|].
    unfold batches_yielded in *. simpl. split; lia.
Qed.

Lemma run_training_phase_Ret (tp tp' : TrainingPhase) (torch_loader : Loader)
  (s s' : ParametricDR) :
  run_training_phase tp torch_loader s = Ret tp' s' ->
  outside_training s' = outside_training s
  /\ ((0 < epochs tp)%Z -> trained s' = true)
  /\ (trained s = true -> trained s' = true)
  /\ checkpoints (events s')
     = checkpoints (events s) + Z.to_nat (epochs tp)
  /\ exists dataloader,
       _prepare_loader s tp torch_loader = Ok dataloader
       /\ loss_calls (events s')
          = loss_calls (events s)
            + batches_yielded dataloader (seq 0 (Z.to_nat (epochs tp))).
Proof.
  unfold run_training_phase. intros H.
  apply mbind_Ret_inv in H. destruct H as [dl [s1 [Hdl H]]].
  unfold lift in Hdl.
  destruct (_prepare_loader s tp torch_loader) as [dl'|e] eqn:Edl;
    [|discriminate].
  injection Hdl as <- <-.
  apply mbind_Ret_inv in H. destruct H as [opt [s1 [Hopt H]]].
  unfold lift in Hopt.
  destruct (_prepare_optimizer s tp); [|discriminate].
  injection Hopt as <- <-.
  apply mbind_Ret_inv in H. destruct H as [dev [s1 [Hdev H]]].
  unfold lift in Hdev. injection Hdev as <- <-.
  apply mbind_Ret_inv in H. destruct H as [[] [s1 [Hlog H]]].
  apply mbind_Ret_inv in H. destruct H as [st [s2 [Hloop H]]].
  unfold ret in H. injection H as <- <-.
  apply epoch_loop_Ret in Hloop.
  destruct Hloop as [Ho [Ht [Hm [Hl Hc]]]].
  assert (Hs1 : outside_training s1 = outside_training s
                /\ trained s1 = trained s
                /\ loss_calls (events s1) = loss_calls (events s)
                /\ checkpoints (events s1) = checkpoints (events s)).
  { unfold log_if_verbose, emit, modify in Hlog.
    destruct (verbose s); injection Hlog as <-;
      repeat split; try reflexivity; count_events. }
  destruct Hs1 as [Ho1 [Ht1 [Hl1 Hc1]]].
  split; [congruence|]. split; [|split; [|split]].
  - intros Hpos. rewrite Ht.
    destruct (Z.to_nat (epochs tp)) eqn:En; [lia | reflexivity].
  - intros Htr. apply Hm. congruence.
  - rewrite Hc, Hc1, length_seq. reflexivity.
  - eexists. split; [reflexivity|]. rewrite Hl, Hl1. reflexivity.
Qed.

Lemma derived_loop_cons_frame (keep : bool) (k : string)
  (entry : DerivedDatasetEntry) (items : dict DerivedDatasetEntry)
  (same : bool) (s s' : ParametricDR) :
  derived_loop keep ((k, entry) :: items) same s = Ret tt s' ->
  exists s1,
    training_phases s1 = training_phases s /\ trained s1 = trained s
    /\ derived_loop keep items (same && keep) s1 = Ret tt s'.
Proof.
  intros H. simpl in H.
  apply mbind_Ret_inv in H. destruct H as [[] [s1 [Hbody H]]].
  apply mbind_Ret_inv in H. destruct H as [[] [s2 [Hclear H]]].
  exists s2.
  destruct (requires_relations entry && negb (_global_relations_computed s));
    [discriminate|].
  run_in Hbody; run_in Hclear.
  all: inject_all; simpl in *; inject_all; subst.
  all: split; [reflexivity|]; split; [reflexivity|exact H].
Qed.

Lemma derived_loop_frame (keep : bool) (items : dict DerivedDatasetEntry) :
  forall (same : bool) (s s' : ParametricDR),
    derived_loop keep items same s = Ret tt s' ->
    training_phases s' = training_phases s /\ trained s' = trained s.
Proof.
  induction items as [|[k entry] items IH]; intros same s s' H.
  - simpl in H. unfold ret in H. injection H as <-. split; reflexivity.
  - apply derived_loop_cons_frame in H. destruct H as [s1 [Hp [Ht H]]].
    apply IH in H. destruct H as [Hp' Ht']. split; congruence.
Qed.

Lemma compute_derived_data_frame (keep : bool) (s s' : ParametricDR) :
  compute_derived_data keep s = Ret tt s' ->
  training_phases s' = training_phases s /\ trained s' = trained s.
Proof.
  unfold compute_derived_data. intros H.
  destruct (negb (_dataset_registered s)); [discriminate|].
  apply mbind_Ret_inv in H. destruct H as [ds [s1 [Hds H]]].
  unfold lift in Hds. destruct (dataset s); [|discriminate].
  injection Hds as <- <-.
  eapply derived_loop_frame; eassumption.
Qed.

Lemma compute_global_relations_frame (force : bool) (s s' : ParametricDR) :
  compute_global_relations force s = Ret tt s' ->
  training_phases s' = training_phases s /\ trained s' = trained s.
Proof.
  unfold compute_global_relations. intros H.
  destruct (negb (_dataset_registered s)); [discriminate|].
  unfold mbind, lift, modify in H.
  destruct (dataset s); [|discriminate].
  destruct (force || negb (_global_relations_computed s)).
  - destruct (for_each compute_one (dict_keys (global_relations s)) s)
      as [[] s1|e s1] eqn:E; [|discriminate].
    injection H as <-.
    apply for_each_compute_one in E. destruct E as [Hout _].
    unfold outside_relation_data in Hout.
    injection Hout as Hv Hd Hr Hm Hg Hc Hb Hl Htd Htp Hu Ht.
    simpl. split; assumption.
  - injection H as <-. split; reflexivity.
Qed.

Lemma train_loop_trained (loaders : nat -> Loader) (tps : list TrainingPhase) :
  forall (i : nat) (s s' : ParametricDR),
    train_loop loaders i tps s = Ret tt s' ->
    (trained s = true -> trained s' = true)
    /\ (Exists (fun tp => (0 < epochs tp)%Z) tps -> trained s' = true).
Proof.
  induction tps as [|tp tps IH]; intros i s s' H; simpl in H.
  - unfold ret in H. injection H as <-.
    split; [auto | intros Hex; inversion Hex].
  - apply mbind_Ret_inv in H. destruct H as [tp' [s1 [Hrun H]]].
    apply run_training_phase_Ret in Hrun.
    destruct Hrun as [_ [Hpos [Hmono _]]].
    apply mbind_Ret_inv in H. destruct H as [[] [s2 [Hmod H]]].
    unfold modify in Hmod. injection Hmod as <-.
    apply IH in H. simpl in H. destruct H as [Hm Hex].
    split.
    + intros Ht. apply Hm, Hmono, Ht.
    + intros Hx. inversion Hx as [? ? Hhere | ? ? Hthere]; subst.
      * apply Hm, Hpos, Hhere.
      * apply Hex, Hthere.
Qed.

Lemma train_trained (loaders : nat -> Loader) (s s' : ParametricDR) :
  train loaders s = Ret tt s' ->
  Exists (fun tp => (0 < epochs tp)%Z) (training_phases s) ->
  trained s' = true.
Proof.
  unfold train, _prepare_training. intros H Hex.
  apply mbind_Ret_inv in H. destruct H as [[] [s0 [H0 H]]].
  unfold ret in H0. injection H0 as <-.
  apply mbind_Ret_inv in H. destruct H as [[] [s1 [H1 H]]].
  apply compute_derived_data_frame in H1. destruct H1 as [Hp1 _].
  apply mbind_Ret_inv in H. destruct H as [[] [s2 [H2 H]]].
  apply compute_global_relations_frame in H2. destruct H2 as [Hp2 _].
  apply mbind_Ret_inv in H. destruct H as [[] [s3 [H3 H]]].
  unfold modify in H3. injection H3 as <-.
  apply mbind_Ret_inv in H. destruct H as [[] [s4 [H4 H]]].
  unfold modify in H. injection H as <-.
  apply train_loop_trained in H4. simpl in H4. destruct H4 as [_ H4].
  simpl. apply H4. rewrite Hp2, Hp1. exact Hex.
Qed.

Lemma add_phases_trained (tps : list TrainingPhase) (uuid4 : nat -> string) :
  forall (i : nat) (s s' : ParametricDR),
    add_phases tps uuid4 i s = Ret tt s' -> trained s' = trained s.
Proof.
  induction tps as [|tp tps IH]; intros i s s' H; simpl in H.
  - unfold ret in H. injection H as <-. reflexivity.
  - apply mbind_Ret_inv in H. destruct H as [[] [s1 [Hadd H]]].
    apply IH in H. rewrite H. clear H IH.
    unfold add_training_phase in Hadd.
    apply mbind_Ret_inv in Hadd. destruct Hadd as [tp1 [s2 [H1 Hadd]]].
    unfold lift in H1.
    match type of H1 with
    | match ?x with _ => _ end = _ => destruct x as [tpd|e]; [|discriminate]
    end.
    injection H1 as <- <-.
    apply mbind_Ret_inv in Hadd. destruct Hadd as [l [s2 [H2 Hadd]]].
    unfold lift in H2.
    destruct (TrainingPhase_loss tpd) as [l0|e]; [|discriminate].
    injection H2 as <- <-.
    apply mbind_Ret_inv in Hadd. destruct Hadd as [[] [s2 [H3 Hadd]]].
    assert (s2 = s) as ->.
    { destruct (is_relation_or_compound l0).
      - unfold lift in H3.
        destruct (Loss_check_sampling_and_relations l0 _ _); [|discriminate].
        congruence.
      - unfold ret in H3. congruence. }
    unfold modify in Hadd. injection Hadd as <-. reflexivity.
Qed.

Lemma ParametricDR_init_untrained model0 in_dim out_dim hidden_dims dataset0
  global_relations0 batch_relations0 losses0 training_defaults0
  training_phases0 use_cuda0 verbose0 uuid4 (self : ParametricDR) :
  ParametricDR_init model0 in_dim out_dim hidden_dims dataset0
    global_relations0 batch_relations0 losses0 training_defaults0
    training_phases0 use_cuda0 verbose0 uuid4 = Ok self ->
  trained self = false.
Proof.
  unfold ParametricDR_init. intros H.
  bind_inv H. bind_inv H. bind_inv H.
  match type of H with
  | match ?x with _ => _ end = _ => destruct x as [[] s1|e s1] eqn:E
  end; [|discriminate].
  apply add_phases_trained in E. simpl in E.
  destruct use_cuda0.
  - bind_inv H. injection H as <-. simpl. exact E.
  - injection H as <-. exact E.
Qed.

(** ** The loss in a training phase *)

Lemma library_loss_call5 (l : Loss) model grd brel batch dev :
  library_loss l = true ->
  Loss_call5 l model grd brel batch dev = Raise TypeError.
Proof. destruct l; simpl; intros H; try reflexivity; discriminate. Qed.

Lemma library_loss_checkpoint (l : Loss) :
  library_loss l = true -> Loss_checkpoint l = Raise AttributeError.
Proof. destruct l; simpl; intros H; try reflexivity; discriminate. Qed.

(** C1, on the classes of loss.py.  [run_training_phase] calls the
    phase's loss with five arguments and calls its [checkpoint], but
    [forward] of every class of loss.py takes four arguments and none
    has [checkpoint]: the five-argument call raises [TypeError] and
    [checkpoint] raises [AttributeError].  So a phase of at least one
    epoch whose loss is of one of these classes never completes an
    epoch: once the loader and the optimizer are prepared, the run ends
    in [TypeError] at the first batch, or, when the first epoch has no
    batch, in the loader's exception or in [AttributeError] at
    [checkpoint]. *)
Theorem C1_library_loss_fails_in_training_phase :
  forall (self : ParametricDR) (tp : TrainingPhase) (l : Loss)
         (torch_loader : Loader),
    _loss tp = Some l -> library_loss l = true ->
    (forall model grd brel batch dev,
       Loss_call5 l model grd brel batch dev = Raise TypeError)
    /\ Loss_checkpoint l = Raise AttributeError
    /\ (forall dataloader optimizer,
          _prepare_loader self tp torch_loader = Ok dataloader ->
          _prepare_optimizer self tp = Ok optimizer ->
          (0 < epochs tp)%Z ->
          exists self',
            run_training_phase tp torch_loader self
            = Exc (match loader_epoch dataloader 0 with
                   | (_ :: _, _) => TypeError
                   | ([], Some e) => e
                   | ([], None) => AttributeError
                   end) self'
            /\ trained self' = trained self).
Proof.
  intros self tp l torch_loader Hl Hlib.
  split; [intros; apply library_loss_call5; exact Hlib|].
  split; [apply library_loss_checkpoint; exact Hlib|].
  intros dataloader optimizer Hdl Hopt Hpos.
  unfold run_training_phase, mbind, lift. rewrite Hdl, Hopt.
  destruct (Z.to_nat (epochs tp)) as [|n] eqn:En; [lia|].
  simpl seq.
  assert (Hstep : forall s,
             trained s = trained self ->
             exists self',
               mbind (epoch_loop (device_of self) dataloader (0 :: seq 1 n)
                        (tp, optimizer))
                 (fun st => ret (fst st)) s
               = Exc (match loader_epoch dataloader 0 with
                      | (_ :: _, _) => TypeError
                      | ([], Some e) => e
                      | ([], None) => AttributeError
                      end) self'
               /\ trained self' = trained self).
  { intros s Hs. simpl. unfold mbind.
    destruct (loader_epoch dataloader 0) as [[|b bs] fail]; simpl.
    - destruct fail as [e|]; simpl.
      + unfold raise. eexists; split; [reflexivity|exact Hs].
      + unfold lift, TrainingPhase_loss, emit, modify. simpl.
        rewrite Hl; simpl.
        destruct l; try discriminate Hlib; simpl;
          eexists; (split; [reflexivity|exact Hs]).
    - unfold lift, TrainingPhase_loss, emit, modify. simpl.
      rewrite Hl; simpl.
      destruct l; try discriminate Hlib; simpl;
        eexists; (split; [reflexivity|exact Hs]). }
  unfold log_if_verbose, emit, modify.
  destruct (verbose self); apply Hstep; reflexivity.
Qed.

(** The call site of the loss.  A run of [run_training_phase] that
    returns has called the loss, with its five arguments, once for
    every batch the loader yielded and [checkpoint] once for every
    epoch, and has set [trained] if there was an epoch. *)
Theorem run_training_phase_protocol :
  forall (tp tp' : TrainingPhase) (torch_loader : Loader)
         (self self' : ParametricDR),
    run_training_phase tp torch_loader self = Ret tp' self' ->
    checkpoints (events self')
    = checkpoints (events self) + Z.to_nat (epochs tp)
    /\ (exists dataloader,
          _prepare_loader self tp torch_loader = Ok dataloader
          /\ loss_calls (events self')
             = loss_calls (events self)
               + batches_yielded dataloader (seq 0 (Z.to_nat (epochs tp))))
    /\ ((0 < epochs tp)%Z -> trained self' = true).
Proof.
  intros tp tp' torch_loader self self' H.
  apply run_training_phase_Ret in H.
  destruct H as [_ [Hpos [_ [Hc Hl]]]].
  split; [exact Hc|]. split; [exact Hl | exact Hpos].
Qed.

(** ** Edge batches *)

Lemma insert_unique_In (x y : Z) (l : list Z) :
  In y (insert_unique x l) <-> y = x \/ In y l.
Proof.
  induction l as [|z l IH]; simpl.
  - intuition.
  - destruct (x <? z)%Z eqn:E1; simpl; [intuition|].
    destruct (x =? z)%Z eqn:E2; simpl.
    + apply Z.eqb_eq in E2. subst. intuition.
    + rewrite IH. intuition.
Qed.

Lemma insert_unique_sorted (x : Z) (l : list Z) :
  StronglySorted Z.lt l -> StronglySorted Z.lt (insert_unique x l).
Proof.
  induction 1 as [|z l Hs IH Hall]; simpl.
  - constructor; constructor.
  - destruct (x <? z)%Z eqn:E1.
    + apply Z.ltb_lt in E1. constructor; [constructor; assumption|].
      constructor; [exact E1|].
      rewrite Forall_forall in *. intros y Hy. specialize (Hall y Hy). lia.
    + destruct (x =? z)%Z eqn:E2; [constructor; assumption|].
      apply Z.ltb_ge in E1. apply Z.eqb_neq in E2.
      constructor; [exact IH|].
      rewrite Forall_forall in *. intros y Hy.
      apply insert_unique_In in Hy. destruct Hy as [-> | Hy]; [lia|auto].
Qed.

Lemma np_unique_sorted (l : list Z) : StronglySorted Z.lt (np_unique l).
Proof.
  induction l as [|x l IH]; simpl; [constructor|].
  apply insert_unique_sorted, IH.
Qed.

Lemma np_unique_In (l : list Z) (y : Z) : In y (np_unique l) <-> In y l.
Proof.
  induction l as [|x l IH]; simpl; [reflexivity|].
  rewrite insert_unique_In, IH. intuition.
Qed.

Lemma sorted_NoDup (l : list Z) : StronglySorted Z.lt l -> NoDup l.
Proof.
  induction 1 as [|z l Hs IH Hall]; constructor; [|exact IH].
  intros Hin. rewrite Forall_forall in Hall. specialize (Hall z Hin). lia.
Qed.

Lemma dict_get_keys {V : Type} (d : dict V) (k : string) (v : V) :
  dict_get d k = Some v -> In k (dict_keys d).
Proof.
  induction d as [|[k0 v0] d IH]; simpl; [discriminate|].
  destruct (String.eqb k0 k) eqn:E.
  - apply String.eqb_eq in E. left. exact E.
  - intros H. right. apply IH, H.
Qed.

Lemma collate_keys_get (raw_batch : list (dict Tensor)) (unique_ids : list nat)
  (keys : list string) :
  forall cb0 cb : dict Tensor,
    collate_keys raw_batch unique_ids keys cb0 = Ok cb ->
    (forall k, In k keys ->
       exists v, collate_value raw_batch unique_ids k = Ok v
                 /\ dict_get cb k = Some v)
    /\ (forall k, ~ In k keys -> dict_get cb k = dict_get cb0 k).
Proof.
  induction keys as [|k0 keys IH]; intros cb0 cb H; simpl in H.
  - injection H as <-. split; [intros k []|reflexivity].
  - bind_inv H. destruct (IH _ _ H) as [Hin Hout]. split.
    + intros k Hk.
      destruct (in_dec string_dec k keys) as [Hi|Hn]; [apply Hin, Hi|].
      destruct Hk as [<- | Hk]; [|contradiction].
      exists a. split; [exact Ha|].
      rewrite (Hout _ Hn), dict_get_set, String.eqb_refl. reflexivity.
    + intros k Hk. rewrite (Hout k) by (intros Hc; apply Hk; right; exact Hc).
      rewrite dict_get_set.
      destruct (String.eqb k0 k) eqn:E; [|reflexivity].
      apply String.eqb_eq in E. exfalso. apply Hk. left. exact E.
Qed.

Lemma length_concat_const {A : Type} (ls : list (list A)) (n : nat) :
  Forall (fun l => List.length l = n) ls ->
  List.length (List.concat ls) = List.length ls * n.
Proof.
  induction 1 as [|l ls Hl _ IH]; simpl; [reflexivity|].
  rewrite length_app, IH, Hl. reflexivity.
Qed.

(** The concatenation of the field [k] of the items, when every item
    has [n] rows there. *)
Lemma concat_field_length (raw_batch : list (dict Tensor)) (k : string)
  (n : nat) (ts : list Tensor) (t : Tensor) :
  Forall (fun it => exists f rows,
            dict_get it k = Some f /\ value f = Arr rows
            /\ List.length rows = n) raw_batch ->
  mapM (fun i => subscript i k) raw_batch = Ok ts ->
  torch_concat ts = Ok t ->
  len t = Ok (List.length raw_batch * n).
Proof.
  intros Hall Hts Hc.
  unfold torch_concat in Hc.
  destruct ts as [|t0 ts']; [discriminate|].
  bind_inv Hc. injection Hc as <-. unfold len; simpl. f_equal.
  apply mapM_Forall2 in Hts. apply mapM_Forall2 in Ha.
  rewrite (Forall2_length Hts).
  rewrite (Forall2_length Ha).
  apply length_concat_const.
  clear - Hall Hts Ha. revert a Ha.
  induction Hts as [|it f raw ts Hf Hts IH]; intros a Ha;
    inversion Ha as [|? r ? rs Hr Hrs]; subst; constructor.
  - apply Forall_inv in Hall. destruct Hall as [f' [rows [Hg [Hv Hl]]]].
    unfold subscript in Hf. rewrite Hg in Hf. injection Hf as <-.
    rewrite Hv in Hr. injection Hr as <-. exact Hl.
  - apply IH; [eapply Forall_inv_tail; eassumption | assumption].
Qed.

(** The fields of an item of [NegSampledEdgeDataset]. *)
Lemma getitem_fields (self : NegSampledEdgeDataset) (idx : Z)
  (randint : nat -> Z) (it : dict Tensor) :
  NegSampledEdgeDataset_getitem self idx randint = Ok it ->
  forall k, In k ["row"; "col"; "rel"] ->
    exists f rows,
      dict_get it k = Some f /\ value f = Arr rows
      /\ List.length rows = Z.to_nat (nse_neg_sampling_rate self + 1).
Proof.
  unfold NegSampledEdgeDataset_getitem. intros H.
  bind_inv H.
  destruct (nse_neg_sampling_rate self + 1 <? 0)%Z; [discriminate|].
  destruct (coo_shape0 (p_ij self) <=? 0)%Z; [discriminate|].
  repeat bind_inv H.
  injection H as <-.
  set (n := Z.to_nat (nse_neg_sampling_rate self + 1)) in *.
  assert (Hcols : List.length a1 = n).
  { destruct (map randint (seq 0 n)) as [|c0 rest] eqn:E; [discriminate|].
    injection Ha1 as <-. simpl.
    apply (f_equal (@List.length Z)) in E.
    rewrite length_map, length_seq in E. simpl in E. symmetry. exact E. }
  assert (Hrel : List.length a2 = n).
  { destruct (repeat (Flt f0) n) as [|c0 rest] eqn:E; [discriminate|].
    injection Ha2 as <-. simpl.
    apply (f_equal (@List.length ndarray)) in E.
    rewrite repeat_length in E. simpl in E. symmetry. exact E. }
  unfold dict_merge. simpl.
  intros k [<- | [<- | [<- | []]]];
    rewrite !dict_get_set; simpl; do 2 eexists;
    (split; [reflexivity|]); (split; [reflexivity|]);
    rewrite ?length_map, ?repeat_length; auto.
Qed.

(** The rows of a concatenation that holds the integers [flat]. *)
Lemma as_ints_rows (rows : list ndarray) (flat : list Z) :
  as_ints (Arr rows) = Ok flat -> rows = map Int flat.
Proof.
  unfold as_ints; simpl. revert flat.
  induction rows as [|r rows IH]; simpl; intros flat H.
  - injection H as <-. reflexivity.
  - bind_inv H. bind_inv H. injection H as <-. simpl.
    destruct r; try discriminate. injection Ha as <-.
    f_equal. apply IH, Ha0.
Qed.

Lemma as_ints_map_Int (l : list Z) : as_ints (Arr (map Int l)) = Ok l.
Proof.
  unfold as_ints; simpl. induction l as [|x l IH]; simpl; [reflexivity|].
  rewrite IH. reflexivity.
Qed.

Lemma first_index_nth (x : Z) (l : list Z) :
  In x l ->
  first_index x l < List.length l /\ nth_error l (first_index x l) = Some x.
Proof.
  induction l as [|y l IH]; simpl; [intros []|].
  intros Hin. destruct (y =? x)%Z eqn:E.
  - apply Z.eqb_eq in E. subst. split; [lia | reflexivity].
  - destruct Hin as [-> | Hin]; [rewrite Z.eqb_refl in E; discriminate|].
    destruct (IH Hin) as [Hlt Hnth]. split; [lia | exact Hnth].
Qed.

Lemma take_row_first_index (flat : list Z) (x : Z) :
  In x flat ->
  take_row (Arr (map Int flat)) (Z.of_nat (first_index x flat)) = Ok (Int x).
Proof.
  intros Hin. destruct (first_index_nth _ _ Hin) as [Hlt Hnth].
  unfold take_row. rewrite length_map.
  replace ((0 <=? Z.of_nat (first_index x flat))
           && (Z.of_nat (first_index x flat) <? Z.of_nat (List.length flat)))%Z
    with true
    by (symmetry; apply andb_true_iff; split;
        [apply Z.leb_le | apply Z.ltb_lt]; lia).
  rewrite Nat2Z.id. unfold index.
  rewrite nth_error_map, Hnth. reflexivity.
Qed.

Lemma select_unique (flat : list Z) (dev : Device) :
  index_select (mkTensor (Arr (map Int flat)) dev)
    (map Z.of_nat (np_unique_index flat))
  = Ok (mkTensor (Arr (map Int (np_unique flat))) dev).
Proof.
  unfold index_select, np_unique_index; simpl.
  assert (H : forall u, (forall x, In x u -> In x flat) ->
            mapM (take_row (Arr (map Int flat)))
              (map Z.of_nat (map (fun x => first_index x flat) u))
            = Ok (map Int u)).
  { induction u as [|x u IH]; intros Hu; cbn [map mapM]; [reflexivity|].
    rewrite take_row_first_index by (apply Hu; left; reflexivity).
    cbn [bind].
    rewrite IH by (intros y Hy; apply Hu; right; exact Hy). reflexivity. }
  rewrite H by (intros x Hx; apply np_unique_In, Hx). reflexivity.
Qed.

Lemma mapM_total {A B : Type} (f : A -> Res B) (l : list A) :
  Forall (fun a => exists b, f a = Ok b) l -> exists bs, mapM f l = Ok bs.
Proof.
  induction 1 as [|a l' [b Hb] _ [bs IH]]; simpl.
  - eexists; reflexivity.
  - rewrite Hb; simpl. rewrite IH; simpl. eexists; reflexivity.
Qed.

Lemma dict_keys_set {V : Type} (d : dict V) (k k' : string) (v : V) :
  In k (dict_keys (dict_set d k' v)) -> k = k' \/ In k (dict_keys d).
Proof.
  unfold dict_keys.
  induction d as [|[k0 v0] d IH]; simpl.
  - intros [<-|[]]; auto.
  - destruct (String.eqb k0 k') eqn:E; simpl.
    + intros [<-|H]; auto.
    + intros [<-|H]; auto. destruct (IH H); auto.
Qed.

Lemma Dataset_getitem_get (ds : Dataset) (i : Z) (d : dict Tensor)
  (k : string) (t : Tensor) :
  Dataset_getitem ds i = Ok d ->
  dict_get (data ds) k = Some t ->
  exists r, take_row (value t) i = Ok r
            /\ dict_get d k = Some (mkTensor r (device t)).
Proof.
  unfold Dataset_getitem. generalize (data ds). intros cols. revert d.
  induction cols as [|[k0 t0] cols IH]; simpl; intros d H Hg; [discriminate|].
  bind_inv H. bind_inv Ha. injection Ha as <-.
  bind_inv H. injection H as <-. simpl.
  destruct (String.eqb k0 k).
  - injection Hg as <-. eauto.
  - eapply IH; eauto.
Qed.

Lemma Dataset_getitem_keys (ds : Dataset) (i : Z) (d : dict Tensor) :
  Dataset_getitem ds i = Ok d -> dict_keys d = dict_keys (data ds).
Proof.
  unfold Dataset_getitem, dict_keys. generalize (data ds). intros cols.
  revert d.
  induction cols as [|[k0 t0] cols IH]; simpl; intros d H.
  - injection H as <-. reflexivity.
  - bind_inv H. bind_inv Ha. injection Ha as <-.
    bind_inv H. injection H as <-. simpl.
    f_equal. apply IH. assumption.
Qed.


Lemma default_collate_get (items : list (dict Tensor)) (ks : list string)
  (rem : dict Tensor) :
  Forall (fun d => dict_keys d = ks) items ->
  default_collate items = Ok rem ->
  dict_keys rem = ks
  /\ forall k, In k ks ->
       exists col t, mapM (fun d => subscript d k) items = Ok col
                     /\ torch_stack col = Ok t /\ dict_get rem k = Some t.
Proof.
  destruct items as [|elem items']; [discriminate|].
  intros Hks H. simpl in H. rewrite (Forall_inv Hks) in H.
  clear Hks. revert rem H.
  induction ks as [|k0 ks IH]; intros rem H; cbn [mapM] in H.
  - injection H as <-. split; [reflexivity | intros k []].
  - bind_inv H. bind_inv Ha. bind_inv Ha. injection Ha as <-.
    bind_inv H. injection H as <-.
    match goal with
    | E : mapM _ ks = Ok _ |- _ => destruct (IH _ E) as [Hk Hget]
    end.
    split; [unfold dict_keys in *; simpl; f_equal; exact Hk|].
    intros k Hin. simpl.
    destruct (String.eqb k0 k) eqn:E.
    + apply String.eqb_eq in E. subst k0. eauto.
    + destruct Hin as [->|Hin]; [rewrite String.eqb_refl in E; discriminate|].
      apply Hget, Hin.
Qed.

Lemma take_row_ints (l : list Z) (i : Z) (r : ndarray) :
  take_row (Arr (map Int l)) i = Ok r -> exists z, r = Int z.
Proof.
  unfold take_row, index.
  assert (H : forall j, match nth_error (map Int l) j with
                        | Some a => Ok a | None => Raise IndexError end = Ok r
                        -> exists z, r = Int z).
  { intros j. rewrite nth_error_map.
    destruct (nth_error l j); simpl; [|discriminate].
    intros E; injection E as <-. eauto. }
  destruct (_ && _); [apply H|].
  destruct (_ && _); [apply H | discriminate].
Qed.

Lemma Forall_map_Int (l : list ndarray) :
  Forall (fun a => exists z, a = Int z) l -> exists ids, l = map Int ids.
Proof.
  induction 1 as [|a l' [z ->] _ [ids ->]].
  - exists []. reflexivity.
  - exists (z :: ids). reflexivity.
Qed.


Lemma collate_column_ints (ds : Dataset) (ti : Tensor) (ids0 : list Z) :
  dict_get (data ds) "indices" = Some ti ->
  value ti = Arr (map Int ids0) ->
  forall (idxs : list Z) (items : list (dict Tensor)) (col : list Tensor),
    mapM (Dataset_getitem ds) idxs = Ok items ->
    mapM (fun d => subscript d "indices") items = Ok col ->
    exists ids, map value col = map Int ids.
Proof.
  intros Hti Hv.
  induction idxs as [|i idxs IH]; intros items col Hi Hc; simpl in Hi.
  - injection Hi as <-. injection Hc as <-. exists []. reflexivity.
  - bind_inv Hi. bind_inv Hi. injection Hi as <-. simpl in Hc.
    bind_inv Hc. bind_inv Hc. injection Hc as <-.
    destruct (Dataset_getitem_get _ _ _ _ _ Ha Hti) as [r [Hr Hg]].
    rewrite Hv in Hr. apply take_row_ints in Hr. destruct Hr as [z ->].
    unfold subscript in Ha1. rewrite Hg in Ha1. injection Ha1 as <-.
    match goal with
    | E1 : mapM _ idxs = Ok _, E2 : mapM _ _ = Ok ?c |- context [?c] =>
        destruct (IH _ _ E1 E2) as [ids Hids]
    end.
    exists (z :: ids). simpl. f_equal. exact Hids.
Qed.

Lemma torch_stack_value (col : list Tensor) (t : Tensor) :
  torch_stack col = Ok t -> value t = Arr (map value col).
Proof.
  destruct col; simpl; [discriminate|]. intros H; injection H as <-.
  reflexivity.
Qed.

Lemma index_select_value (x : Tensor) (ids : list Z) (t : Tensor) :
  index_select x ids = Ok t -> exists rows, value t = Arr rows.
Proof.
  unfold index_select. intros H. bind_inv H. injection H as <-.
  simpl. eauto.
Qed.

Lemma getitem_shape (self : NegSampledEdgeDataset) (idx : Z)
  (randint : nat -> Z) (it : dict Tensor) :
  integer_indices (nse_dataset self) ->
  NegSampledEdgeDataset_getitem self idx randint = Ok it ->
  exists ids, item_shape (dict_keys (data (nse_dataset self))) it ids.
Proof.
  intros [ti [ids0 [Hti Hids0]]] H.
  unfold NegSampledEdgeDataset_getitem in H.
  bind_inv H.
  destruct (nse_neg_sampling_rate self + 1 <? 0)%Z; [discriminate|].
  destruct (coo_shape0 (p_ij self) <=? 0)%Z; [discriminate|].
  repeat bind_inv H.
  injection H as <-.
  set (ks := dict_keys (data (nse_dataset self))).
  assert (Hkeys : Forall (fun d => dict_keys d = ks) a8).
  { pose proof (proj1 (mapM_Forall2 _ _ _) Ha8) as HF.
    clear - HF. induction HF as [|i d idxs ds Hd _ IH]; constructor.
    - eapply Dataset_getitem_keys; eassumption.
    - exact IH. }
  destruct (default_collate_get _ _ _ Hkeys Ha9) as [Hk Hget].
  assert (Hin : In "indices" ks) by (eapply dict_get_keys; eassumption).
  destruct (Hget _ Hin) as [col [t [Hcol [Hst Hrem]]]].
  destruct (collate_column_ints _ _ _ Hti Hids0 _ _ _ Ha8 Hcol) as [ids Hids].
  exists ids. unfold item_shape.
  split; [|split; [|split; [|split]]].
  - intros k Hk'. unfold edge_keys.
    repeat (apply dict_keys_set in Hk'; destruct Hk' as [->|Hk']);
      simpl; auto 10.
    right. rewrite <- Hk. exact Hk'.
  - intros k [<- | [<- | [<- | []]]];
      rewrite !dict_get_set; simpl; do 2 eexists;
      (split; [reflexivity|]); reflexivity.
  - rewrite dict_get_set. simpl.
    apply index_select_value in Ha4, Ha6.
    destruct Ha4 as [ra Hra], Ha6 as [rb Hrb].
    exists a7, ra, rb. split; [reflexivity|].
    apply torch_stack_value in Ha7. rewrite Ha7. simpl.
    rewrite Hra, Hrb. reflexivity.
  - rewrite !dict_get_set. simpl. exists t. split; [exact Hrem|].
    rewrite (torch_stack_value _ _ Hst), Hids. reflexivity.
  - intros k Hks Hne.
    destruct (Hget _ Hks) as [colk [tk [Hcolk [Hstk Hremk]]]].
    exists tk, (map value colk).
    split; [|split].
    + rewrite !dict_get_set.
      repeat match goal with
             | |- context [String.eqb ?a k] =>
                 let E := fresh "E" in
                 destruct (String.eqb a k) eqn:E;
                 [apply String.eqb_eq in E; exfalso; apply Hne; rewrite <- E;
                  unfold edge_keys; simpl; auto 10|clear E]
             end.
      exact Hremk.
    + apply torch_stack_value, Hstk.
    + rewrite length_map, (mapM_length _ _ _ Hcolk).
      apply (f_equal (@List.length ndarray)) in Hids.
      rewrite !length_map in Hids. rewrite <- Hids.
      symmetry. apply (mapM_length _ _ _ Hcol).
Qed.


Lemma Forall_exists_Forall2 {A B : Type} (R : A -> B -> Prop) (l : list A) :
  Forall (fun a => exists b, R a b) l -> exists l', Forall2 R l l'.
Proof.
  induction 1 as [|a l0 [b Hb] _ [l' IH]].
  - exists []. constructor.
  - exists (b :: l'). constructor; assumption.
Qed.

(** The field [k] of the items of a batch, and its rows. *)
Lemma field_rows (k : string) (raw : list (dict Tensor))
  (rs : list (list ndarray)) :
  Forall2 (fun it rows =>
             exists f, dict_get it k = Some f /\ value f = Arr rows) raw rs ->
  exists ts, mapM (fun i => subscript i k) raw = Ok ts
             /\ mapM (fun t => rows_of (value t)) ts = Ok rs.
Proof.
  induction 1 as [|it rows raw' rs' [f [Hg Hv]] _ [ts [IH1 IH2]]]; simpl.
  - exists []. split; reflexivity.
  - exists (f :: ts). unfold subscript at 1. rewrite Hg. simpl.
    rewrite IH1. simpl. rewrite Hv. simpl. rewrite IH2. simpl.
    split; reflexivity.
Qed.

Lemma torch_concat_rows (ts : list Tensor) (rs : list (list ndarray)) :
  ts <> [] ->
  mapM (fun t => rows_of (value t)) ts = Ok rs ->
  exists c, torch_concat ts = Ok c /\ value c = Arr (List.concat rs).
Proof.
  intros Hne H. unfold torch_concat. destruct ts as [|t0 ts']; [congruence|].
  rewrite H. simpl. eexists. split; reflexivity.
Qed.

Lemma mapM_nonempty {A B : Type} (f : A -> Res B) (l : list A) (bs : list B) :
  l <> [] -> mapM f l = Ok bs -> bs <> [].
Proof.
  intros Hne H. apply mapM_length in H.
  destruct bs; [|discriminate]. destruct l; [congruence|discriminate].
Qed.

Lemma index_select_total (rows : list ndarray) (dev : Device)
  (uids : list nat) :
  Forall (fun j => j < List.length rows) uids ->
  exists t, index_select (mkTensor (Arr rows) dev) (map Z.of_nat uids) = Ok t.
Proof.
  intros H. unfold index_select. simpl.
  destruct (mapM_total (take_row (Arr rows)) (map Z.of_nat uids)) as [bs Hbs].
  - apply Forall_map. eapply Forall_impl; [|exact H].
    intros j Hj. simpl in Hj. unfold take_row.
    replace ((0 <=? Z.of_nat j) && (Z.of_nat j <? Z.of_nat (List.length rows)))%Z
      with true
      by (symmetry; apply andb_true_iff; split;
          [apply Z.leb_le | apply Z.ltb_lt]; lia).
    rewrite Nat2Z.id. unfold index.
    destruct (nth_error rows j) eqn:E; [eauto|].
    apply nth_error_None in E. lia.
  - rewrite Hbs. simpl. eauto.
Qed.

Lemma np_unique_index_bound (flat : list Z) :
  Forall (fun j => j < List.length flat) (np_unique_index flat).
Proof.
  unfold np_unique_index. apply Forall_map, Forall_forall.
  intros x Hx. apply (proj1 (np_unique_In _ _)) in Hx.
  exact (proj1 (first_index_nth _ _ Hx)).
Qed.

Lemma torch_concat_dim1_total (ts : list Tensor) :
  ts <> [] ->
  Forall (fun t => exists ra rb, value t = Arr [Arr ra; Arr rb]) ts ->
  exists c, torch_concat_dim1 ts = Ok c.
Proof.
  intros Hne Hall. unfold torch_concat_dim1.
  destruct ts as [|t0 ts']; [congruence|].
  destruct (mapM_total (fun t => rows_of (value t)) (t0 :: ts')) as [rs Hrs].
  { eapply Forall_impl; [|exact Hall].
    intros t [ra [rb Ht]]. simpl. rewrite Ht. simpl. eauto. }
  rewrite Hrs. cbn [bind].
  assert (Hshape : Forall (fun r => exists ra rb, r = [Arr ra; Arr rb]) rs).
  { apply mapM_Forall2 in Hrs. clear Hne.
    induction Hrs as [|t r ts rs' Hr _ IH]; constructor.
    - apply Forall_inv in Hall. destruct Hall as [ra [rb Ht]].
      rewrite Ht in Hr. injection Hr as <-. eauto.
    - apply IH. eapply Forall_inv_tail; eassumption. }
  pose proof (Forall_inv Hall) as [ra0 [rb0 Ht0]].
  unfold len. rewrite Ht0. cbn [bind List.length].
  replace (forallb (fun r => Nat.eqb (List.length r) 2) rs) with true.
  2:{ symmetry. apply forallb_forall. intros r Hr.
      rewrite Forall_forall in Hshape.
      destruct (Hshape r Hr) as [ra [rb ->]]. reflexivity. }
  cbn [negb seq mapM].
  assert (Hj : forall j, j < 2 ->
            exists a, (parts <- mapM (fun r => index r j) rs ;;
                       ps <- mapM rows_of parts ;;
                       Ok (Arr (List.concat ps))) = Ok a).
  { intros j Hj. clear - Hshape Hj.
    assert (H : exists parts ps,
               mapM (fun r => index r j) rs = Ok parts
               /\ mapM rows_of parts = Ok ps).
    { induction Hshape as [|r rs' [ra [rb ->]] _ [parts [ps [H1 H2]]]].
      - exists [], []. split; reflexivity.
      - destruct j as [|[|j]]; [| |lia]; simpl; rewrite H1; simpl.
        + exists (Arr ra :: parts), (ra :: ps). simpl. rewrite H2.
          split; reflexivity.
        + exists (Arr rb :: parts), (rb :: ps). simpl. rewrite H2.
          split; reflexivity. }
    destruct H as [parts [ps [H1 H2]]]. rewrite H1. simpl. rewrite H2. simpl.
    eauto. }
  destruct (Hj 0) as [x0 H0]; [lia|]. destruct (Hj 1) as [x1 H1]; [lia|].
  rewrite H0. cbn [bind]. rewrite H1. cbn [bind]. eauto.
Qed.


Lemma field_total (k : string) (P : Tensor -> Prop)
  (raw : list (dict Tensor)) :
  Forall (fun it => exists f, dict_get it k = Some f /\ P f) raw ->
  exists ts, mapM (fun i => subscript i k) raw = Ok ts /\ Forall P ts.
Proof.
  induction 1 as [|it raw' [f [Hg Hp]] _ [ts [IH1 IH2]]]; simpl.
  - exists []. split; [reflexivity | constructor].
  - exists (f :: ts). unfold subscript at 1. rewrite Hg. simpl.
    rewrite IH1. simpl. split; [reflexivity | constructor; assumption].
Qed.

Lemma collate_keys_total (raw_batch : list (dict Tensor))
  (unique_ids : list nat) (keys : list string) :
  Forall (fun k => exists v, collate_value raw_batch unique_ids k = Ok v) keys ->
  forall cb0, exists cb, collate_keys raw_batch unique_ids keys cb0 = Ok cb.
Proof.
  induction 1 as [|k keys' [v Hv] _ IH]; intros cb0; simpl.
  - eauto.
  - rewrite Hv. simpl. apply IH.
Qed.

Lemma shaped_rows (k : string) (raw : list (dict Tensor))
  (idss : list (list Z)) :
  Forall2 (fun it ids =>
             exists f rows, dict_get it k = Some f /\ value f = Arr rows
                            /\ List.length rows = List.length ids) raw idss ->
  exists rs,
    Forall2 (fun it rows =>
               exists f, dict_get it k = Some f /\ value f = Arr rows) raw rs
    /\ List.length (List.concat rs) = List.length (List.concat idss).
Proof.
  induction 1 as [|it ids raw' idss' [f [rows [Hg [Hv Hl]]]] _ [rs [IH1 IH2]]].
  - exists []. split; [constructor | reflexivity].
  - exists (rows :: rs). split; [constructor; eauto|].
    simpl. rewrite !length_app, Hl, IH2. reflexivity.
Qed.

(** A batch of items of one [NegSampledEdgeDataset] is collated. *)
Lemma collate_edge_batch_total (ks : list string)
  (raw_batch : list (dict Tensor)) (idss : list (list Z)) :
  raw_batch <> [] ->
  Forall2 (item_shape ks) raw_batch idss ->
  exists cb, _collate_edge_batch raw_batch = Ok cb.
Proof.
  intros Hne HF.
  assert (Hind : Forall2 (fun it rows =>
            exists f, dict_get it "indices" = Some f /\ value f = Arr rows)
            raw_batch (map (map Int) idss)).
  { clear Hne. induction HF as [|it ids raw idss' Hs _ IH]; simpl;
      constructor; [|exact IH].
    destruct Hs as (_ & _ & _ & Hi & _). exact Hi. }
  destruct (field_rows _ _ _ Hind) as [ts [Hts Hrs]].
  destruct (torch_concat_rows _ _ (mapM_nonempty _ _ _ Hne Hts) Hrs)
    as [c [Hc Hcv]].
  unfold _collate_edge_batch. rewrite Hts. cbn [bind]. rewrite Hc. cbn [bind].
  rewrite Hcv, <- concat_map, as_ints_map_Int. cbn [bind].
  set (flat := List.concat idss).
  destruct raw_batch as [|it0 rest] eqn:Eraw; [congruence|].
  unfold index. cbn [nth_error bind]. rewrite <- Eraw in *.
  apply collate_keys_total. apply Forall_forall. intros k Hk.
  assert (Hs0 : exists ids0, item_shape ks it0 ids0).
  { rewrite Eraw in HF. inversion HF; subst. eauto. }
  destruct Hs0 as [ids0 (Hkeys & _)].
  unfold collate_value.
  destruct (str_in k ["row"; "col"; "rel"]) eqn:E1.
  - assert (Hin : In k ["row"; "col"; "rel"]).
    { unfold str_in in E1. simpl in E1.
      repeat match type of E1 with
             | (String.eqb k ?a || _) = true =>
                 let E := fresh "E" in
                 destruct (String.eqb k a) eqn:E;
                 [apply String.eqb_eq in E; rewrite E; simpl; auto 10
                 | simpl in E1]
             end.
      discriminate. }
    assert (Hall : Forall (fun it => exists rows f,
               dict_get it k = Some f /\ value f = Arr rows) raw_batch).
    { clear - HF Hin. induction HF as [|it ids raw idss' Hs _ IH];
        constructor; [|exact IH].
      destruct Hs as (_ & He & _). destruct (He k Hin) as [f [rows H]]. eauto. }
    destruct (Forall_exists_Forall2 _ _ Hall) as [rs Hrs'].
    destruct (field_rows _ _ _ Hrs') as [ts' [Hts' Hrows']].
    rewrite Hts'. cbn [bind].
    destruct (torch_concat_rows _ _ (mapM_nonempty _ _ _ Hne Hts') Hrows')
      as [c' [Hc' _]].
    eauto.
  - destruct (String.eqb k "from_to_data") eqn:E2.
    + apply String.eqb_eq in E2. subst k.
      assert (Hall : Forall (fun it => exists f,
                 dict_get it "from_to_data" = Some f
                 /\ exists ra rb, value f = Arr [Arr ra; Arr rb]) raw_batch).
      { clear - HF. induction HF as [|it ids raw idss' Hs _ IH];
          constructor; [|exact IH].
        destruct Hs as (_ & _ & (f & ra & rb & Hg & Hv) & _). eauto. }
      destruct (field_total _ _ _ Hall) as [ts' [Hts' Hsh]].
      rewrite Hts'. cbn [bind].
      apply torch_concat_dim1_total; [|exact Hsh].
      eapply mapM_nonempty; eassumption.
    + assert (Hne' : ~ In k edge_keys).
      { unfold edge_keys. intros [<-|[<-|[<-|[<-|[]]]]]; simpl in *;
          discriminate. }
      assert (Hks : In k ks) by (destruct (Hkeys k Hk); [contradiction|assumption]).
      assert (Hall : Forall2 (fun it ids =>
                 exists f rows, dict_get it k = Some f /\ value f = Arr rows
                                /\ List.length rows = List.length ids)
                 raw_batch idss).
      { clear - HF Hks Hne'. induction HF as [|it ids raw idss' Hs _ IH];
          constructor; [|exact IH].
        destruct Hs as (_ & _ & _ & _ & Ho). apply Ho; assumption. }
      destruct (shaped_rows _ _ _ Hall) as [rs [Hrs' Hlen]].
      destruct (field_rows _ _ _ Hrs') as [ts' [Hts' Hrows']].
      rewrite Hts'. cbn [bind].
      destruct (torch_concat_rows _ _ (mapM_nonempty _ _ _ Hne Hts') Hrows')
        as [[cv cd] [Hc' Hcv']].
      rewrite Hc'. cbn [bind]. simpl in Hcv'. subst cv.
      apply index_select_total.
      rewrite Hlen. apply np_unique_index_bound.
Qed.

(** What a batch that [_collate_edge_batch] returns holds, for items
    of a [NegSampledEdgeDataset] with negative-sampling rate [r]. *)
Lemma collate_edge_batch_returns :
  forall (self : NegSampledEdgeDataset) (draws : list (Z * (nat -> Z)))
         (raw_batch : list (dict Tensor)) (cb : dict Tensor),
    Forall2 (fun d it =>
               NegSampledEdgeDataset_getitem self (fst d) (snd d) = Ok it)
      draws raw_batch ->
    _collate_edge_batch raw_batch = Ok cb ->
    (forall k, In k ["row"; "col"; "rel"] ->
       exists t, dict_get cb k = Some t
                 /\ len t = Ok (List.length raw_batch
                                * Z.to_nat (nse_neg_sampling_rate self + 1)))
    /\ exists flat t ids,
         batch_indices raw_batch = Ok flat
         /\ dict_get cb "indices" = Some t
         /\ as_ints (value t) = Ok ids
         /\ NoDup ids
         /\ StronglySorted Z.lt ids
         /\ (forall x, In x ids <-> In x flat).
Proof.
  intros self draws raw_batch cb Hitems H.
  unfold _collate_edge_batch in H.
  bind_inv H. bind_inv H. bind_inv H. bind_inv H.
  rename a into ts, a0 into c, a1 into flat, a2 into first.
  rename Ha into Hts, Ha0 into Hc, Ha1 into Hflat, Ha2 into Hfirst.
  destruct (collate_keys_get _ _ _ _ _ H) as [Hin Hout].
  assert (Hfields : Forall (fun it =>
            forall k, In k ["row"; "col"; "rel"] ->
              exists f rows,
                dict_get it k = Some f /\ value f = Arr rows
                /\ List.length rows
                   = Z.to_nat (nse_neg_sampling_rate self + 1)) raw_batch).
  { clear - Hitems. induction Hitems as [|d it ds its Hd _ IH]; constructor.
    - intros k Hk. eapply getitem_fields; eassumption.
    - exact IH. }
  destruct raw_batch as [|it0 rest]; [discriminate|].
  unfold index in Hfirst. simpl in Hfirst. injection Hfirst as <-.
  split.
  - intros k Hk.
    pose proof (Forall_inv Hfields k Hk) as [f0' [rows0 [Hg0 _]]].
    destruct (Hin k (dict_get_keys _ _ _ Hg0)) as [v [Hv Hcb]].
    exists v. split; [exact Hcb|].
    unfold collate_value in Hv.
    replace (str_in k ["row"; "col"; "rel"]) with true in Hv
      by (destruct Hk as [<- | [<- | [<- | []]]]; reflexivity).
    bind_inv Hv.
    eapply concat_field_length; [|exact Ha|exact Hv].
    apply Forall_forall. intros it Hit.
    rewrite Forall_forall in Hfields. apply (Hfields it Hit k Hk).
  - assert (Hcv : c = mkTensor (Arr (map Int flat)) (device c)).
    { unfold torch_concat in Hc. destruct ts as [|t0 ts']; [discriminate|].
      bind_inv Hc. injection Hc as <-. simpl in *.
      apply as_ints_rows in Hflat. rewrite Hflat. reflexivity. }
    exists flat.
    assert (Hidx : exists t, dict_get cb "indices" = Some t
                             /\ as_ints (value t) = Ok (np_unique flat)).
    { destruct (in_dec string_dec "indices" (dict_keys it0)) as [Hi|Hn].
      - destruct (Hin _ Hi) as [v [Hv Hcb]].
        exists v. split; [exact Hcb|].
        unfold collate_value in Hv.
        cbn [str_in existsb String.eqb Ascii.eqb Bool.eqb orb] in Hv.
        rewrite Hts in Hv. cbn [bind] in Hv.
        rewrite Hc in Hv. cbn [bind] in Hv.
        rewrite Hcv, select_unique in Hv. injection Hv as <-.
        apply as_ints_map_Int.
      - rewrite (Hout _ Hn). simpl. eexists. split; [reflexivity|].
        apply as_ints_map_Int. }
    destruct Hidx as [t [Ht Hids]].
    exists t, (np_unique flat).
    split; [unfold batch_indices; rewrite Hts; simpl; rewrite Hc; exact Hflat|].
    split; [exact Ht|]. split; [exact Hids|].
    split; [apply sorted_NoDup, np_unique_sorted|].
    split; [apply np_unique_sorted | apply np_unique_In].
Qed.

(** [Dataset(x)] for an array [x] has integer indices. *)
Lemma Dataset_init_integer_indices (t : Tensor) (ds : Dataset) :
  Dataset_init (ATensor t) = Ok ds -> integer_indices ds.
Proof.
  unfold Dataset_init. cbn [bind]. intros H. bind_inv H.
  simpl in Ha. repeat bind_inv Ha.
  destruct (negb (a0 =? a1)%nat); [discriminate|]. injection Ha as <-.
  simpl in H. bind_inv H. injection H as <-. simpl.
  exists (arange a), (map Z.of_nat (seq 0 a)).
  split; [reflexivity|]. unfold arange. simpl. rewrite map_map. reflexivity.
Qed.

(** C4, as the code has it.  A non-empty batch of items of a
    [NegSampledEdgeDataset] with negative-sampling rate [r], over a
    dataset with integer indices, is collated: [_collate_edge_batch]
    returns a batch whose [row], [col] and [rel] fields have
    [b * (r + 1)] rows each, and whose [indices] field holds the
    indices of the items without a repeated value, in ascending order
    ([numpy.unique] sorts). *)
Theorem C4_collate_edge_batch_sorted_indices :
  forall (self : NegSampledEdgeDataset) (draws : list (Z * (nat -> Z)))
         (raw_batch : list (dict Tensor)),
    integer_indices (nse_dataset self) ->
    raw_batch <> [] ->
    Forall2 (fun d it =>
               NegSampledEdgeDataset_getitem self (fst d) (snd d) = Ok it)
      draws raw_batch ->
    exists cb,
      _collate_edge_batch raw_batch = Ok cb
      /\ (forall k, In k ["row"; "col"; "rel"] ->
            exists t, dict_get cb k = Some t
                      /\ len t = Ok (List.length raw_batch
                                     * Z.to_nat (nse_neg_sampling_rate self + 1)))
      /\ exists flat t ids,
           batch_indices raw_batch = Ok flat
           /\ dict_get cb "indices" = Some t
           /\ as_ints (value t) = Ok ids
           /\ NoDup ids
           /\ StronglySorted Z.lt ids
           /\ (forall x, In x ids <-> In x flat).
Proof.
  intros self draws raw_batch Hint Hne Hitems.
  assert (Hshape : Forall (fun it => exists ids,
            item_shape (dict_keys (data (nse_dataset self))) it ids)
            raw_batch).
  { clear Hne. induction Hitems as [|d it ds its Hd _ IH]; constructor.
    - eapply getitem_shape; eassumption.
    - exact IH. }
  destruct (Forall_exists_Forall2 _ _ Hshape) as [idss Hidss].
  destruct (collate_edge_batch_total _ _ _ Hne Hidss) as [cb Hcb].
  exists cb. split; [exact Hcb|].
  eapply collate_edge_batch_returns; eassumption.
Qed.

(* ================================================================= *)
(** * Further properties of the two modules *)

(** ** Losses *)

(** Induction on a loss with the hypothesis for every child of a
    compound loss. *)
Lemma Loss_nested_ind (P : Loss -> Prop) :
  (forall nm, P (BaseLoss nm)) ->
  (forall f nm, P (RelationLoss f nm)) ->
  (forall f nm, P (ClassificationLoss f nm)) ->
  (forall f nm, P (PositionLoss f nm)) ->
  (forall f nm, P (ReconstructionLoss f nm)) ->
  (forall ls ws nm, Forall P ls -> P (CompoundLoss ls ws nm)) ->
  (forall u, P (SubclassLoss u)) ->
  forall l, P l.
Proof.
  intros Hb Hr Hc Hp Hrc Hcomp Hu.
  fix IH 1.
  intros [nm|f nm|f nm|f nm|f nm|ls ws nm|u];
    [apply Hb|apply Hr|apply Hc|apply Hp|apply Hrc| |apply Hu].
  apply Hcomp. induction ls as [|l ls IHls]; constructor; [apply IH|exact IHls].
Qed.

(** The loop of a compound loss stops at the first child that raises. *)
Lemma compound_loop_first_failure (model : Model) (hd : RelationData)
  (ld : Relations) (batch : dict Tensor) (l : Loss) (ls2 : list Loss)
  (e : exn) :
  forward l model hd ld batch = Raise e ->
  forall (ls1 : list Loss) (vs : list Float) (ws : list Float) (acc : Float),
    mapM (fun c => forward c model hd ld batch) ls1 = Ok vs ->
    List.length ls1 < List.length ws ->
    compound_loop model hd ld batch (ls1 ++ l :: ls2) ws acc = Raise e.
Proof.
  intros He. induction ls1 as [|c ls1 IH]; intros vs ws acc Hvs Hlen.
  - destruct ws as [|w ws]; [simpl in Hlen; lia|]. simpl. rewrite He.
    reflexivity.
  - simpl in Hvs. bind_inv Hvs. bind_inv Hvs. injection Hvs as <-.
    destruct ws as [|w ws]; [simpl in Hlen; lia|]. simpl. rewrite Ha.
    cbn [bind]. eapply IH; [eassumption|]. simpl in Hlen. lia.
Qed.

(** A compound loss fails as its first failing child does: when the
    children before a child return and that child raises an exception,
    [forward] of the compound loss raises the same exception, whatever
    the children after it would do. *)
Theorem compound_loss_raises_first_failure :
  forall (ls1 ls2 : list Loss) (l : Loss) (ws : list Float) (nm : string)
         (model : Model) (hd : RelationData) (ld : Relations)
         (batch : dict Tensor) (vs : list Float) (e : exn),
    List.length ws = List.length (ls1 ++ l :: ls2) ->
    mapM (fun c => forward c model hd ld batch) ls1 = Ok vs ->
    forward l model hd ld batch = Raise e ->
    (forall uuid4,
       CompoundLoss_init (ls1 ++ l :: ls2) (Some ws) (Some nm) uuid4
       = Ok (CompoundLoss (ls1 ++ l :: ls2) ws nm))
    /\ forward (CompoundLoss (ls1 ++ l :: ls2) ws nm) model hd ld batch
       = Raise e.
Proof.
  intros ls1 ls2 l ws nm model hd ld batch vs e Hlen Hvs He. split.
  - intros uuid4. unfold CompoundLoss_init. rewrite Hlen, Nat.eqb_refl.
    reflexivity.
  - rewrite forward_CompoundLoss.
    eapply compound_loop_first_failure; try eassumption.
    rewrite Hlen, length_app. simpl. lia.
Qed.


(** Two runs of the loop of a compound loss whose children agree. *)
Lemma compound_loop_ext (model : Model) (hd hd' : RelationData)
  (ld ld' : Relations) (batch batch' : dict Tensor) (ls : list Loss) :
  Forall (fun l => forward l model hd ld batch
                   = forward l model hd' ld' batch') ls ->
  forall (ws : list Float) (acc : Float),
    compound_loop model hd ld batch ls ws acc
    = compound_loop model hd' ld' batch' ls ws acc.
Proof.
  induction 1 as [|l ls Hl _ IH]; intros ws acc; simpl; [reflexivity|].
  destruct ws as [|w ws]; [reflexivity|].
  rewrite Hl. destruct (forward l model hd' ld' batch'); simpl;
    [apply IH | reflexivity].
Qed.

(** Of the classes of loss.py only [RelationLoss] looks at the
    relations: a loss in which no [RelationLoss] (and no class of the
    caller's) takes part gives the same result whatever relation data
    and batch relations it is called with. *)
Theorem relation_free_loss_ignores_relations :
  forall (l : Loss),
    relation_free l = true ->
    forall (model : Model) (hd hd' : RelationData) (ld ld' : Relations)
           (batch : dict Tensor),
      forward l model hd ld batch = forward l model hd' ld' batch.
Proof.
  intros l. induction l using Loss_nested_ind;
    intros Hfree model hd hd' ld ld' batch;
    try reflexivity; try discriminate Hfree.
  rewrite !forward_CompoundLoss. apply compound_loop_ext.
  simpl in Hfree. rewrite forallb_forall in Hfree.
  rewrite Forall_forall in *. intros c Hc. apply H; auto.
Qed.

(** [forward] of a class of loss.py subscripts the batch at the keys
    of its class only (["indices"] and ["data"] for a relation loss,
    ["data"] and ["labels"] for a classification loss, ["data"] and
    ["pos"] for a position loss, ["data"] for a reconstruction loss,
    whatever [label_key] or [position_key] the loss was built with):
    on two batches that agree at these keys the result is the same. *)
Theorem loss_reads_only_its_keys :
  forall (l : Loss),
    library_only l = true ->
    forall (model : Model) (hd : RelationData) (ld : Relations)
           (batch batch' : dict Tensor),
      (forall k, In k (keys_read l) -> dict_get batch k = dict_get batch' k) ->
      forward l model hd ld batch = forward l model hd ld batch'.
Proof.
  intros l. induction l using Loss_nested_ind;
    intros Hlib model hd ld batch batch' Hk;
    try reflexivity; try discriminate Hlib.
  - simpl. unfold subscript.
    rewrite (Hk "indices"), (Hk "data") by (simpl; auto). reflexivity.
  - simpl. unfold subscript.
    rewrite (Hk "labels"), (Hk "data") by (simpl; auto). reflexivity.
  - simpl. unfold subscript.
    rewrite (Hk "pos"), (Hk "data") by (simpl; auto). reflexivity.
  - simpl. unfold subscript.
    rewrite (Hk "data") by (simpl; auto). reflexivity.
  - rewrite !forward_CompoundLoss. apply compound_loop_ext.
    simpl in Hlib. rewrite forallb_forall in Hlib.
    rewrite Forall_forall in *. intros c Hc. apply H; auto.
    intros k Hin. apply Hk. simpl. apply in_flat_map. eauto.
Qed.

(** ** Training phases *)

Lemma lookup_loss_get (loss_dict : dict Loss) (lk : string) :
  lookup_loss loss_dict lk
  = match dict_get loss_dict lk with
    | Some l => Ok l
    | None => Raise KeyError
    end.
Proof.
  unfold lookup_loss, dict_in, subscript, deepcopy.
  destruct (dict_get loss_dict lk); reflexivity.
Qed.

Lemma mapM_lookup_loss_Forall2 (loss_dict : dict Loss) (lks : list string)
  (ls : list Loss) :
  Forall2 (fun k l => dict_get loss_dict k = Some l) lks ls ->
  mapM (lookup_loss loss_dict) lks = Ok ls.
Proof.
  induction 1 as [|k l lks ls Hk _ IH]; simpl; [reflexivity|].
  rewrite lookup_loss_get, Hk. simpl. rewrite IH. reflexivity.
Qed.

Lemma mapM_lookup_loss_missing (loss_dict : dict Loss) (lks : list string) :
  Exists (fun k => dict_get loss_dict k = None) lks ->
  mapM (lookup_loss loss_dict) lks = Raise KeyError.
Proof.
  induction 1 as [k lks Hk | k lks _ IH]; simpl; rewrite lookup_loss_get.
  - rewrite Hk. reflexivity.
  - destruct (dict_get loss_dict k); [|reflexivity]. simpl. rewrite IH.
    reflexivity.
Qed.

(** With one loss key, binding the loss reads neither the weights nor
    the name of the phase: it raises [KeyError] when the key is not in
    the mapping, and otherwise the phase's [loss] is (a deep copy of)
    the mapped loss, also for a phase whose [loss_weights] attribute
    was never assigned. *)
Theorem determine_loss_single_key :
  forall (tp : TrainingPhase) (lk : string) (loss_dict : dict Loss)
         (uuid4 : string),
    loss_keys tp = [lk] ->
    (dict_get loss_dict lk = None ->
     _determine_loss tp loss_dict uuid4 = Raise KeyError)
    /\ (forall l, dict_get loss_dict lk = Some l ->
          _determine_loss tp loss_dict uuid4 = Ok (set_loss tp (deepcopy l))
          /\ TrainingPhase_loss (set_loss tp (deepcopy l)) = Ok l
          /\ loss_weights (set_loss tp (deepcopy l)) = loss_weights tp).
Proof.
  intros tp lk loss_dict uuid4 Hk.
  unfold _determine_loss. rewrite Hk. simpl. rewrite lookup_loss_get.
  split.
  - intros ->. reflexivity.
  - intros l ->. repeat split; reflexivity.
Qed.

(** With any other number of loss keys, binding raises [KeyError] as
    soon as one key is not in the mapping, whatever the weights are;
    with every key in the mapping it reads the phase's weights
    ([AttributeError] when the attribute was never assigned), and
    [CompoundLoss] is built from the mapped losses in the order of the
    keys when there is one weight per key, and refused with
    [ValueError] otherwise. *)
Theorem determine_loss_compound :
  forall (tp : TrainingPhase) (loss_dict : dict Loss) (uuid4 : string),
    List.length (loss_keys tp) <> 1 ->
    (Exists (fun k => dict_get loss_dict k = None) (loss_keys tp) ->
     _determine_loss tp loss_dict uuid4 = Raise KeyError)
    /\ (forall ls,
          Forall2 (fun k l => dict_get loss_dict k = Some l)
            (loss_keys tp) ls ->
          _determine_loss tp loss_dict uuid4
          = match loss_weights tp with
            | None => Raise AttributeError
            | Some w =>
                if Nat.eqb (List.length w) (List.length (loss_keys tp))
                then Ok (set_loss tp
                           (CompoundLoss (map deepcopy ls) w
                              (Loss_init "comp_loss" (tp_name tp) uuid4)))
                else Raise ValueError
            end).
Proof.
  intros tp loss_dict uuid4 Hn.
  unfold _determine_loss.
  destruct (Nat.eqb (List.length (loss_keys tp)) 1) eqn:E;
    [apply Nat.eqb_eq in E; contradiction|].
  split.
  - intros Hex. rewrite (mapM_lookup_loss_missing _ _ Hex). reflexivity.
  - intros ls Hall. rewrite (mapM_lookup_loss_Forall2 _ _ _ Hall). simpl.
    unfold get_loss_weights. destruct (loss_weights tp) as [w|]; [|reflexivity].
    simpl. unfold CompoundLoss_init.
    rewrite (Forall2_length Hall). unfold deepcopy. rewrite map_id.
    destruct (Nat.eqb (List.length w) (List.length ls)); reflexivity.
Qed.

(** ** Datasets *)

Lemma check_types_closed (types : list string) :
  forall requires : bool,
    check_types types requires
    = if forallb valid_type types
      then Ok (requires || existsb relation_type types)
      else Raise ValueError.
Proof.
  induction types as [|t ts IH]; intros requires; simpl.
  - rewrite orb_false_r. reflexivity.
  - unfold valid_type at 1, relation_type at 1.
    destruct (String.eqb t "data") eqn:Ed.
    + apply String.eqb_eq in Ed. subst t. simpl. apply IH.
    + destruct (String.eqb t "rel") eqn:Er; simpl; [|reflexivity].
      rewrite IH. rewrite orb_true_r. reflexivity.
Qed.

(** [DerivedDatasetEntry(func, type_key_tuples, **kwargs)] returns an
    entry exactly when there is at least one tuple and every type is
    ['data'] or ['rel'], and raises [ValueError] otherwise; the entry
    requires the relations exactly when one of the types is ['rel'],
    and it holds the function, the tuples and the keyword arguments as
    they were passed. *)
Theorem derived_entry_requires_relations :
  forall (f : DataFun) (type_key_tuples : list (string * string))
         (kwargs : dict pyval),
    DerivedDatasetEntry_init f type_key_tuples kwargs
    = if negb (Nat.eqb (List.length type_key_tuples) 0)
         && forallb valid_type (map fst type_key_tuples)
      then Ok (mkEntry f (existsb relation_type (map fst type_key_tuples))
                 type_key_tuples kwargs)
      else Raise ValueError.
Proof.
  intros f [|tk tkt] kwargs; [reflexivity|].
  unfold DerivedDatasetEntry_init. rewrite check_types_closed.
  cbn [List.length Nat.eqb negb andb].
  destruct (forallb valid_type (map fst (tk :: tkt))); reflexivity.
Qed.

Lemma dict_get_In {V : Type} (d : dict V) (k : string) (v : V) :
  dict_get d k = Some v -> In (k, v) d.
Proof.
  induction d as [|[k0 v0] d IH]; simpl; [discriminate|].
  destruct (String.eqb k0 k) eqn:E.
  - apply String.eqb_eq in E. subst k0. intros H; injection H as <-.
    left; reflexivity.
  - intros H. right. apply IH, H.
Qed.

Lemma Forall_dict_set {V : Type} (P : string * V -> Prop) (d : dict V)
  (k : string) (v : V) :
  Forall P d -> (forall k', P (k', v)) -> Forall P (dict_set d k v).
Proof.
  intros Hd Hv. induction Hd as [|[k0 v0] d H0 Hd' IH]; simpl.
  - constructor; [apply Hv | constructor].
  - destruct (String.eqb k0 k); constructor; auto.
Qed.

Lemma len_arange (n : nat) : len (arange n) = Ok n.
Proof.
  unfold len, arange. simpl. rewrite length_map, length_seq. reflexivity.
Qed.

(** What the loop of [Dataset.__init__] keeps: the columns stored so
    far have the length of [data["data"]]. *)
Lemma Dataset_init_loop_aligned (d : dict DataValue) :
  (forall t, len (to_torch t) = len t) ->
  forall (items : dict DataValue) (self self' : Dataset),
    Dataset_init_loop d items self = Ok self' ->
    (data self = []
     \/ exists n, data_length d n /\ columns_aligned self n) ->
    (data self' = []
     \/ exists n, data_length d n /\ columns_aligned self' n).
Proof.
  intros Hlen. induction items as [|[k val] items IH]; intros self self' H Hinv;
    simpl in H.
  - injection H as <-. exact Hinv.
  - destruct val as [t|e|o]; [| |discriminate].
    + bind_inv H. bind_inv H. unfold subscript in Ha0.
      destruct (dict_get d "data") as [d0|] eqn:Ed; [|discriminate].
      injection Ha0 as <-. bind_inv H.
      destruct (Nat.eqb a a0) eqn:En; [|discriminate]. simpl in H.
      apply Nat.eqb_eq in En. subst a0.
      assert (Hdl : data_length d a).
      { exists d0. split; [exact Ed|].
        destruct d0 as [t0|e0|[m|]]; try discriminate;
          [exact Ha0 | injection Ha0 as ->; reflexivity]. }
      apply IH in H; [exact H|]. right. exists a.
      split; [exact Hdl|].
      unfold columns_aligned. simpl. apply Forall_dict_set.
      * destruct Hinv as [He | [n [Hn Hal]]]; [rewrite He; constructor|].
        destruct Hdl as [d1 [Hd1 Hm1]], Hn as [d2 [Hd2 Hm2]].
        rewrite Hd1 in Hd2. injection Hd2 as <-.
        destruct d1 as [t0|e0|[m|]]; try contradiction.
        -- rewrite Hm1 in Hm2. injection Hm2 as <-. exact Hal.
        -- subst m. subst n. exact Hal.
      * intros k'. simpl. rewrite Hlen. exact Ha.
    + apply IH in H; [exact H|]. simpl. exact Hinv.
Qed.

Lemma Dataset_init_loop_columns (d : dict DataValue) :
  forall (items : dict DataValue) (self self' : Dataset),
    Dataset_init_loop d items self = Ok self' ->
    (forall k, dict_in k (data self) = true -> dict_in k (data self') = true)
    /\ (forall k t, In (k, VTensor t) items -> dict_in k (data self') = true)
    /\ (forall k o, ~ In (k, VOther o) items).
Proof.
  induction items as [|[k val] items IH]; intros self self' H; simpl in H.
  - injection H as <-. split; [auto|]. split; [intros k t [] | intros k o []].
  - destruct val as [t|e|o]; [| |discriminate].
    + bind_inv H. bind_inv H. bind_inv H.
      destruct (negb (Nat.eqb a a1)); [discriminate|].
      apply IH in H. simpl in H. destruct H as [Hm [Hin Hno]].
      split; [|split].
      * intros k0 Hk0. apply Hm. rewrite dict_in_set, Hk0. apply orb_true_r.
      * intros k0 t0 [E | Hi]; [|eapply Hin; exact Hi].
        injection E as <- <-. apply Hm.
        rewrite dict_in_set, String.eqb_refl. reflexivity.
      * intros k0 o [E | Hi]; [discriminate | exact (Hno _ _ Hi)].
    + apply IH in H. simpl in H. destruct H as [Hm [Hin Hno]].
      split; [exact Hm|]. split.
      * intros k0 t0 [E | Hi]; [discriminate | eapply Hin; exact Hi].
      * intros k0 o [E | Hi]; [discriminate | exact (Hno _ _ Hi)].
Qed.

Lemma aligned_len (ds : Dataset) (n : nat) (k : string) :
  columns_aligned ds n -> dict_in k (data ds) = true ->
  exists t, dict_get (data ds) k = Some t /\ len t = Ok n.
Proof.
  intros Hal Hin. unfold dict_in in Hin.
  destruct (dict_get (data ds) k) as [t|] eqn:E; [|discriminate].
  exists t. split; [reflexivity|].
  apply dict_get_In in E. unfold columns_aligned in Hal.
  rewrite Forall_forall in Hal. apply (Hal _ E).
Qed.

(** A dataset that [Dataset(data)] returns has a ["data"] and an
    ["indices"] column, and all its columns have the same number of
    rows, the length of the dataset.  ([utils.convert.to_torch] is
    taken to keep the number of rows.) *)
Theorem Dataset_init_columns_aligned :
  (forall t, len (to_torch t) = len t) ->
  forall (data0 : DataArg) (ds : Dataset),
    Dataset_init data0 = Ok ds ->
    exists n,
      Dataset_len ds = Ok n
      /\ columns_aligned ds n
      /\ dict_in "data" (data ds) = true
      /\ dict_in "indices" (data ds) = true.
Proof.
  intros Hlen data0 ds H. unfold Dataset_init in H.
  bind_inv H. bind_inv H. rename a into d, a0 into self.
  assert (Hd : dict_in "data" d = true).
  { destruct data0 as [t|d'|]; [| |discriminate].
    - injection Ha as <-. reflexivity.
    - destruct (dict_in "data" d') eqn:E; [|discriminate].
      injection Ha as <-. exact E. }
  pose proof (Dataset_init_loop_aligned d Hlen _ _ _ Ha0
                (or_introl eq_refl)) as Hinv.
  destruct (Dataset_init_loop_columns d _ _ _ Ha0) as [_ [Hcols Hno]].
  assert (Hne : data self <> [] ->
            exists n, columns_aligned self n
                      /\ dict_in "data" (data self) = true).
  { intros Hn. destruct Hinv as [He | [n [[d0 [Hd0 Hm]] Hal]]];
      [contradiction|].
    exists n. split; [exact Hal|].
    apply dict_get_In in Hd0.
    destruct d0 as [t0|e0|o]; [| contradiction | elim (Hno _ _ Hd0)].
    apply (Hcols "data" t0), Hd0. }
  destruct (dict_in "indices" (data self)) eqn:Ei; simpl in H.
  - injection H as <-.
    destruct Hne as [n [Hal Hdata]].
    { intros He. rewrite He in Ei. discriminate. }
    exists n. destruct (aligned_len _ _ _ Hal Hdata) as [t [Hg Hl]].
    unfold Dataset_len, subscript. rewrite Hg. simpl.
    repeat split; assumption.
  - bind_inv H. injection H as <-. rename a into n.
    unfold Dataset_len, subscript in Ha1.
    destruct (dict_get (data self) "data") as [t|] eqn:Eg; [|discriminate].
    simpl in Ha1.
    destruct Hne as [n' [Hal Hdata]].
    { intros He. rewrite He in Eg. discriminate. }
    destruct (aligned_len _ _ _ Hal Hdata) as [t' [Hg' Hl']].
    rewrite Eg in Hg'. injection Hg' as <-. rewrite Ha1 in Hl'.
    injection Hl' as <-.
    exists n. unfold Dataset_len, subscript, columns_aligned. simpl.
    rewrite dict_get_set. simpl. rewrite Eg. simpl.
    split; [exact Ha1|]. split.
    + apply Forall_dict_set; [exact Hal|]. intros k'. apply len_arange.
    + rewrite !dict_in_set, Hdata. split; reflexivity.
Qed.

Lemma take_row_in_range (rows : list ndarray) (i : Z) :
  (- Z.of_nat (List.length rows) <= i < Z.of_nat (List.length rows))%Z ->
  exists r, take_row (Arr rows) i = Ok r.
Proof.
  intros Hi. unfold take_row, index.
  destruct ((0 <=? i) && (i <? Z.of_nat (List.length rows)))%Z eqn:E1.
  - apply andb_true_iff in E1. destruct E1 as [H0 H1].
    apply Z.leb_le in H0. apply Z.ltb_lt in H1.
    destruct (nth_error rows (Z.to_nat i)) eqn:En; [eauto|].
    apply nth_error_None in En. lia.
  - assert (Hneg : (i < 0)%Z).
    { apply andb_false_iff in E1. destruct E1 as [E|E];
        [apply Z.leb_gt in E | apply Z.ltb_ge in E]; lia. }
    replace ((- Z.of_nat (List.length rows) <=? i) && (i <? 0))%Z with true
      by (symmetry; apply andb_true_iff; split;
          [apply Z.leb_le | apply Z.ltb_lt]; lia).
    destruct (nth_error rows (Z.to_nat (Z.of_nat (List.length rows) + i)))
      eqn:En; [eauto|].
    apply nth_error_None in En. lia.
Qed.

Lemma take_row_out_of_range (a : ndarray) (n : nat) (dev : Device) (i : Z) :
  len (mkTensor a dev) = Ok n ->
  (Z.of_nat n <= i \/ i < - Z.of_nat n)%Z ->
  take_row a i = Raise IndexError.
Proof.
  unfold len. simpl. destruct a as [z|x|rows]; try discriminate.
  intros H Hi. injection H as <-. unfold take_row.
  replace ((0 <=? i) && (i <? Z.of_nat (List.length rows)))%Z with false
    by (symmetry; apply andb_false_iff;
        destruct Hi; [right; apply Z.ltb_ge | left; apply Z.leb_gt]; lia).
  replace ((- Z.of_nat (List.length rows) <=? i) && (i <? 0))%Z with false
    by (symmetry; apply andb_false_iff;
        destruct Hi; [right; apply Z.ltb_ge | left; apply Z.leb_gt]; lia).
  reflexivity.
Qed.

(** Indexing a dataset whose columns all have [n] rows: for an index
    [i] with [-n <= i < n] the item has the keys of the dataset, in
    their order, and under each key the row [i] of the column; for any
    other index (and a dataset with a column) it raises
    [IndexError]. *)
Theorem Dataset_getitem_within_bounds :
  forall (ds : Dataset) (n : nat) (i : Z),
    columns_aligned ds n ->
    ((- Z.of_nat n <= i < Z.of_nat n)%Z ->
     exists item,
       Dataset_getitem ds i = Ok item
       /\ dict_keys item = dict_keys (data ds)
       /\ (forall k t, dict_get (data ds) k = Some t ->
           exists r, take_row (value t) i = Ok r
                     /\ dict_get item k = Some (mkTensor r (device t))))
    /\ ((Z.of_nat n <= i \/ i < - Z.of_nat n)%Z -> data ds <> [] ->
        Dataset_getitem ds i = Raise IndexError).
Proof.
  intros ds n i Hal. split.
  - intros Hi.
    destruct (mapM_total
                (fun kv => r <- take_row (value (snd kv)) i ;;
                           Ok (fst kv, mkTensor r (device (snd kv))))
                (data ds)) as [item Hitem].
    { eapply Forall_impl; [|exact Hal]. intros [k t] Hl. simpl in *.
      unfold len in Hl. destruct (value t) as [z|x|rows]; try discriminate.
      injection Hl as Hl. subst n.
      destruct (take_row_in_range rows i Hi) as [r ->]. simpl. eauto. }
    exists item. split; [exact Hitem|].
    split; [eapply Dataset_getitem_keys; exact Hitem|].
    intros k t Hg. eapply Dataset_getitem_get; eassumption.
  - intros Hi Hne. unfold Dataset_getitem.
    destruct (data ds) as [|[k t] cols] eqn:E; [contradiction|].
    unfold columns_aligned in Hal. rewrite E in Hal.
    apply Forall_inv in Hal. simpl in Hal. simpl.
    destruct t as [a dev]. simpl.
    rewrite (take_row_out_of_range a n dev i Hal Hi). reflexivity.
Qed.

(** The dataset of an array: [Dataset(x)[i]] for [0 <= i < len(x)] is
    the row [i] of [x] under ["data"] and the number [i] under
    ["indices"]. *)
Theorem Dataset_of_array_getitem :
  forall (x : Tensor) (ds : Dataset) (n : nat) (i : nat),
    Dataset_init (ATensor x) = Ok ds ->
    Dataset_len ds = Ok n ->
    i < n ->
    exists r,
      take_row (value (to_torch x)) (Z.of_nat i) = Ok r
      /\ Dataset_getitem ds (Z.of_nat i)
         = Ok [("data", mkTensor r (device (to_torch x)));
               ("indices", mkTensor (Int (Z.of_nat i)) cpu)].
Proof.
  intros x ds n i H Hn Hi. unfold Dataset_init in H. cbn [bind] in H.
  bind_inv H. simpl in Ha. repeat bind_inv Ha.
  destruct (negb (a0 =? a1)%nat); [discriminate|]. injection Ha as <-.
  simpl in H. bind_inv H. injection H as <-.
  unfold Dataset_len in Hn, Ha. simpl in Hn, Ha.
  rewrite Hn in Ha. injection Ha as <-.
  unfold len in Hn. destruct (value (to_torch x)) as [z|y|rows] eqn:Ev;
    try discriminate.
  injection Hn as Hn.
  destruct (take_row_in_range rows (Z.of_nat i)) as [r Hr]; [lia|].
  exists r. split; [exact Hr|].
  unfold Dataset_getitem. simpl. rewrite Ev, Hr. simpl.
  unfold take_row. rewrite length_map, length_seq.
  replace ((0 <=? Z.of_nat i) && (Z.of_nat i <? Z.of_nat n))%Z with true
    by (symmetry; apply andb_true_iff; split;
        [apply Z.leb_le | apply Z.ltb_lt]; lia).
  rewrite Nat2Z.id. unfold index.
  rewrite nth_error_map.
  rewrite (nth_error_nth' (seq 0 n) 0) by (rewrite length_seq; exact Hi).
  rewrite seq_nth by exact Hi. reflexivity.
Qed.

(** ** Edge items and edge batches *)

(** An item of a [NegSampledEdgeDataset] with negative-sampling rate
    [r]: the rate is not negative, [row] holds [r + 1] copies of the
    row index of edge [idx], [col] holds the column index of the edge
    followed by the draws 1 to [r] of [torch.randint] (the draw 0 is
    overwritten), and [rel] holds 1 followed by [r] zeros. *)
Theorem edge_item_first_pair_is_the_edge :
  forall (self : NegSampledEdgeDataset) (idx : Z) (randint : nat -> Z)
         (it : dict Tensor),
    NegSampledEdgeDataset_getitem self idx randint = Ok it ->
    exists r c,
      np_index (coo_row (p_ij self)) idx = Ok r
      /\ np_index (coo_col (p_ij self)) idx = Ok c
      /\ (0 <= nse_neg_sampling_rate self)%Z
      /\ dict_get it "row"
         = Some (of_ints (repeat r (S (Z.to_nat (nse_neg_sampling_rate self)))))
      /\ dict_get it "col"
         = Some (of_ints
                   (c :: map randint
                           (seq 1 (Z.to_nat (nse_neg_sampling_rate self)))))
      /\ dict_get it "rel"
         = Some (mkTensor
                   (Arr (Flt f1
                         :: repeat (Flt f0)
                              (Z.to_nat (nse_neg_sampling_rate self))))
                   cpu).
Proof.
  intros self idx randint it H.
  unfold NegSampledEdgeDataset_getitem in H.
  bind_inv H.
  destruct (nse_neg_sampling_rate self + 1 <? 0)%Z; [discriminate|].
  destruct (coo_shape0 (p_ij self) <=? 0)%Z; [discriminate|].
  repeat bind_inv H.
  injection H as <-.
  destruct (Z.to_nat (nse_neg_sampling_rate self + 1)) as [|m] eqn:En;
    [discriminate|].
  assert (Hm : m = Z.to_nat (nse_neg_sampling_rate self)) by lia.
  assert (Hpos : (0 <= nse_neg_sampling_rate self)%Z) by lia.
  rewrite <- Hm.
  simpl in Ha1, Ha2. injection Ha1 as <-. injection Ha2 as <-.
  exists a, a0. split; [exact Ha|]. split; [exact Ha0|].
  split; [exact Hpos|].
  rewrite !dict_get_set. simpl.
  rewrite <- seq_shift, map_map. repeat split; reflexivity.
Qed.

(** In the batch that [_collate_edge_batch] returns, the keys are
    ["indices"] and the keys of the first item, and every column other
    than the edge fields ([row], [col], [rel], [from_to_data]) holds
    one row for each distinct index of the batch. *)
Theorem collate_edge_batch_columns_follow_indices :
  forall (raw_batch : list (dict Tensor)) (cb first : dict Tensor),
    _collate_edge_batch raw_batch = Ok cb ->
    index raw_batch 0 = Ok first ->
    exists flat,
      batch_indices raw_batch = Ok flat
      /\ (forall k, dict_in k cb = true
                    <-> k = "indices" \/ In k (dict_keys first))
      /\ (forall k, In k (dict_keys first) -> ~ In k edge_keys ->
          exists t rows,
            dict_get cb k = Some t /\ value t = Arr rows
            /\ List.length rows = List.length (np_unique flat)).
Proof.
  intros raw_batch cb first H Hfirst.
  unfold _collate_edge_batch in H.
  bind_inv H. bind_inv H. bind_inv H. bind_inv H.
  rewrite Hfirst in Ha2. injection Ha2 as <-.
  destruct (collate_keys_get _ _ _ _ _ H) as [Hin Hout].
  exists a1. split; [unfold batch_indices; rewrite Ha; simpl; rewrite Ha0;
                     exact Ha1|].
  split.
  - intros k. unfold dict_in. split.
    + intros Hk. destruct (in_dec string_dec k (dict_keys first)) as [Hi|Hn];
        [right; exact Hi|].
      rewrite (Hout _ Hn) in Hk. cbn [dict_get] in Hk.
      destruct (String.eqb "indices" k) eqn:E; [|discriminate].
      apply String.eqb_eq in E. left. symmetry. exact E.
    + intros [-> | Hi].
      * destruct (in_dec string_dec "indices" (dict_keys first)) as [Hi|Hn].
        -- destruct (Hin _ Hi) as [v [_ ->]]. reflexivity.
        -- rewrite (Hout _ Hn). reflexivity.
      * destruct (Hin _ Hi) as [v [_ ->]]. reflexivity.
  - intros k Hk Hne. destruct (Hin _ Hk) as [v [Hv Hcb]].
    unfold collate_value in Hv.
    assert (E1 : str_in k ["row"; "col"; "rel"] = false).
    { unfold str_in. simpl.
      destruct (String.eqb k "row") eqn:E;
        [apply String.eqb_eq in E; exfalso; apply Hne; rewrite E;
         unfold edge_keys; simpl; auto|].
      destruct (String.eqb k "col") eqn:E';
        [apply String.eqb_eq in E'; exfalso; apply Hne; rewrite E';
         unfold edge_keys; simpl; auto|].
      destruct (String.eqb k "rel") eqn:E'';
        [apply String.eqb_eq in E''; exfalso; apply Hne; rewrite E'';
         unfold edge_keys; simpl; auto|].
      reflexivity. }
    assert (E2 : String.eqb k "from_to_data" = false).
    { destruct (String.eqb k "from_to_data") eqn:E; [|reflexivity].
      apply String.eqb_eq in E. exfalso. apply Hne. rewrite E.
      unfold edge_keys. simpl. auto 10. }
    rewrite E1, E2 in Hv. bind_inv Hv. bind_inv Hv.
    unfold index_select in Hv. bind_inv Hv. injection Hv as <-.
    exists (mkTensor (Arr a4) (device a3)), a4.
    split; [exact Hcb|]. split; [reflexivity|].
    rewrite (mapM_length _ _ _ Ha4), length_map.
    unfold np_unique_index. rewrite length_map. reflexivity.
Qed.

(** ** Training phases of a routine *)

Lemma determine_loss_set_loss (tp tp' : TrainingPhase) (loss_dict : dict Loss)
  (uuid4 : string) :
  _determine_loss tp loss_dict uuid4 = Ok tp' ->
  exists l, tp' = set_loss tp l
            /\ (List.length (loss_keys tp) <> 1 ->
                exists ls ws nm, l = CompoundLoss ls ws nm).
Proof.
  unfold _determine_loss. intros H.
  destruct (Nat.eqb (List.length (loss_keys tp)) 1) eqn:E.
  - bind_inv H. bind_inv H. injection H as <-. exists a0.
    split; [reflexivity|]. apply Nat.eqb_eq in E. intros Hn; contradiction.
  - bind_inv H. bind_inv H. bind_inv H. injection H as <-. exists a1.
    split; [reflexivity|]. intros _.
    unfold CompoundLoss_init in Ha1.
    destruct (negb (Nat.eqb (List.length a0) (List.length a)));
      [discriminate|].
    injection Ha1 as <-. eauto.
Qed.

(** The two outcomes of [add_training_phase]. *)
Lemma add_training_phase_outcome :
  forall (training_phase : option TrainingPhase) (a : PhaseArgs)
         (uuid4 : string) (self : ParametricDR),
    match add_training_phase training_phase a uuid4 self with
    | Ret _ self' =>
        exists l,
          _determine_loss (phase_to_add training_phase a self) (losses self)
            uuid4
          = Ok (set_loss (phase_to_add training_phase a self) l)
          /\ self' = with_training_phases
                       (training_phases self
                        ++ [set_loss (phase_to_add training_phase a self) l])
                       self
    | Exc _ self' => self' = self
    end.
Proof.
  intros training_phase a uuid4 self.
  unfold add_training_phase, phase_to_add, mbind, lift, modify, ret.
  set (tp := override_phase a _).
  destruct (_determine_loss tp (losses self) uuid4) as [tp'|e] eqn:Ed;
    [|reflexivity].
  destruct (determine_loss_set_loss _ _ _ _ Ed) as [l [-> _]].
  unfold TrainingPhase_loss. simpl.
  destruct (is_relation_or_compound l).
  - destruct (Loss_check_sampling_and_relations l _ (batch_relations self));
      [|reflexivity].
    exists l. split; reflexivity.
  - exists l. split; reflexivity.
Qed.


(** [set_training_defaults(batches_per_epoch=n)] assigns [n] to the
    batch size of the defaults, not to their batches per epoch: a
    phase added from the defaults afterwards has batch size [n] and the
    batches per epoch the defaults had before. *)
Theorem defaults_batches_per_epoch_sets_batch_size :
  forall (n : Z) (uuid4 : string) (self self1 self2 : ParametricDR),
    set_training_defaults None (only_batches_per_epoch n) self
    = Ret tt self1 ->
    add_training_phase None no_arguments uuid4 self1 = Ret tt self2 ->
    exists tp,
      training_phases self2 = training_phases self ++ [tp]
      /\ batch_size tp = n
      /\ batches_per_epoch tp = batches_per_epoch (training_defaults self)
      /\ batches_per_epoch (training_defaults self2)
         = batches_per_epoch (training_defaults self)
      /\ batch_size (training_defaults self2) = n.
Proof.
  intros n uuid4 self self1 self2 H1 H2.
  unfold set_training_defaults, modify in H1. injection H1 as <-.
  pose proof (add_training_phase_outcome None no_arguments uuid4
                (with_training_defaults
                   (override_defaults (only_batches_per_epoch n)
                      (training_defaults self)) self)) as Hadd.
  rewrite H2 in Hadd. destruct Hadd as [l [_ ->]].
  eexists. split; [reflexivity|]. repeat split; reflexivity.
Qed.

(** ** Adding to the dataset *)

(** What one turn of the loop of [add_to_dataset] leaves. *)
Lemma add_one_outcome (k : string) (v : DataValue) (s : ParametricDR)
  (ds : Dataset) :
  _dataset s = Some ds ->
  match v with
  | VTensor t =>
      exists s', add_one (k, v) s = Ret tt s'
                 /\ _dataset s'
                    = Some (mkDataset (dict_set (data ds) k (to_torch t))
                              (_derived_entries ds))
                 /\ _dataset_registered s' = _dataset_registered s
  | VEntry e =>
      exists s', add_one (k, v) s = Ret tt s'
                 /\ _dataset s'
                    = Some (mkDataset (data ds)
                              (dict_set (_derived_entries ds) k e))
                 /\ _dataset_registered s' = _dataset_registered s
  | VOther _ => add_one (k, v) s = Exc ValueError s
  end.
Proof.
  intros Hds. destruct v as [t|e|o]; [| |reflexivity];
    unfold add_one, mbind, lift, dataset, emit, modify, set_dataset_data,
      set_derived_entries; simpl;
    destruct (verbose s);
    repeat (progress (unfold mbind, lift, dataset, emit, modify; simpl;
                      rewrite ?Hds; simpl)
            || match goal with
               | |- context [if ?b then _ else _] => destruct b
               end);
    eexists; (split; [reflexivity|]); split; reflexivity.
Qed.

Lemma add_each_outcome (data0 : dict DataValue) :
  forall (s s' : ParametricDR) (ds : Dataset),
    for_each add_one data0 s = Ret tt s' ->
    _dataset s = Some ds ->
    NoDup (dict_keys data0) ->
    exists ds',
      _dataset s' = Some ds'
      /\ _dataset_registered s' = _dataset_registered s
      /\ (forall k t, In (k, VTensor t) data0 ->
          dict_get (data ds') k = Some (to_torch t))
      /\ (forall k e, In (k, VEntry e) data0 ->
          dict_get (_derived_entries ds') k = Some e)
      /\ (forall k, (forall t, ~ In (k, VTensor t) data0) ->
          dict_get (data ds') k = dict_get (data ds) k)
      /\ (forall k, (forall e, ~ In (k, VEntry e) data0) ->
          dict_get (_derived_entries ds') k
          = dict_get (_derived_entries ds) k).
Proof.
  induction data0 as [|[k v] rest IH]; intros s s' ds H Hds Hnd.
  - simpl in H. unfold ret in H. injection H as <-. exists ds.
    split; [exact Hds|]. split; [reflexivity|].
    repeat split; try reflexivity; intros; contradiction.
  - simpl in H. unfold mbind in H.
    pose proof (add_one_outcome k v s ds Hds) as Hone.
    unfold dict_keys in Hnd. simpl in Hnd.
    apply NoDup_cons_iff in Hnd. destruct Hnd as [Hk Hnd].
    assert (Hfresh : forall v', ~ In (k, v') rest).
    { intros v' Hin. apply Hk. apply (in_map fst) in Hin. exact Hin. }
    destruct v as [t|e|].
    + destruct Hone as [s1 [Hrun [Hds1 Hreg]]]. rewrite Hrun in H.
      destruct (IH _ _ _ H Hds1 Hnd) as [ds' [Hs' [Hr' [Ht [He [Hot Hoe]]]]]].
      exists ds'. split; [exact Hs'|]. split; [congruence|].
      simpl in *. split; [|split; [|split]].
      * intros k0 t0 [E|Hin]; [|apply Ht, Hin].
        injection E as <- <-. rewrite Hot by (intros t1; apply Hfresh).
        rewrite dict_get_set, String.eqb_refl. reflexivity.
      * intros k0 e0 [E|Hin]; [discriminate | apply He, Hin].
      * intros k0 Hno. rewrite Hot by (intros t1 Hc; apply (Hno t1); right; exact Hc).
        rewrite dict_get_set.
        destruct (String.eqb k k0) eqn:E; [|reflexivity].
        apply String.eqb_eq in E. subst k0. exfalso.
        apply (Hno t). left. reflexivity.
      * intros k0 Hno. apply Hoe. intros e0 Hc. apply (Hno e0). right. exact Hc.
    + destruct Hone as [s1 [Hrun [Hds1 Hreg]]]. rewrite Hrun in H.
      destruct (IH _ _ _ H Hds1 Hnd) as [ds' [Hs' [Hr' [Ht [He [Hot Hoe]]]]]].
      exists ds'. split; [exact Hs'|]. split; [congruence|].
      simpl in *. split; [|split; [|split]].
      * intros k0 t0 [E|Hin]; [discriminate | apply Ht, Hin].
      * intros k0 e0 [E|Hin]; [|apply He, Hin].
        injection E as <- <-. rewrite Hoe by (intros e1; apply Hfresh).
        rewrite dict_get_set, String.eqb_refl. reflexivity.
      * intros k0 Hno. apply Hot. intros t0 Hc. apply (Hno t0). right. exact Hc.
      * intros k0 Hno. rewrite Hoe by (intros e1 Hc; apply (Hno e1); right; exact Hc).
        rewrite dict_get_set.
        destruct (String.eqb k k0) eqn:E; [|reflexivity].
        apply String.eqb_eq in E. subst k0. exfalso.
        apply (Hno e). left. reflexivity.
    + rewrite Hone in H. discriminate.
Qed.

(** [add_to_dataset(data)] on a routine with a registered dataset, for
    a dict [data] (its keys are distinct): a call that returns has
    stored every array of [data] as the column of its key (converted by
    [to_torch]) and every derived entry as the definition of its key,
    and has left every other column and definition as it was. *)
Theorem add_to_dataset_stores_every_value :
  forall (data0 : dict DataValue) (self self' : ParametricDR) (ds : Dataset),
    add_to_dataset data0 self = Ret tt self' ->
    _dataset self = Some ds ->
    NoDup (dict_keys data0) ->
    exists ds',
      dataset self' = Ok ds'
      /\ (forall k t, In (k, VTensor t) data0 ->
          dict_get (data ds') k = Some (to_torch t))
      /\ (forall k e, In (k, VEntry e) data0 ->
          dict_get (_derived_entries ds') k = Some e)
      /\ (forall k, (forall t, ~ In (k, VTensor t) data0) ->
          dict_get (data ds') k = dict_get (data ds) k)
      /\ (forall k, (forall e, ~ In (k, VEntry e) data0) ->
          dict_get (_derived_entries ds') k
          = dict_get (_derived_entries ds) k).
Proof.
  intros data0 self self' ds H Hds Hnd. unfold add_to_dataset in H.
  destruct (negb (_dataset_registered self)); [discriminate|].
  destruct (add_each_outcome _ _ _ _ H Hds Hnd)
    as [ds' [Hs' [_ [Ht [He [Hot Hoe]]]]]].
  exists ds'. unfold dataset. rewrite Hs'. repeat split; assumption.
Qed.

(** [add_to_dataset] is not all or nothing: when a value that is
    neither an array nor a derived entry follows values that are, the
    call raises [ValueError] after the values before it have been
    added. *)
Theorem add_to_dataset_keeps_values_before_a_bad_one :
  forall (good rest : dict DataValue) (k : string) (length : option nat)
         (self self1 : ParametricDR),
    add_to_dataset good self = Ret tt self1 ->
    add_to_dataset (good ++ (k, VOther length) :: rest) self
    = Exc ValueError self1.
Proof.
  intros good rest k length self self1. unfold add_to_dataset.
  destruct (negb (_dataset_registered self)); [discriminate|].
  revert self. induction good as [|kv good IH]; intros self H; simpl in *.
  - unfold ret in H. injection H as <-. reflexivity.
  - unfold mbind in *. destruct (add_one kv self) as [[] s1|e s1];
      [apply IH, H | discriminate].
Qed.

(** ** Derived data with the definitions kept *)

Lemma dict_set_middle {V : Type} (pre rest : dict V) (k : string) (v v' : V) :
  ~ In k (dict_keys pre) ->
  dict_set (pre ++ (k, v) :: rest) k v' = pre ++ (k, v') :: rest.
Proof.
  unfold dict_keys. induction pre as [|[k0 v0] pre IH]; simpl; intros Hn.
  - rewrite String.eqb_refl. reflexivity.
  - destruct (String.eqb k0 k) eqn:E.
    + apply String.eqb_eq in E. exfalso. apply Hn. left. exact E.
    + rewrite IH by (intros Hc; apply Hn; right; exact Hc). reflexivity.
Qed.

(** One turn of the loop of [compute_derived_data] when the
    definitions are kept. *)
Lemma derived_loop_keep_cons (k : string) (entry : DerivedDatasetEntry)
  (items : dict DerivedDatasetEntry) (s s' : ParametricDR) :
  derived_loop true ((k, entry) :: items) true s = Ret tt s' ->
  exists s1 ds ds1,
    _dataset s = Some ds /\ _dataset s1 = Some ds1
    /\ _derived_entries ds1
       = dict_set (_derived_entries ds) k (default_out_dim entry)
    /\ derived_loop true items true s1 = Ret tt s'.
Proof.
  intros H. simpl in H.
  apply mbind_Ret_inv in H. destruct H as [[] [s1 [Hbody H]]].
  apply mbind_Ret_inv in H. destruct H as [[] [s2 [Hclear H]]].
  exists s2.
  destruct (requires_relations entry && negb (_global_relations_computed s));
    [discriminate|].
  run_in Hbody; run_in Hclear.
  all: inject_all; simpl in *; inject_all; subst.
  all: do 2 eexists.
  all: split; [reflexivity|]; split; [reflexivity|]; split; [reflexivity|].
  all: exact H.
Qed.

Lemma derived_loop_keep_all (items : dict DerivedDatasetEntry) :
  forall (pre : dict DerivedDatasetEntry) (s s' : ParametricDR) (ds : Dataset),
    derived_loop true items true s = Ret tt s' ->
    _dataset s = Some ds ->
    _derived_entries ds
    = map (fun kv => (fst kv, default_out_dim (snd kv))) pre ++ items ->
    NoDup (dict_keys (pre ++ items)) ->
    exists ds',
      _dataset s' = Some ds'
      /\ _derived_entries ds'
         = map (fun kv => (fst kv, default_out_dim (snd kv))) (pre ++ items).
Proof.
  induction items as [|[k entry] items IH]; intros pre s s' ds H Hds Hde Hnd.
  - simpl in H. unfold ret in H. injection H as <-. exists ds.
    split; [exact Hds|]. rewrite Hde, !app_nil_r. reflexivity.
  - apply derived_loop_keep_cons in H.
    destruct H as [s1 [ds0 [ds1 [Hs [Hs1 [Hd1 H]]]]]].
    rewrite Hds in Hs. injection Hs as <-.
    assert (Hfresh : ~ In k (dict_keys
                               (map (fun kv => (fst kv, default_out_dim (snd kv)))
                                  pre))).
    { unfold dict_keys in *. rewrite map_map. simpl.
      rewrite map_app in Hnd. apply NoDup_remove_2 in Hnd.
      intros Hc. apply Hnd. apply in_or_app. left. exact Hc. }
    rewrite Hde, (dict_set_middle _ _ _ _ _ Hfresh) in Hd1.
    destruct (IH (pre ++ [(k, entry)]) _ _ _ H Hs1) as [ds' [Hs' Hd']].
    + rewrite Hd1, map_app, <- app_assoc. reflexivity.
    + rewrite <- app_assoc. exact Hnd.
    + exists ds'. split; [exact Hs'|]. rewrite Hd', <- app_assoc. reflexivity.
Qed.

(** [compute_derived_data(keep_definitions=True)]: a call that returns
    has called the function of every derived entry, in order, and it
    keeps every definition, but not as it was: [out_dim] is written
    into the keyword arguments of every definition that had none
    (with the value 2), because the loop changes the dict of the entry
    itself. *)
Theorem compute_derived_data_keeps_definitions_with_out_dim :
  forall (self self' : ParametricDR) (ds : Dataset),
    compute_derived_data true self = Ret tt self' ->
    _dataset self = Some ds ->
    NoDup (dict_keys (_derived_entries ds)) ->
    exists ds',
      _dataset self' = Some ds'
      /\ _derived_entries ds'
         = map (fun kv => (fst kv, default_out_dim (snd kv)))
             (_derived_entries ds)
      /\ Forall (fun kv => dict_in "out_dim" (entry_kwargs (snd kv)) = true)
           (_derived_entries ds')
      /\ derived_computed (events self')
         = derived_computed (events self) ++ dict_keys (_derived_entries ds).
Proof.
  intros self self' ds H Hds Hnd. unfold compute_derived_data in H.
  destruct (negb (_dataset_registered self)); [discriminate|].
  apply mbind_Ret_inv in H. destruct H as [ds0 [s1 [Hd H]]].
  unfold lift, dataset in Hd. rewrite Hds in Hd. injection Hd as <- <-.
  destruct (derived_loop_keep_all _ [] _ _ _ H Hds eq_refl Hnd)
    as [ds' [Hs' Hd']].
  destruct (derived_loop_all _ _ _ _ _ _ H Hds) as [ds'' [Hs'' [Hev _]]].
  exists ds'. split; [exact Hs'|]. split; [exact Hd'|]. split; [|exact Hev].
  rewrite Hd'. apply Forall_map, Forall_forall. intros [k e] _. simpl.
  unfold default_out_dim.
  destruct (dict_in "out_dim" (entry_kwargs e)) eqn:E; simpl; [exact E|].
  rewrite dict_in_set, String.eqb_refl. reflexivity.
Qed.

(** ** Training *)

Lemma set_nth_length {A : Type} (i : nat) (x : A) (l : list A) :
  List.length (set_nth i x l) = List.length l.
Proof.
  revert i. induction l as [|y l IH]; intros [|i]; simpl; auto.
Qed.

(** What the loop of [train] over the phases leaves alone. *)
Lemma train_loop_outside (loaders : nat -> Loader) (tps : list TrainingPhase) :
  forall (i : nat) (s s' : ParametricDR),
    train_loop loaders i tps s = Ret tt s' ->
    _dataset s' = _dataset s
    /\ _dataset_registered s' = _dataset_registered s
    /\ global_relation_data s' = global_relation_data s
    /\ _global_relations_computed s' = _global_relations_computed s
    /\ List.length (training_phases s') = List.length (training_phases s).
Proof.
  induction tps as [|tp tps IH]; intros i s s' H; simpl in H.
  - unfold ret in H. injection H as <-. repeat split; reflexivity.
  - apply mbind_Ret_inv in H. destruct H as [tp' [s1 [Hrun H]]].
    apply run_training_phase_Ret in Hrun. destruct Hrun as [Ho _].
    apply mbind_Ret_inv in H. destruct H as [[] [s2 [Hmod H]]].
    unfold modify in Hmod. injection Hmod as <-.
    apply IH in H. simpl in H.
    destruct H as [H1 [H2 [H3 [H4 H5]]]].
    unfold outside_training in Ho.
    injection Ho as Hv Hd Hr Hg Hgd Hc Hb Hl Htd Htp Hu.
    rewrite set_nth_length in H5.
    repeat split; congruence.
Qed.

(** A phase without an epoch trains nothing. *)
Lemma run_training_phase_no_epoch (tp tp' : TrainingPhase)
  (torch_loader : Loader) (s s' : ParametricDR) :
  (epochs tp <= 0)%Z ->
  run_training_phase tp torch_loader s = Ret tp' s' ->
  trained s' = trained s /\ model s' = model s /\ tp' = tp.
Proof.
  intros He H. unfold run_training_phase in H.
  replace (Z.to_nat (epochs tp)) with 0 in H by lia. simpl in H.
  unfold mbind, lift, log_if_verbose, emit, modify, ret in H.
  destruct (_prepare_loader s tp torch_loader); [|discriminate].
  destruct (_prepare_optimizer s tp); [|discriminate].
  destruct (verbose s); injection H as <- <-; repeat split; reflexivity.
Qed.

Lemma train_loop_no_epoch (loaders : nat -> Loader) (tps : list TrainingPhase) :
  Forall (fun tp => (epochs tp <= 0)%Z) tps ->
  forall (i : nat) (s s' : ParametricDR),
    train_loop loaders i tps s = Ret tt s' ->
    trained s' = trained s /\ model s' = model s.
Proof.
  induction 1 as [|tp tps He _ IH]; intros i s s' H; simpl in H.
  - unfold ret in H. injection H as <-. split; reflexivity.
  - apply mbind_Ret_inv in H. destruct H as [tp' [s1 [Hrun H]]].
    apply (run_training_phase_no_epoch _ _ _ _ _ He) in Hrun.
    destruct Hrun as [Ht [Hm _]].
    apply mbind_Ret_inv in H. destruct H as [[] [s2 [Hmod H]]].
    unfold modify in Hmod. injection Hmod as <-.
    apply IH in H. simpl in H. destruct H as [Ht' Hm'].
    split; congruence.
Qed.

(** The steps of [train], one after the other. *)
Lemma train_steps (loaders : nat -> Loader) (s s' : ParametricDR) :
  train loaders s = Ret tt s' ->
  exists s1 s2 s4,
    compute_derived_data false s = Ret tt s1
    /\ compute_global_relations false s1 = Ret tt s2
    /\ train_loop loaders 0 (training_phases s2)
         (with_model (model_train (model s2)) s2) = Ret tt s4
    /\ s' = with_model (model_eval (model s4)) s4.
Proof.
  unfold train, _prepare_training. intros H.
  apply mbind_Ret_inv in H. destruct H as [[] [s0 [H0 H]]].
  unfold ret in H0. injection H0 as <-.
  apply mbind_Ret_inv in H. destruct H as [[] [s1 [H1 H]]].
  apply mbind_Ret_inv in H. destruct H as [[] [s2 [H2 H]]].
  apply mbind_Ret_inv in H. destruct H as [[] [s3 [H3 H]]].
  unfold modify in H3. injection H3 as <-.
  apply mbind_Ret_inv in H. destruct H as [[] [s4 [H4 H]]].
  unfold modify in H. injection H as <-.
  exists s1, s2, s4. repeat split; assumption.
Qed.

(** [train()] on a routine without a phase, or whose phases all have
    no epoch, returns without training anything: the flag [trained]
    is as it was, so on a routine that was not trained [apply] still
    raises [NotTrainedError]. *)
Theorem train_without_an_epoch_does_not_train :
  forall (loaders : nat -> Loader) (self self' : ParametricDR),
    train loaders self = Ret tt self' ->
    Forall (fun tp => (epochs tp <= 0)%Z) (training_phases self) ->
    trained self' = trained self
    /\ (trained self = false ->
        forall X, apply self' X None = Raise NotTrainedError).
Proof.
  intros loaders self self' H Hall.
  destruct (train_steps _ _ _ H) as [s1 [s2 [s4 [H1 [H2 [H4 ->]]]]]].
  apply compute_derived_data_frame in H1. destruct H1 as [Hp1 Ht1].
  apply compute_global_relations_frame in H2. destruct H2 as [Hp2 Ht2].
  rewrite Hp2, Hp1 in H4.
  apply (train_loop_no_epoch _ _ Hall) in H4. simpl in H4.
  destruct H4 as [Ht4 _].
  assert (Ht : trained (with_model (model_eval (model s4)) s4) = trained self)
    by (simpl; congruence).
  split; [exact Ht|].
  intros Hf X. unfold apply, _call_model_method_by_name, getattr_model.
  simpl. rewrite Ht4, Ht2, Ht1, Hf. reflexivity.
Qed.

(** The loop of [compute_derived_data] changes the dataset only. *)
Lemma derived_loop_cons_outside (keep : bool) (k : string)
  (entry : DerivedDatasetEntry) (items : dict DerivedDatasetEntry)
  (same : bool) (s s' : ParametricDR) :
  derived_loop keep ((k, entry) :: items) same s = Ret tt s' ->
  exists s1,
    outside_dataset s1 = outside_dataset s
    /\ derived_loop keep items (same && keep) s1 = Ret tt s'.
Proof.
  intros H. simpl in H.
  apply mbind_Ret_inv in H. destruct H as [[] [s1 [Hbody H]]].
  apply mbind_Ret_inv in H. destruct H as [[] [s2 [Hclear H]]].
  exists s2.
  destruct (requires_relations entry && negb (_global_relations_computed s));
    [discriminate|].
  run_in Hbody; run_in Hclear.
  all: inject_all; simpl in *; inject_all; subst.
  all: split; [reflexivity|exact H].
Qed.

Lemma derived_loop_outside (keep : bool) (items : dict DerivedDatasetEntry) :
  forall (same : bool) (s s' : ParametricDR),
    derived_loop keep items same s = Ret tt s' ->
    outside_dataset s' = outside_dataset s.
Proof.
  induction items as [|[k entry] items IH]; intros same s s' H.
  - simpl in H. unfold ret in H. injection H as <-. reflexivity.
  - apply derived_loop_cons_outside in H. destruct H as [s1 [Ho H]].
    apply IH in H. congruence.
Qed.

(** What a call of [compute_derived_data] that returns has done. *)
Lemma compute_derived_data_outcome (keep : bool) (s s' : ParametricDR) :
  compute_derived_data keep s = Ret tt s' ->
  outside_dataset s' = outside_dataset s
  /\ _dataset_registered s = true
  /\ exists ds ds',
       _dataset s = Some ds /\ _dataset s' = Some ds'
       /\ (forall k, In k (dict_keys (_derived_entries ds)) ->
           dict_in k (data ds') = true)
       /\ (forall k, dict_in k (data ds) = true -> dict_in k (data ds') = true)
       /\ (keep = false -> _derived_entries ds <> [] ->
           _derived_entries ds' = []).
Proof.
  unfold compute_derived_data. intros H.
  destruct (_dataset_registered s) eqn:Er; simpl in H; [|discriminate].
  apply mbind_Ret_inv in H. destruct H as [ds [s1 [Hds H]]].
  unfold lift, dataset in Hds.
  destruct (_dataset s) as [ds0|] eqn:E; [|discriminate].
  injection Hds as <- <-.
  split; [eapply derived_loop_outside; exact H|]. split; [reflexivity|].
  destruct (derived_loop_all _ _ _ _ _ _ H E)
    as [ds' [Hs' [_ [Hin [Hmono Hcl]]]]].
  exists ds0, ds'. repeat split; assumption.
Qed.

(** What a call of [compute_global_relations] that returns has done. *)
Lemma compute_global_relations_outcome (force : bool) (s s' : ParametricDR) :
  compute_global_relations force s = Ret tt s' ->
  _dataset_registered s' = true
  /\ _global_relations_computed s' = true
  /\ _dataset s' = _dataset s
  /\ (force || negb (_global_relations_computed s) = true ->
      forall k, In k (dict_keys (global_relations s)) ->
                dict_in k (global_relation_data s') = true).
Proof.
  intros H.
  destruct (force || negb (_global_relations_computed s)) eqn:Ef.
  - destruct (compute_global_relations_runs force s s' Ef H)
      as [Hr [Hc [_ [Hd [_ Hval]]]]].
    repeat split; auto. intros _ k Hk. destruct (Hval k Hk) as [r [_ Hg]].
    unfold dict_in. rewrite Hg. reflexivity.
  - unfold compute_global_relations in H.
    destruct (_dataset_registered s) eqn:Er; simpl in H; [|discriminate].
    unfold mbind, lift, modify in H.
    destruct (dataset s); [|discriminate].
    rewrite Ef in H. injection H as <-. simpl.
    apply orb_false_iff in Ef. destruct Ef as [_ Ec].
    apply negb_false_iff in Ec.
    repeat split; auto. discriminate.
Qed.

(** What [train()] has prepared when it returns: the dataset is
    registered, every derived entry is a column and no definition is
    left, the relations count as computed (and when they were not
    computed before, there is relation data for every global
    relation), and the routine has as many phases as before. *)
Theorem train_prepares_the_data :
  forall (loaders : nat -> Loader) (self self' : ParametricDR),
    train loaders self = Ret tt self' ->
    _global_relations_computed self' = true
    /\ _dataset_registered self' = true
    /\ List.length (training_phases self')
       = List.length (training_phases self)
    /\ (_global_relations_computed self = false ->
        forall k, In k (dict_keys (global_relations self)) ->
                  dict_in k (global_relation_data self') = true)
    /\ exists ds ds',
         dataset self = Ok ds /\ dataset self' = Ok ds'
         /\ (forall k, In k (dict_keys (_derived_entries ds)) ->
             dict_in k (data ds') = true)
         /\ (_derived_entries ds <> [] -> _derived_entries ds' = []).
Proof.
  intros loaders self self' H.
  destruct (train_steps _ _ _ H) as [s1 [s2 [s4 [H1 [H2 [H4 ->]]]]]].
  pose proof (compute_global_relations_frame _ _ _ H2) as [Hp2 _].
  apply compute_derived_data_outcome in H1.
  destruct H1 as [Ho1 [_ [ds [ds' [Hds [Hds' [Hin [_ Hcl]]]]]]]].
  unfold outside_dataset in Ho1.
  injection Ho1 as Hv Hr Hm Hg Hgd Hc Hb Hl Htd Htp Hu Ht.
  apply compute_global_relations_outcome in H2.
  destruct H2 as [Hr2 [Hc2 [Hd2 Hval]]].
  apply train_loop_outside in H4. simpl in H4.
  destruct H4 as [Hd4 [Hr4 [Hg4 [Hc4 Hl4]]]].
  simpl. split; [congruence|]. split; [congruence|].
  split; [congruence|]. split.
  - intros Hnc k Hk. rewrite Hg4. apply Hval.
    + rewrite Hc, Hnc. reflexivity.
    + rewrite Hg. exact Hk.
  - exists ds, ds'. unfold dataset. simpl. rewrite Hds, Hd4, Hd2, Hds'.
    repeat split; auto.
Qed.

(** ** A new routine *)

Lemma override_phase_no_arguments (tp : TrainingPhase) :
  override_phase no_arguments tp = tp.
Proof. destruct tp; reflexivity. Qed.

Lemma add_phases_outcome (tps : list TrainingPhase) (uuid4 : nat -> string) :
  forall (i : nat) (s s' : ParametricDR),
    add_phases tps uuid4 i s = Ret tt s' ->
    exists tps',
      s' = with_training_phases (training_phases s ++ tps') s
      /\ Forall2 (fun tp tp' => exists l, tp' = set_loss tp l) tps tps'.
Proof.
  induction tps as [|tp tps IH]; intros i s s' H; simpl in H.
  - unfold ret in H. injection H as <-. exists [].
    rewrite app_nil_r. split; [destruct s; reflexivity | constructor].
  - apply mbind_Ret_inv in H. destruct H as [[] [s1 [Hadd H]]].
    pose proof (add_training_phase_outcome (Some tp) no_arguments (uuid4 i) s)
      as Hout.
    fold no_arguments in Hadd. rewrite Hadd in Hout.
    destruct Hout as [l [_ ->]].
    unfold phase_to_add in H. rewrite override_phase_no_arguments in H.
    apply IH in H. destruct H as [tps' [-> Hall]].
    exists (set_loss tp l :: tps'). simpl. rewrite <- app_assoc. simpl.
    split; [reflexivity|]. constructor; [eauto | exact Hall].
Qed.

(** A routine that [ParametricDR(...)] returns is not trained, its
    relations are not computed and it has no relation data; its dataset
    is registered exactly when one was passed; it holds the losses
    passed (a single loss under the key ["loss"]), and its phases are
    the phases passed, in order, each with its loss bound. *)
Theorem ParametricDR_init_fresh_routine :
  forall model0 in_dim out_dim hidden_dims dataset0 global_relations0
         batch_relations0 losses0 training_defaults0 training_phases0
         use_cuda0 verbose0 uuid4 (self : ParametricDR),
    ParametricDR_init model0 in_dim out_dim hidden_dims dataset0
      global_relations0 batch_relations0 losses0 training_defaults0
      training_phases0 use_cuda0 verbose0 uuid4 = Ok self ->
    trained self = false
    /\ _global_relations_computed self = false
    /\ global_relation_data self = []
    /\ _dataset_registered self
       = match dataset0 with Some _ => true | None => false end
    /\ one_or_dict "loss" losses0 = Some (losses self)
    /\ training_defaults self = training_defaults0
    /\ Forall2 (fun tp tp' => exists l, tp' = set_loss tp l
                                        /\ TrainingPhase_loss tp' = Ok l)
         (match training_phases0 with Some l => l | None => [] end)
         (training_phases self).
Proof.
  intros model0 in_dim out_dim hidden_dims dataset0 global_relations0
         batch_relations0 losses0 training_defaults0 training_phases0
         use_cuda0 verbose0 uuid4 self H.
  unfold ParametricDR_init in H.
  bind_inv H. bind_inv H. bind_inv H.
  destruct (one_or_dict "loss" losses0) as [d|] eqn:El; [|discriminate].
  injection Ha1 as <-.
  match type of H with
  | match ?x with _ => _ end = _ => destruct x as [[] s1|e s1] eqn:E
  end; [|discriminate].
  apply add_phases_outcome in E. destruct E as [tps' [-> Hall]].
  assert (Hphases : Forall2
            (fun tp tp' => exists l, tp' = set_loss tp l
                                     /\ TrainingPhase_loss tp' = Ok l)
            (match training_phases0 with Some l => l | None => [] end) tps').
  { eapply Forall2_impl; [|exact Hall]. intros tp tp' [l ->]. eauto. }
  destruct use_cuda0.
  - bind_inv H. injection H as <-. simpl. repeat split; auto.
  - injection H as <-. simpl. repeat split; auto.
Qed.

(** ** A routine from a spec *)

Lemma dataset_from_spec_raises (spec : list (dict pyval)) :
  exists e, _dataset_from_spec spec = Raise e.
Proof.
  unfold _dataset_from_spec.
  destruct (dataset_spec_loop spec []) as [d|e] eqn:E; [|simpl; eauto].
  cbn [bind]. destruct spec as [|entry rest].
  - injection E as <-. eexists. reflexivity.
  - apply (dataset_spec_loop_name _ [] d (VOther None)) in E;
      [|left; reflexivity|discriminate].
    destruct E as [v [_ ->]]. eexists. reflexivity.
Qed.

(** [ParametricDR.from_spec] never returns a routine.  A spec with
    dataset entries fails in [_dataset_from_spec], with the exception
    of that function; for a spec without, the relations are built and
    then [_losses_from_spec] raises [AttributeError], before the
    training phases are read and the class is called. *)
Theorem from_spec_never_returns :
  forall (Transform FileOrSpec : Type)
         (new_transform : TransformClass -> dict pyval -> Res Transform)
         (new_relations :
            RelationsClass -> list Transform -> dict pyval -> Res Relations)
         (validate_spec : FileOrSpec -> Res ValidSpec)
         (file_or_spec : FileOrSpec) (uuid4 uuid4' : nat -> string),
    (exists e,
       from_spec new_transform new_relations validate_spec
         file_or_spec uuid4 uuid4' = Raise e)
    /\ (forall training_defaults0 spec rels,
          TrainingPhase_default = Ok training_defaults0 ->
          validate_spec file_or_spec = Ok spec ->
          spec_dataset spec = [] ->
          _relations_from_spec new_transform new_relations
            (spec_relations spec) = Ok rels ->
          from_spec new_transform new_relations validate_spec
            file_or_spec uuid4 uuid4' = Raise AttributeError)
    /\ (forall training_defaults0 spec,
          TrainingPhase_default = Ok training_defaults0 ->
          validate_spec file_or_spec = Ok spec ->
          spec_dataset spec <> [] ->
          exists e,
            _dataset_from_spec (spec_dataset spec) = Raise e
            /\ from_spec new_transform new_relations validate_spec
                 file_or_spec uuid4 uuid4' = Raise e).
Proof.
  intros Transform FileOrSpec new_transform new_relations validate_spec
         file_or_spec uuid4 uuid4'.
  split; [|split].
  - unfold from_spec.
    destruct TrainingPhase_default as [td|e]; [|simpl; eauto]. cbn [bind].
    destruct (validate_spec file_or_spec) as [spec|e]; [|simpl; eauto].
    cbn [bind].
    destruct (spec_dataset spec) as [|entry rest].
    + cbn [bind].
      destruct (_relations_from_spec _ _ _) as [rels|e]; [|simpl; eauto].
      cbn [bind]. rewrite losses_from_spec_AttributeError.
      simpl. eauto.
    + destruct (dataset_from_spec_raises (entry :: rest)) as [e ->].
      simpl. eauto.
  - intros td spec rels Htd Hv Hd Hr.
    unfold from_spec. rewrite Htd. cbn [bind]. rewrite Hv. cbn [bind].
    rewrite Hd. cbn [bind]. rewrite Hr. cbn [bind].
    rewrite losses_from_spec_AttributeError. reflexivity.
  - intros td spec Htd Hv Hd.
    destruct (dataset_from_spec_raises (spec_dataset spec)) as [e He].
    exists e. split; [exact He|].
    unfold from_spec. rewrite Htd. cbn [bind]. rewrite Hv. cbn [bind].
    destruct (spec_dataset spec) as [|entry rest]; [contradiction|].
    rewrite He. reflexivity.
Qed.

(** ** The flag [trained] *)

Lemma keeps_ret {A : Type} (a : A) : keeps_trained (ret a).
Proof. intros s H. exact H. Qed.

Lemma keeps_raise {A : Type} (e : exn) : keeps_trained (raise (A := A) e).
Proof. intros s H. exact H. Qed.

Lemma keeps_lift {A : Type} (f : ParametricDR -> Res A) :
  keeps_trained (lift f).
Proof. intros s H. unfold lift. destruct (f s); exact H. Qed.

Lemma keeps_modify (f : ParametricDR -> ParametricDR) :
  (forall s, trained s = true -> trained (f s) = true) ->
  keeps_trained (modify f).
Proof. intros Hf s H. apply Hf, H. Qed.

Lemma keeps_mbind {A B : Type} (c : M A) (k : A -> M B) :
  keeps_trained c -> (forall a, keeps_trained (k a)) ->
  keeps_trained (mbind c k).
Proof.
  intros Hc Hk s H. unfold mbind. specialize (Hc s H).
  destruct (c s) as [a s1|e s1]; [apply Hk, Hc | exact Hc].
Qed.

Lemma keeps_emit (e : event) : keeps_trained (emit e).
Proof. apply keeps_modify. intros s H. exact H. Qed.

Lemma keeps_log (msg : string) : keeps_trained (log_if_verbose msg).
Proof.
  intros s H. unfold log_if_verbose. destruct (verbose s); [|exact H].
  apply keeps_emit, H.
Qed.

Lemma keeps_for_each {A : Type} (body : A -> M unit) (l : list A) :
  (forall a, keeps_trained (body a)) -> keeps_trained (for_each body l).
Proof.
  intros Hb. induction l as [|a l IH]; simpl; [apply keeps_ret|].
  apply keeps_mbind; [apply Hb | intros _; exact IH].
Qed.

Lemma keeps_set_dataset_data (d : dict Tensor) :
  keeps_trained (set_dataset_data d).
Proof.
  apply keeps_mbind; [apply keeps_lift|]. intros ds.
  apply keeps_modify. intros s H. exact H.
Qed.

Lemma keeps_set_derived_entries (d : dict DerivedDatasetEntry) :
  keeps_trained (set_derived_entries d).
Proof.
  apply keeps_mbind; [apply keeps_lift|]. intros ds.
  apply keeps_modify. intros s H. exact H.
Qed.

Lemma keeps_add_one (kv : string * DataValue) : keeps_trained (add_one kv).
Proof.
  unfold add_one. destruct (snd kv) as [t|e|]; [| |apply keeps_raise].
  - apply keeps_mbind.
    + intros s H. destruct (verbose s); [|exact H].
      revert s H. apply keeps_mbind; [apply keeps_lift|]. intros ds.
      destruct (dict_in (fst kv) (data ds)); apply keeps_emit.
    + intros _. apply keeps_mbind; [apply keeps_lift|]. intros ds.
      apply keeps_set_dataset_data.
  - apply keeps_mbind.
    + intros s H. destruct (verbose s); [|exact H].
      revert s H. apply keeps_mbind; [apply keeps_lift|]. intros ds.
      destruct (dict_in (fst kv) (_derived_entries ds)); apply keeps_emit.
    + intros _. apply keeps_mbind; [apply keeps_lift|]. intros ds.
      apply keeps_set_derived_entries.
Qed.

Lemma keeps_add_to_dataset (data0 : dict DataValue) :
  keeps_trained (add_to_dataset data0).
Proof.
  intros s H. unfold add_to_dataset.
  destruct (negb (_dataset_registered s)); [exact H|].
  apply keeps_for_each; [apply keeps_add_one | exact H].
Qed.

Lemma keeps_derived_loop (keep : bool) (items : dict DerivedDatasetEntry) :
  forall same, keeps_trained (derived_loop keep items same).
Proof.
  induction items as [|[k entry] items IH]; intros same; simpl;
    [apply keeps_ret|].
  apply keeps_mbind; [|intros _; apply keeps_mbind; [|intros _; apply IH]].
  - intros s H.
    destruct (requires_relations entry && negb (_global_relations_computed s));
      [exact H|].
    revert s H.
    apply keeps_mbind; [apply keeps_log|]. intros _.
    apply keeps_mbind.
    + destruct same; [|apply keeps_ret].
      apply keeps_mbind; [apply keeps_lift|]. intros ds.
      apply keeps_set_derived_entries.
    + intros _. apply keeps_mbind; [apply keeps_lift|]. intros args.
      apply keeps_mbind; [apply keeps_emit|]. intros _.
      apply keeps_mbind; [apply keeps_lift|]. intros v.
      apply keeps_add_to_dataset.
  - destruct (negb keep); [apply keeps_set_derived_entries | apply keeps_ret].
Qed.

Lemma keeps_compute_derived_data (keep : bool) :
  keeps_trained (compute_derived_data keep).
Proof.
  intros s H. unfold compute_derived_data.
  destruct (negb (_dataset_registered s)); [exact H|].
  revert s H. apply keeps_mbind; [apply keeps_lift|]. intros ds.
  apply keeps_derived_loop.
Qed.

Lemma keeps_compute_one (k : string) : keeps_trained (compute_one k).
Proof.
  unfold compute_one.
  apply keeps_mbind; [apply keeps_log|]. intros _.
  apply keeps_mbind; [apply keeps_lift|]. intros rel.
  apply keeps_mbind; [apply keeps_lift|]. intros x.
  apply keeps_mbind; [apply keeps_emit|]. intros _.
  apply keeps_mbind; [apply keeps_lift|]. intros r.
  apply keeps_modify. intros s H. exact H.
Qed.

Lemma keeps_compute_global_relations (force : bool) :
  keeps_trained (compute_global_relations force).
Proof.
  intros s H. unfold compute_global_relations.
  destruct (negb (_dataset_registered s)); [exact H|].
  revert s H. apply keeps_mbind; [apply keeps_lift|]. intros _.
  apply keeps_mbind.
  - intros s H. destruct (force || negb (_global_relations_computed s));
      [|exact H].
    apply keeps_for_each; [apply keeps_compute_one | exact H].
  - intros _. apply keeps_modify. intros s H. exact H.
Qed.

Lemma keeps_batch_loop (dev : Device) (batches : list (dict Tensor)) :
  forall st, keeps_trained (batch_loop dev batches st).
Proof.
  induction batches as [|batch rest IH]; intros st; simpl; [apply keeps_ret|].
  apply keeps_mbind; [apply keeps_emit|]. intros _.
  apply keeps_mbind; [apply keeps_lift|]. intros l.
  apply keeps_mbind; [apply keeps_emit|]. intros _.
  apply keeps_mbind; [apply keeps_lift|]. intros r.
  apply keeps_mbind; [apply keeps_emit|]. intros _.
  apply keeps_mbind; [apply keeps_lift|]. intros mo.
  apply keeps_mbind; [apply keeps_modify; intros s H; exact H|]. intros _.
  apply IH.
Qed.

Lemma keeps_epoch_loop (dev : Device) (dataloader : Loader)
  (range : list nat) :
  forall st, keeps_trained (epoch_loop dev dataloader range st).
Proof.
  induction range as [|epoch rest IH]; intros st; simpl; [apply keeps_ret|].
  apply keeps_mbind; [apply keeps_batch_loop|]. intros st1.
  apply keeps_mbind.
  { destruct (snd (loader_epoch dataloader epoch));
      [apply keeps_raise | apply keeps_ret]. }
  intros _.
  apply keeps_mbind; [apply keeps_lift|]. intros l.
  apply keeps_mbind; [apply keeps_emit|]. intros _.
  apply keeps_mbind; [apply keeps_lift|]. intros l'.
  apply keeps_mbind.
  { intros s H. destruct (verbose s); [|exact H].
    match goal with
    | |- context [if ?b then _ else _] => destruct b
    end; [exact H|].
    match goal with
    | |- context [if ?b then _ else _] => destruct b
    end; [|exact H].
    revert s H.
    apply keeps_mbind; [apply keeps_lift|]. intros l2.
    apply keeps_mbind; [apply keeps_lift|]. intros h.
    apply keeps_emit. }
  intros _.
  apply keeps_mbind; [apply keeps_modify; intros s H; reflexivity|]. intros _.
  apply IH.
Qed.

Lemma keeps_run_training_phase (tp : TrainingPhase) (torch_loader : Loader) :
  keeps_trained (run_training_phase tp torch_loader).
Proof.
  unfold run_training_phase.
  apply keeps_mbind; [apply keeps_lift|]. intros dl.
  apply keeps_mbind; [apply keeps_lift|]. intros opt.
  apply keeps_mbind; [apply keeps_lift|]. intros dev.
  apply keeps_mbind; [apply keeps_log|]. intros _.
  apply keeps_mbind; [apply keeps_epoch_loop|]. intros st.
  apply keeps_ret.
Qed.

Lemma keeps_train_loop (loaders : nat -> Loader) (tps : list TrainingPhase) :
  forall i, keeps_trained (train_loop loaders i tps).
Proof.
  induction tps as [|tp tps IH]; intros i; simpl; [apply keeps_ret|].
  apply keeps_mbind; [apply keeps_run_training_phase|]. intros tp'.
  apply keeps_mbind; [apply keeps_modify; intros s H; exact H|]. intros _.
  apply IH.
Qed.

Lemma keeps_train (loaders : nat -> Loader) : keeps_trained (train loaders).
Proof.
  unfold train, _prepare_training.
  apply keeps_mbind; [apply keeps_ret|]. intros _.
  apply keeps_mbind; [apply keeps_compute_derived_data|]. intros _.
  apply keeps_mbind; [apply keeps_compute_global_relations|]. intros _.
  apply keeps_mbind; [apply keeps_modify; intros s H; exact H|]. intros _.
  apply keeps_mbind.
  - intros s H. apply keeps_train_loop, H.
  - intros _. apply keeps_modify. intros s H. exact H.
Qed.

Lemma keeps_register_dataset (d : Dataset + DataArg) :
  keeps_trained (register_dataset d).
Proof.
  unfold register_dataset.
  apply keeps_mbind; [apply keeps_log|]. intros _.
  apply keeps_mbind; [apply keeps_lift|]. intros ds.
  apply keeps_mbind; [apply keeps_modify; intros s H; exact H|]. intros _.
  apply keeps_modify. intros s H. exact H.
Qed.

(** No method resets the flag [trained]: on a routine that is trained,
    [register_dataset], [add_to_dataset], [compute_derived_data],
    [compute_global_relations], [set_training_defaults],
    [add_training_phase], [run_training_phase] and [train] leave the
    flag set, whether they return or raise; so [apply] never goes back
    to raising [NotTrainedError]. *)
Theorem trained_is_never_reset :
  (forall d, keeps_trained (register_dataset d))
  /\ (forall data0, keeps_trained (add_to_dataset data0))
  /\ (forall keep, keeps_trained (compute_derived_data keep))
  /\ (forall force, keeps_trained (compute_global_relations force))
  /\ (forall tp a, keeps_trained (set_training_defaults tp a))
  /\ (forall tp a uuid4, keeps_trained (add_training_phase tp a uuid4))
  /\ (forall tp torch_loader,
        keeps_trained (run_training_phase tp torch_loader))
  /\ (forall loaders, keeps_trained (train loaders)).
Proof.
  split; [exact keeps_register_dataset|].
  split; [exact keeps_add_to_dataset|].
  split; [exact keeps_compute_derived_data|].
  split; [exact keeps_compute_global_relations|].
  split.
  { intros tp a. apply keeps_modify. intros s H. exact H. }
  split.
  { intros tp a uuid4 s H.
    pose proof (add_training_phase_outcome tp a uuid4 s) as Hout.
    destruct (add_training_phase tp a uuid4 s) as [[] s'|e s'].
    - destruct Hout as [l [_ ->]]. exact H.
    - rewrite Hout. exact H. }
  split; [exact keeps_run_training_phase | exact keeps_train].
Qed.

(** ** The data of the edges in a batch *)

Lemma index_select_rows (x : Tensor) (ids : list Z) (t : Tensor) :
  index_select x ids = Ok t ->
  exists rows, value t = Arr rows /\ List.length rows = List.length ids.
Proof.
  unfold index_select. intros H. bind_inv H. injection H as <-.
  exists a. split; [reflexivity|]. apply (mapM_length _ _ _ Ha).
Qed.

(** The pair of arrays under [from_to_data] in an item. *)
Lemma getitem_from_to (self : NegSampledEdgeDataset) (idx : Z)
  (randint : nat -> Z) (it : dict Tensor) :
  NegSampledEdgeDataset_getitem self idx randint = Ok it ->
  exists f ra rb,
    dict_get it "from_to_data" = Some f /\ value f = Arr [Arr ra; Arr rb]
    /\ List.length ra = Z.to_nat (nse_neg_sampling_rate self + 1)
    /\ List.length rb = Z.to_nat (nse_neg_sampling_rate self + 1).
Proof.
  unfold NegSampledEdgeDataset_getitem. intros H.
  bind_inv H.
  destruct (nse_neg_sampling_rate self + 1 <? 0)%Z; [discriminate|].
  destruct (coo_shape0 (p_ij self) <=? 0)%Z; [discriminate|].
  repeat bind_inv H.
  injection H as <-.
  set (n := Z.to_nat (nse_neg_sampling_rate self + 1)) in *.
  assert (Hcols : List.length a1 = n).
  { destruct (map randint (seq 0 n)) as [|c0 rest] eqn:E; [discriminate|].
    injection Ha1 as <-. simpl.
    apply (f_equal (@List.length Z)) in E.
    rewrite length_map, length_seq in E. simpl in E. symmetry. exact E. }
  destruct (index_select_rows _ _ _ Ha4) as [ra [Hra Hla]].
  destruct (index_select_rows _ _ _ Ha6) as [rb [Hrb Hlb]].
  rewrite repeat_length in Hla. rewrite Hcols in Hlb.
  exists a7, ra, rb. rewrite dict_get_set. simpl.
  split; [reflexivity|]. split; [|split; assumption].
  apply torch_stack_value in Ha7. rewrite Ha7. simpl.
  rewrite Hra, Hrb. reflexivity.
Qed.

Lemma mapM_index_pairs (ps : list (list ndarray * list ndarray)) :
  mapM (fun r => index r 0) (map (fun p => [Arr (fst p); Arr (snd p)]) ps)
  = Ok (map (fun p => Arr (fst p)) ps)
  /\ mapM (fun r => index r 1) (map (fun p => [Arr (fst p); Arr (snd p)]) ps)
     = Ok (map (fun p => Arr (snd p)) ps).
Proof.
  induction ps as [|p ps [IH0 IH1]]; [split; reflexivity|].
  cbn [map mapM]. rewrite IH0, IH1. unfold index. simpl.
  split; reflexivity.
Qed.

Lemma mapM_rows_of_Arr {A : Type} (f : A -> list ndarray) (l : list A) :
  mapM rows_of (map (fun p => Arr (f p)) l) = Ok (map f l).
Proof.
  induction l as [|a l IH]; simpl; [reflexivity|]. rewrite IH. reflexivity.
Qed.

(** [torch.concat(ts, dim=1)] of pairs of arrays. *)
Lemma torch_concat_dim1_pairs (ts : list Tensor)
  (ps : list (list ndarray * list ndarray)) (c : Tensor) :
  Forall2 (fun t p => value t = Arr [Arr (fst p); Arr (snd p)]) ts ps ->
  torch_concat_dim1 ts = Ok c ->
  value c = Arr [Arr (List.concat (map fst ps));
                 Arr (List.concat (map snd ps))].
Proof.
  intros Hall H. unfold torch_concat_dim1 in H.
  destruct ts as [|t0 ts']; [discriminate|].
  assert (Hrs : mapM (fun t => rows_of (value t)) (t0 :: ts')
                = Ok (map (fun p => [Arr (fst p); Arr (snd p)]) ps)).
  { clear H. induction Hall as [|t p ts ps' Ht _ IH]; simpl; [reflexivity|].
    rewrite Ht. simpl. rewrite IH. reflexivity. }
  rewrite Hrs in H. cbn [bind] in H.
  inversion Hall as [|t p ts ps' Ht0 Hrest]; subst.
  unfold len in H. rewrite Ht0 in H. cbn [bind List.length] in H.
  match type of H with
  | (if negb ?b then _ else _) = _ => destruct b; [|discriminate]
  end.
  cbn [negb seq mapM] in H.
  destruct (mapM_index_pairs (p :: ps')) as [E0 E1].
  rewrite E0 in H. cbn [bind] in H. rewrite mapM_rows_of_Arr in H.
  cbn [bind] in H.
  rewrite E1 in H. cbn [bind] in H. rewrite mapM_rows_of_Arr in H.
  cbn [bind] in H. injection H as <-. reflexivity.
Qed.

(** In the batch collated from [b] items of a [NegSampledEdgeDataset]
    with negative-sampling rate [r], [from_to_data] is a pair of
    arrays of [b * (r + 1)] rows each: one row of data for the source
    and one for the target of every pair in [row] and [col]. *)
Theorem collate_edge_batch_from_to_data :
  forall (self : NegSampledEdgeDataset) (draws : list (Z * (nat -> Z)))
         (raw_batch : list (dict Tensor)) (cb : dict Tensor),
    Forall2 (fun d it =>
               NegSampledEdgeDataset_getitem self (fst d) (snd d) = Ok it)
      draws raw_batch ->
    _collate_edge_batch raw_batch = Ok cb ->
    exists t from to,
      dict_get cb "from_to_data" = Some t
      /\ value t = Arr [Arr from; Arr to]
      /\ List.length from
         = List.length raw_batch * Z.to_nat (nse_neg_sampling_rate self + 1)
      /\ List.length to
         = List.length raw_batch * Z.to_nat (nse_neg_sampling_rate self + 1).
Proof.
  intros self draws raw_batch cb Hitems H.
  set (n := Z.to_nat (nse_neg_sampling_rate self + 1)).
  assert (Hps : exists ps,
             Forall2 (fun it p =>
                        exists f, dict_get it "from_to_data" = Some f
                                  /\ value f = Arr [Arr (fst p); Arr (snd p)])
               raw_batch ps
             /\ Forall (fun p => List.length (fst p) = n
                                 /\ List.length (snd p) = n) ps).
  { clear H. induction Hitems as [|d it ds its Hd _ [ps [IH1 IH2]]].
    - exists []. split; constructor.
    - destruct (getitem_from_to _ _ _ _ Hd) as [f [ra [rb [Hg [Hv [Ha Hb]]]]]].
      exists ((ra, rb) :: ps). split; constructor; eauto. }
  destruct Hps as [ps [Hps Hlen]].
  unfold _collate_edge_batch in H.
  bind_inv H. bind_inv H. bind_inv H. bind_inv H.
  destruct (collate_keys_get _ _ _ _ _ H) as [Hin _].
  destruct raw_batch as [|it0 rest]; [discriminate|].
  unfold index in Ha2. simpl in Ha2. injection Ha2 as <-.
  inversion Hps as [|it p its ps' [f0' [Hg0 _]] Hrest]; subst.
  destruct (Hin "from_to_data" (dict_get_keys _ _ _ Hg0)) as [v [Hv Hcb]].
  unfold collate_value in Hv.
  cbn [str_in existsb String.eqb Ascii.eqb Bool.eqb orb] in Hv.
  bind_inv Hv.
  assert (Hfields : forall ts,
            mapM (fun i => subscript i "from_to_data") (it0 :: rest) = Ok ts ->
            Forall2 (fun t p => value t = Arr [Arr (fst p); Arr (snd p)])
              ts (p :: ps')).
  { intros ts Hm. apply mapM_Forall2 in Hm. clear - Hm Hps.
    revert ts Hm. induction Hps as [|it q its qs [f [Hg Hf]] _ IH];
      intros ts Hm; inversion Hm as [|? t ? ts' Ht Hts]; subst; constructor.
    - unfold subscript in Ht. rewrite Hg in Ht. injection Ht as <-. exact Hf.
    - apply IH, Hts. }
  assert (Hval : value v = Arr [Arr (List.concat (map fst (p :: ps')));
                                Arr (List.concat (map snd (p :: ps')))]).
  { match goal with
    | Hm : mapM _ (it0 :: rest) = Ok ?ts |- _ =>
        match type of Hv with
        | torch_concat_dim1 ts = _ =>
            exact (torch_concat_dim1_pairs _ _ _ (Hfields _ Hm) Hv)
        end
    end. }
  exists v, (List.concat (map fst (p :: ps'))),
         (List.concat (map snd (p :: ps'))).
  split; [exact Hcb|]. split; [exact Hval|].
  rewrite (Forall2_length Hps).
  split.
  - rewrite <- (length_map fst (p :: ps')). apply length_concat_const.
    apply Forall_map. eapply Forall_impl; [|exact Hlen]. intros q [Hq _].
    exact Hq.
  - rewrite <- (length_map snd (p :: ps')). apply length_concat_const.
    apply Forall_map. eapply Forall_impl; [|exact Hlen]. intros q [_ Hq].
    exact Hq.
Qed.

(** ** Relations from a spec *)

Section RelationsFromSpec.
Variable Transform : Type.
Variable new_transform : TransformClass -> dict pyval -> Res Transform.
Variable new_relations :
  RelationsClass -> list Transform -> dict pyval -> Res Relations.

Lemma relations_spec_loop_keys (spec : list (dict pyval)) :
  forall (g0 b0 g b : dict Relations),
    relations_spec_loop new_transform new_relations spec g0 b0 = Ok (g, b) ->
    (forall nm, dict_in nm g0 = true -> dict_in nm g = true)
    /\ (forall nm, dict_in nm b0 = true -> dict_in nm b = true)
    /\ Forall (fun entry =>
                 exists nm level,
                   dict_get entry "name" = Some (PStr nm)
                   /\ dict_get entry "level" = Some level
                   /\ (if py_eq_str level "global"
                       then dict_in nm g = true
                       else dict_in nm b = true)) spec
    /\ (forall nm, dict_in nm g = true ->
        dict_in nm g0 = true
        \/ Exists (fun entry =>
                     exists level,
                       dict_get entry "name" = Some (PStr nm)
                       /\ dict_get entry "level" = Some level
                       /\ py_eq_str level "global" = true) spec)
    /\ (forall nm, dict_in nm b = true ->
        dict_in nm b0 = true
        \/ Exists (fun entry =>
                     exists level,
                       dict_get entry "name" = Some (PStr nm)
                       /\ dict_get entry "level" = Some level
                       /\ py_eq_str level "global" = false) spec).
Proof.
  induction spec as [|entry spec IH]; intros g0 b0 g b H; simpl in H.
  - injection H as <- <-. repeat split; auto.
  - repeat bind_inv H.
    destruct (dict_in "transform" a5); [discriminate|].
    repeat bind_inv H.
    match goal with
    | Hl : subscript entry "level" = Ok ?lv,
      Hn : subscript entry "name" = Ok ?nv,
      Hs : as_str ?nv = Ok ?nm |- _ =>
        rename Hl into Hlevel; rename Hn into Hname; rename Hs into Hstr;
        set (level := lv) in *; set (name := nm) in *;
        assert (Hnv : nv = PStr name)
          by (destruct nv; try discriminate Hstr; injection Hstr as ->;
              reflexivity)
    end.
    unfold subscript in Hlevel, Hname.
    destruct (dict_get entry "level") as [lv'|] eqn:El; [|discriminate].
    destruct (dict_get entry "name") as [nv'|] eqn:En; [|discriminate].
    injection Hlevel as Hlevel. injection Hname as Hname. subst lv'.
    rewrite Hnv in Hname. subst nv'.
    destruct (py_eq_str level "global") eqn:Eg.
    + apply IH in H. destruct H as [Hg [Hb [Hall [Hgi Hbi]]]].
      split; [|split; [exact Hb|split; [|split]]].
      * intros nm Hnm. apply Hg. rewrite dict_in_set, Hnm. apply orb_true_r.
      * constructor; [|exact Hall]. exists name, level.
        split; [assumption|]. split; [assumption|]. rewrite Eg.
        apply Hg. rewrite dict_in_set, String.eqb_refl. reflexivity.
      * intros nm Hnm. destruct (Hgi nm Hnm) as [H0 | Hex].
        -- rewrite dict_in_set in H0.
           destruct (String.eqb name nm) eqn:E; [|left; exact H0].
           apply String.eqb_eq in E. subst nm. right. left.
           exists level. repeat split; auto.
        -- right. right. exact Hex.
      * intros nm Hnm. destruct (Hbi nm Hnm) as [H0 | Hex];
          [left; exact H0 | right; right; exact Hex].
    + apply IH in H. destruct H as [Hg [Hb [Hall [Hgi Hbi]]]].
      split; [exact Hg|split; [|split; [|split]]].
      * intros nm Hnm. apply Hb. rewrite dict_in_set, Hnm. apply orb_true_r.
      * constructor; [|exact Hall]. exists name, level.
        split; [assumption|]. split; [assumption|]. rewrite Eg.
        apply Hb. rewrite dict_in_set, String.eqb_refl. reflexivity.
      * intros nm Hnm. destruct (Hgi nm Hnm) as [H0 | Hex];
          [left; exact H0 | right; right; exact Hex].
      * intros nm Hnm. destruct (Hbi nm Hnm) as [H0 | Hex].
        -- rewrite dict_in_set in H0.
           destruct (String.eqb name nm) eqn:E; [|left; exact H0].
           apply String.eqb_eq in E. subst nm. right. left.
           exists level. repeat split; auto.
        -- right. right. exact Hex.
Qed.

End RelationsFromSpec.

(** [_relations_from_spec] sorts the entries by their level: the
    global relations it returns are the names of the entries whose
    level is ['global'], and the batch relations are the names of all
    the other entries, whatever their level says.  (The classes of
    paradime.transforms and paradime.relations are parameters.) *)
Theorem relations_from_spec_sorts_by_level :
  forall (Transform : Type)
         (new_transform : TransformClass -> dict pyval -> Res Transform)
         (new_relations :
            RelationsClass -> list Transform -> dict pyval -> Res Relations)
         (spec : list (dict pyval)) (g b : dict Relations),
    _relations_from_spec new_transform new_relations spec = Ok (g, b) ->
    (forall nm, dict_in nm g = true <->
       Exists (fun entry =>
                 exists level,
                   dict_get entry "name" = Some (PStr nm)
                   /\ dict_get entry "level" = Some level
                   /\ py_eq_str level "global" = true) spec)
    /\ (forall nm, dict_in nm b = true <->
          Exists (fun entry =>
                    exists level,
                      dict_get entry "name" = Some (PStr nm)
                      /\ dict_get entry "level" = Some level
                      /\ py_eq_str level "global" = false) spec).
Proof.
  intros Transform new_transform new_relations spec g b H.
  unfold _relations_from_spec in H.
  destruct (relations_spec_loop_keys _ _ _ _ _ _ _ _ H)
    as [_ [_ [Hall [Hgi Hbi]]]].
  rewrite Forall_forall in Hall.
  split; intros nm; split.
  - intros Hnm. destruct (Hgi nm Hnm) as [H0|Hex]; [discriminate | exact Hex].
  - intros Hex. apply Exists_exists in Hex.
    destruct Hex as [entry [Hin [level [Hn [Hl Hg]]]]].
    destruct (Hall entry Hin) as [nm' [level' [Hn' [Hl' Hres]]]].
    rewrite Hn in Hn'. injection Hn' as <-.
    rewrite Hl in Hl'. injection Hl' as <-.
    rewrite Hg in Hres. exact Hres.
  - intros Hnm. destruct (Hbi nm Hnm) as [H0|Hex]; [discriminate | exact Hex].
  - intros Hex. apply Exists_exists in Hex.
    destruct Hex as [entry [Hin [level [Hn [Hl Hg]]]]].
    destruct (Hall entry Hin) as [nm' [level' [Hn' [Hl' Hres]]]].
    rewrite Hn in Hn'. injection Hn' as <-.
    rewrite Hl in Hl'. injection Hl' as <-.
    rewrite Hg in Hres. exact Hres.
Qed.

(** ** The flag [trained] and [apply] *)

Lemma leaves_ret {A : Type} (a : A) : leaves_trained (ret a).
Proof. intros s. reflexivity. Qed.

Lemma leaves_raise {A : Type} (e : exn) : leaves_trained (raise (A := A) e).
Proof. intros s. reflexivity. Qed.

Lemma leaves_lift {A : Type} (f : ParametricDR -> Res A) :
  leaves_trained (lift f).
Proof. intros s. unfold lift. destruct (f s); reflexivity. Qed.

Lemma leaves_modify (f : ParametricDR -> ParametricDR) :
  (forall s, trained (f s) = trained s) -> leaves_trained (modify f).
Proof. intros Hf s. apply Hf. Qed.

Lemma leaves_emit (e : event) : leaves_trained (emit e).
Proof. apply leaves_modify. intros s. reflexivity. Qed.

Lemma leaves_mbind {A B : Type} (c : M A) (k : A -> M B) :
  leaves_trained c -> (forall a, leaves_trained (k a)) ->
  leaves_trained (mbind c k).
Proof.
  intros Hc Hk s. unfold mbind. specialize (Hc s).
  destruct (c s) as [a s1|e s1]; [|exact Hc].
  specialize (Hk a s1). destruct (k a s1); congruence.
Qed.

(** The batches of an epoch do not touch the flag. *)
Lemma leaves_batch_loop (dev : Device) (batches : list (dict Tensor)) :
  forall st, leaves_trained (batch_loop dev batches st).
Proof.
  induction batches as [|batch rest IH]; intros st; simpl; [apply leaves_ret|].
  apply leaves_mbind; [apply leaves_emit|]. intros _.
  apply leaves_mbind; [apply leaves_lift|]. intros l.
  apply leaves_mbind; [apply leaves_emit|]. intros _.
  apply leaves_mbind; [apply leaves_lift|]. intros r.
  apply leaves_mbind; [apply leaves_emit|]. intros _.
  apply leaves_mbind; [apply leaves_lift|]. intros mo.
  apply leaves_mbind; [apply leaves_modify; intros s; reflexivity|]. intros _.
  apply IH.
Qed.

Lemma first_mbind {A B C : Type} (c : M A) (whole : A -> M B)
  (first : A -> M C) :
  leaves_trained c ->
  (forall a, trained_by_first (whole a) (first a)) ->
  trained_by_first (mbind c whole) (mbind c first).
Proof.
  intros Hc Hk s. unfold mbind. specialize (Hc s).
  destruct (c s) as [a s1|e s1]; [|exact Hc].
  specialize (Hk a s1). destruct (whole a s1) as [b s2|e s2]; [exact Hk|].
  destruct (first a s1); congruence.
Qed.

(** The flag is set at the end of the first epoch of the loop, and
    not before. *)
Lemma epoch_loop_first_epoch (dev : Device) (dataloader : Loader)
  (epoch : nat) (rest : list nat) (st : TrainingPhase * Optimizer) :
  trained_by_first (epoch_loop dev dataloader (epoch :: rest) st)
    (epoch_loop dev dataloader [epoch] st).
Proof.
  cbn [epoch_loop].
  apply first_mbind; [apply leaves_batch_loop|]. intros st1.
  apply first_mbind.
  { destruct (snd (loader_epoch dataloader epoch));
      [apply leaves_raise | apply leaves_ret]. }
  intros _.
  apply first_mbind; [apply leaves_lift|]. intros l.
  apply first_mbind; [apply leaves_emit|]. intros _.
  apply first_mbind; [apply leaves_lift|]. intros l'.
  apply first_mbind.
  { intros s. destruct (verbose s); [|reflexivity].
    match goal with
    | |- context [if ?b then _ else _] => destruct b
    end; [reflexivity|].
    match goal with
    | |- context [if ?b then _ else _] => destruct b
    end; [|reflexivity].
    revert s.
    apply leaves_mbind; [apply leaves_lift|]. intros l2.
    apply leaves_mbind; [apply leaves_lift|]. intros h.
    apply leaves_emit. }
  intros _ s. unfold mbind, modify.
  pose proof (keeps_epoch_loop dev dataloader rest
                (set_loss (fst st1) l', snd st1)
                (with_trained true s) eq_refl) as Hk.
  destruct (epoch_loop dev dataloader rest _ _); exact Hk.
Qed.

(** C8.  [apply(X)] on an instance whose flag [trained] is unset
    raises [NotTrainedError] whatever [X] is, and the flag is unset in
    every instance [__init__] returns.  The flag is set at the end of
    an epoch of a training phase, after the batches, the checkpoint of
    the loss and the report, and not by a batch: a run of the epochs of
    a phase that returns leaves it set; one that raises leaves it set
    when the first epoch ran to its end, and as it was when the first
    epoch raised.  So after a call of [train()] that returned and ran a
    phase of at least one epoch the flag is set; and whenever the flag
    is set, [apply(X)] is the model's call on [X] with the result moved
    to the CPU, so that every tensor it returns is on the CPU. *)
Theorem C8_apply_before_and_after_training :
  forall (X : Tensor),
    (forall self, trained self = false ->
                  apply self X None = Raise NotTrainedError)
    /\ (forall model0 in_dim out_dim hidden_dims dataset0 global_relations0
               batch_relations0 losses0 training_defaults0 training_phases0
               use_cuda0 verbose0 uuid4 self,
          ParametricDR_init model0 in_dim out_dim hidden_dims dataset0
            global_relations0 batch_relations0 losses0 training_defaults0
            training_phases0 use_cuda0 verbose0 uuid4 = Ok self ->
          apply self X None = Raise NotTrainedError)
    /\ (forall dev dataloader epoch rest st self,
          match epoch_loop dev dataloader (epoch :: rest) st self with
          | Ret _ self' => trained self' = true
          | Exc _ self' =>
              match epoch_loop dev dataloader [epoch] st self with
              | Ret _ _ => trained self' = true
              | Exc _ _ => trained self' = trained self
              end
          end)
    /\ (forall self loaders self',
          train loaders self = Ret tt self' ->
          Exists (fun tp => (0 < epochs tp)%Z) (training_phases self) ->
          trained self' = true)
    /\ (forall self,
          trained self = true ->
          apply self X None
          = (r <- model_call (model self)
                    (if use_cuda self then Tensor_cuda (to_torch X)
                     else to_torch X) ;;
             Ok (Tensor_cpu r))
          /\ (forall t, apply self X None = Ok t -> device t = cpu)).
Proof.
  intros X.
  assert (Huntrained : forall self, trained self = false ->
                         apply self X None = Raise NotTrainedError).
  { intros self Ht. unfold apply, _call_model_method_by_name, getattr_model.
    simpl. rewrite Ht. reflexivity. }
  split; [exact Huntrained|]. split; [|split; [|split]].
  - intros. apply Huntrained. eapply ParametricDR_init_untrained; eassumption.
  - intros dev dataloader epoch rest st self.
    exact (epoch_loop_first_epoch dev dataloader epoch rest st self).
  - intros self loaders self' Htrain Hex.
    exact (train_trained _ _ _ Htrain Hex).
  - intros self Ht.
    assert (Happly : apply self X None
                     = (r <- model_call (model self)
                               (if use_cuda self then Tensor_cuda (to_torch X)
                                else to_torch X) ;;
                        Ok (Tensor_cpu r))).
    { unfold apply, _call_model_method_by_name, getattr_model.
      simpl. rewrite Ht. reflexivity. }
    split; [exact Happly|].
    intros t Hok. rewrite Happly in Hok. bind_inv Hok.
    injection Hok as <-. reflexivity.
Qed.

End Proofs.

(* ================================================================= *)
(** * The theorems on the small instance *)

(** C3 at two children, a position loss whose comparison function
    returns 5 and a caller's loss that returns 1, with the weights 2
    and 3: the output is 2 * 5 + 3 * 1. *)
Lemma C3_compound_loss_witness :
  List.length [num 2; num 3]
  = List.length [PositionLoss (constant_fun 5) "p"; SubclassLoss (counting_loss 0 [])]
  /\ exists c,
      CompoundLoss_init [PositionLoss (constant_fun 5) "p"; SubclassLoss (counting_loss 0 [])]
        (Some [num 2; num 3]) (Some "both") "" = Ok c /\
      forward c the_model (relation_data empty_tensor) (relation_on "data")
        [("data", empty_tensor); ("pos", empty_tensor)] = Ok (num 13).
Proof.
  split; [reflexivity|].
  destruct (proj1 (C3_compound_loss_weighted_sum
                     [PositionLoss (constant_fun 5) "p"; SubclassLoss (counting_loss 0 [])]
                     [num 2; num 3] (Some "both") "") eq_refl) as [c [Hc Hf]].
  exists c; split; [exact Hc|].
  apply (Hf the_model (relation_data empty_tensor) (relation_on "data")
           [("data", empty_tensor); ("pos", empty_tensor)] [num 5; num 1]).
  repeat constructor.
Defined.

(** C1 at a phase of one epoch with a [PositionLoss] and a loader that
    yields one batch: the run ends in [TypeError]. *)
Lemma C1_position_loss_witness :
  _loss (one_epoch_phase position_loss) = Some position_loss
  /\ library_loss position_loss = true
  /\ exists self',
       run_training_phase (one_epoch_phase position_loss) one_batch_loader
         (small_dr true position_loss)
       = Exc TypeError self'
       /\ trained self' = false.
Proof.
  split; [reflexivity|]. split; [reflexivity|].
  exact (proj2 (proj2
           (C1_library_loss_fails_in_training_phase
              (small_dr true position_loss) (one_epoch_phase position_loss)
              position_loss one_batch_loader eq_refl eq_refl))
           one_batch_loader tt eq_refl eq_refl eq_refl).
Defined.

(** One epoch of one batch with the caller's loss: one call of the
    loss and one of [checkpoint]. *)
Lemma run_training_phase_protocol_witness :
  exists tp' self',
    run_training_phase (one_epoch_phase caller_loss) one_batch_loader
      (small_dr true caller_loss) = Ret tp' self'
    /\ checkpoints (events self') = 1
    /\ loss_calls (events self') = 1
    /\ trained self' = true.
Proof.
  do 2 eexists. split; [vm_compute; reflexivity|].
  match goal with
  | |- checkpoints (events ?s) = _ /\ _ =>
      pose proof (@run_training_phase_protocol ZNumeric SmallObjects
                    SmallLibrary
                    (one_epoch_phase caller_loss) _ one_batch_loader
                    (small_dr true caller_loss) s
                    ltac:(vm_compute; reflexivity)) as [Hc [[dl [Hdl Hl]] Ht]]
  end.
  split; [rewrite Hc; reflexivity|].
  split; [|apply Ht; reflexivity].
  rewrite Hl. vm_compute in Hdl. injection Hdl as <-. reflexivity.
Defined.

(** C2 at a spec of one relation entry: the function raises
    [AttributeError]; the loop, given a registry, raises [TypeError] at
    the entry. *)
Lemma C2_relation_entry_witness :
  _losses_from_spec [relation_entry] (fun _ => "") = Raise AttributeError
  /\ entry_class relation_entry = Ok C_RelationLoss
  /\ loss_call_args [("kl div", 2%Z)] C_RelationLoss relation_entry
     = Ok (2%Z, [PStr "rel"; PStr "rel"; PStr "embed"])
  /\ losses_spec_loop [("kl div", 2%Z)] [relation_entry] (fun _ => "") 0 []
     = Raise TypeError.
Proof.
  pose proof (C2_losses_from_spec_raises_AttributeError [relation_entry]
                (fun _ => "")) as H.
  split; [exact (proj1 (proj2 (proj2 H)))|].
  split; [reflexivity|]. split; [reflexivity|].
  exact (proj1 (proj2 (proj2 (proj2 (proj2 (proj2 (proj2 (proj2 (proj2
           (proj2 (proj2 H))))))))))
           [("kl div", 2%Z)] relation_entry [] C_RelationLoss _
           eq_refl eq_refl eq_refl).
Defined.

(** C6 at a spec of a raw entry and a derived one: only the derived
    entry, the last, is in the dict. *)
Lemma C6_two_entries_witness :
  [raw_entry; pca_entry] <> []
  /\ dataset_spec_loop [raw_entry; pca_entry] []
     = Ok [("name", VEntry (mkEntry F_pca false [("data", "data")] []))]
  /\ (exists v,
        dataset_entry_value (last [raw_entry; pca_entry] []) = Ok v
        /\ [("name", VEntry (mkEntry F_pca false [("data", "data")] []))]
           = [("name", v)])
  /\ _dataset_from_spec [raw_entry; pca_entry]
     = Dataset_init
         (ADict [("name", VEntry (mkEntry F_pca false [("data", "data")] []))]).
Proof.
  split; [discriminate|]. split; [reflexivity|].
  apply (C6_dataset_from_spec_keeps_last_entry [raw_entry; pca_entry]);
    [discriminate | reflexivity].
Defined.

(** C4 at two items of the edge dataset: they are collated, with four
    rows in [row], [col] and [rel], and indices without repeats in
    ascending order. *)
Lemma C4_two_items_witness :
  integer_indices (nse_dataset edge_dataset)
  /\ exists item1 item2,
       NegSampledEdgeDataset_getitem edge_dataset 0 draw_six = Ok item1
       /\ NegSampledEdgeDataset_getitem edge_dataset 1 draw_three = Ok item2
       /\ exists cb,
            _collate_edge_batch [item1; item2] = Ok cb
            /\ (forall k, In k ["row"; "col"; "rel"] ->
                  exists t, dict_get cb k = Some t /\ len t = Ok 4)
            /\ exists flat t ids,
                 batch_indices [item1; item2] = Ok flat
                 /\ dict_get cb "indices" = Some t
                 /\ as_ints (value t) = Ok ids
                 /\ NoDup ids
                 /\ StronglySorted Z.lt ids
                 /\ (forall x, In x ids <-> In x flat).
Proof.
  assert (Hint : integer_indices (nse_dataset edge_dataset)).
  { exists (arange 8), (map Z.of_nat (seq 0 8)). split; reflexivity. }
  split; [exact Hint|].
  do 2 eexists.
  split; [vm_compute; reflexivity|].
  split; [vm_compute; reflexivity|].
  match goal with
  | |- exists cb, _collate_edge_batch ?rb = _ /\ _ =>
      apply (C4_collate_edge_batch_sorted_indices edge_dataset
               [(0%Z, draw_six); (1%Z, draw_three)] rb Hint)
  end.
  - discriminate.
  - constructor; [vm_compute; reflexivity|].
    constructor; [vm_compute; reflexivity|]. constructor.
Defined.

(** The claim of C4 fails on these two items: their indices are
    5, 6, 7 and 2, 3, 5, the collated [indices] are 2, 3, 5, 6, 7, and
    the order of first occurrence is 5, 6, 7, 2, 3.  The empty batch is
    not collated at all. *)
Lemma C4_indices_not_in_first_occurrence_order :
  exists item1 item2 cb t,
    NegSampledEdgeDataset_getitem edge_dataset 0 draw_six = Ok item1
    /\ NegSampledEdgeDataset_getitem edge_dataset 1 draw_three = Ok item2
    /\ batch_indices [item1; item2] = Ok [5; 6; 7; 2; 3; 5]%Z
    /\ _collate_edge_batch [item1; item2] = Ok cb
    /\ dict_get cb "indices" = Some t
    /\ as_ints (value t) = Ok [2; 3; 5; 6; 7]%Z
    /\ first_occurrences [5; 6; 7; 2; 3; 5]%Z = [5; 6; 7; 2; 3]%Z
    /\ @_collate_edge_batch ZNumeric [] = Raise RuntimeError.
Proof.
  do 4 eexists.
  split; [vm_compute; reflexivity|].
  split; [vm_compute; reflexivity|].
  split; [vm_compute; reflexivity|].
  split; [vm_compute; reflexivity|].
  split; [vm_compute; reflexivity|].
  split; [vm_compute; reflexivity|].
  split; reflexivity.
Qed.

(** C5 at the instance with two derived entries. *)
Lemma C5_two_entries_witness :
  exists self',
    compute_derived_data false two_derived_dr = Ret tt self'
    /\ exists ds ds',
         dataset two_derived_dr = Ok ds /\ dataset self' = Ok ds'
         /\ derived_computed (events self')
            = derived_computed (events two_derived_dr)
              ++ dict_keys (_derived_entries ds)
         /\ (forall k, In k (dict_keys (_derived_entries ds)) ->
             dict_in k (data ds') = true)
         /\ (forall k, dict_in k (data ds) = true ->
             dict_in k (data ds') = true)
         /\ (_derived_entries ds <> [] -> _derived_entries ds' = []).
Proof.
  eexists. split; [vm_compute; reflexivity|].
  apply (C5_compute_derived_data_computes_every_entry two_derived_dr).
  vm_compute; reflexivity.
Defined.

(** The claim of C5 fails on that instance: the call computes the
    second entry too and leaves it as a column, where the loop as the
    specification reads it stops after the first. *)
Lemma C5_second_entry_is_computed :
  exists self' self'',
    compute_derived_data false two_derived_dr = Ret tt self'
    /\ derived_computed (events self') = ["first"; "second"]
    /\ columns_and_definitions self'
       = (["data"; "indices"; "first"; "second"], [])
    /\ compute_derived_data_as_specified false two_derived_dr
       = Ret tt self''
    /\ derived_computed (events self'') = ["first"]
    /\ columns_and_definitions self'' = (["data"; "indices"; "first"], []).
Proof.
  do 2 eexists.
  split; [vm_compute; reflexivity|].
  split; [vm_compute; reflexivity|].
  split; [vm_compute; reflexivity|].
  split; [vm_compute; reflexivity|].
  split; vm_compute; reflexivity.
Qed.

(** C7 at a phase named ["both"] with two unit weights: [KeyError]
    against a mapping of ["a"] alone, and the compound loss of the two
    mapped losses, named ["both"], against the mapping of both. *)
Lemma C7_named_phase_witness :
  loss_keys named_ab_phase = ["a"; "b"]
  /\ _determine_loss named_ab_phase [("a", position_loss)] "" = Raise KeyError
  /\ exists nm,
       _determine_loss named_ab_phase ab_losses ""
       = Ok (set_loss named_ab_phase
               (CompoundLoss [deepcopy position_loss; deepcopy caller_loss]
                  [num 1; num 1] nm))
       /\ nm = Loss_init "comp_loss" (tp_name named_ab_phase) ""
       /\ (forall n, tp_name named_ab_phase = Some n -> nm = n).
Proof.
  split; [reflexivity|].
  split.
  - exact (proj1 (C7_determine_loss_two_keys named_ab_phase
                    [("a", position_loss)] "" eq_refl) eq_refl).
  - exact (proj2 (C7_determine_loss_two_keys named_ab_phase ab_losses ""
                    eq_refl)
             position_loss caller_loss [num 1; num 1] eq_refl eq_refl eq_refl
             eq_refl).
Defined.

(** The claim of C7 fails for the phase that
    [add_training_phase(loss_keys=["a", "b"])] derives from the default
    training defaults: it has the two loss keys and the one weight of
    the defaults, both keys are in the mapping, and binding raises
    [ValueError]. *)
Lemma C7_two_keys_one_weight :
  TrainingPhase_default = Ok plain_phase
  /\ loss_keys (override_phase keys_ab plain_phase) = ["a"; "b"]
  /\ loss_weights (override_phase keys_ab plain_phase) = Some [num 1]
  /\ dict_get ab_losses "a" = Some position_loss
  /\ dict_get ab_losses "b" = Some caller_loss
  /\ _determine_loss (override_phase keys_ab plain_phase) ab_losses ""
     = Raise ValueError
  /\ add_training_phase None keys_ab "" ab_dr = Exc ValueError ab_dr.
Proof.
  repeat split; reflexivity.
Qed.

(** C8 at the small instance with the caller's loss: [apply] raises
    [NotTrainedError] before [train()], and after it returns the rows
    the model was applied to, on the CPU. *)
Lemma C8_train_then_apply_witness :
  apply (small_dr false caller_loss) three_rows None = Raise NotTrainedError
  /\ exists self',
       train (fun _ => one_batch_loader) (small_dr false caller_loss)
       = Ret tt self'
       /\ Exists (fun tp => (0 < epochs tp)%Z)
            (training_phases (small_dr false caller_loss))
       /\ apply self' (Tensor_cuda three_rows) None = Ok three_rows
       /\ trained self' = true
       /\ apply self' (Tensor_cuda three_rows) None
          = (r <- model_call (model self')
                    (if use_cuda self'
                     then Tensor_cuda (to_torch (Tensor_cuda three_rows))
                     else to_torch (Tensor_cuda three_rows)) ;;
             Ok (Tensor_cpu r))
       /\ (forall t, apply self' (Tensor_cuda three_rows) None = Ok t ->
                     device t = cpu).
Proof.
  split.
  - exact (proj1 (C8_apply_before_and_after_training three_rows)
             (small_dr false caller_loss) eq_refl).
  - eexists. split; [vm_compute; reflexivity|].
    split; [constructor; reflexivity|].
    split; [vm_compute; reflexivity|].
    match goal with
    | |- trained ?s = true /\ _ =>
        assert (Ht : trained s = true)
          by (apply (proj1 (proj2 (proj2 (proj2
                       (C8_apply_before_and_after_training
                          (Tensor_cuda three_rows)))))
                (small_dr false caller_loss) (fun _ => one_batch_loader));
              [vm_compute; reflexivity | constructor; reflexivity]);
        split; [exact Ht|];
        exact (proj2 (proj2 (proj2 (proj2
                 (C8_apply_before_and_after_training
                    (Tensor_cuda three_rows))))) s Ht)
    end.
Defined.

(** C8 as it is stated fails on a run that is cut short: the loader
    yields one batch, which the phase completes with a loss call and a
    step of the optimizer, and then raises; [train()] raises, the flag
    is unset, and [apply] raises [NotTrainedError]. *)
Lemma C8_completed_batch_without_epoch :
  exists self',
    train (fun _ => interrupted_loader) (small_dr false caller_loss)
    = Exc RuntimeError self'
    /\ loss_calls (events self') = 1
    /\ backward_steps (events self') = 1
    /\ trained self' = false
    /\ apply self' three_rows None = Raise NotTrainedError.
Proof.
  eexists. split; [vm_compute; reflexivity|]. vm_compute. auto.
Qed.

(** C9 at the small instance: the relation is computed once by the
    first call, not at all by the second, and once more with [force]. *)
Lemma C9_compute_twice_witness :
  _global_relations_computed (small_dr false caller_loss) = false
  /\ exists self1,
       compute_global_relations false (small_dr false caller_loss)
       = Ret tt self1
       /\ relations_computed (events self1) = ["rel"]
       /\ compute_global_relations false self1 = Ret tt self1
       /\ exists self2,
            compute_global_relations true self1 = Ret tt self2
            /\ relations_computed (events self2) = ["rel"; "rel"].
Proof.
  split; [reflexivity|].
  eexists. split; [vm_compute; reflexivity|].
  match goal with
  | |- relations_computed (events ?s1) = _ /\ _ =>
      pose proof (C9_compute_global_relations_once
                    (small_dr false caller_loss) s1 eq_refl) as H
  end.
  specialize (H ltac:(vm_compute; reflexivity)).
  destruct H as [Hev [_ [Hsame Hforce]]].
  split; [exact Hev|]. split; [exact Hsame|].
  eexists. split; [vm_compute; reflexivity|].
  vm_compute; reflexivity.
Defined.

(** C10 at a phase constructed with the weights 1 and 2 for the keys
    ["a"] and ["b"]. *)
Lemma C10_explicit_weights_witness :
  exists tp,
    TrainingPhase_init (Some "both") 5 50 (-1) "standard" "rel" 5 ["a"; "b"]
      (Some [num 1; num 2]) (PType Adam) lr_default 5 [] = Ok tp
    /\ loss_weights tp = None
    /\ get_loss_weights tp = Raise AttributeError
    /\ _determine_loss tp ab_losses "" = Raise AttributeError.
Proof.
  eexists. split; [reflexivity|].
  match goal with
  | |- loss_weights ?tp = _ /\ _ =>
      pose proof (C10_explicit_loss_weights_never_assigned (list Z)
                    [num 1; num 2] (Some "both") 5 50 (-1) "standard" "rel" 5
                    ["a"; "b"] (PType Adam) lr_default 5 [] tp eq_refl) as H
  end.
  destruct H as [Hw [Hget [_ [Hdet _]]]].
  split; [exact Hw|]. split; [exact Hget|].
  apply Hdet; [discriminate|].
  repeat constructor.
Defined.

(* ================================================================= *)
(** * The further properties on the small instance *)

(** A compound loss of a position loss and a base loss fails as the
    base loss does. *)
Lemma compound_loss_raises_first_failure_witness :
  forward (CompoundLoss [position_loss; base_loss] [num 1; num 2] "c")
    the_model (relation_data three_rows) (relation_on "data") position_batch
  = Raise NotImplementedError.
Proof.
  exact (proj2 (compound_loss_raises_first_failure [position_loss] [] base_loss [num 1; num 2] "c"
                  the_model (relation_data three_rows) (relation_on "data")
                  position_batch [num 5] NotImplementedError
                  eq_refl eq_refl eq_refl)).
Defined.

(** The position loss gives the same result with other relations. *)
Lemma relation_free_loss_witness :
  relation_free position_loss = true
  /\ forward position_loss the_model (relation_data three_rows)
       (relation_on "data") position_batch
     = forward position_loss the_model (relation_data (arange 3))
         (relation_on "pos") position_batch.
Proof.
  split; [reflexivity|].
  exact (relation_free_loss_ignores_relations position_loss eq_refl the_model
           (relation_data three_rows) (relation_data (arange 3))
           (relation_on "data") (relation_on "pos") position_batch).
Defined.

(** The position loss gives the same result on two batches with the
    same ["data"] and ["pos"]. *)
Lemma loss_reads_only_its_keys_witness :
  forward position_loss the_model (relation_data three_rows)
    (relation_on "data") position_batch
  = forward position_loss the_model (relation_data three_rows)
      (relation_on "data") position_batch'.
Proof.
  apply (loss_reads_only_its_keys
           position_loss eq_refl).
  intros k [<- | [<- | []]]; reflexivity.
Defined.

(** The default phase bound against a mapping with ["loss"]. *)
Lemma determine_loss_single_key_witness :
  _determine_loss plain_phase one_loss ""
  = Ok (set_loss plain_phase (deepcopy caller_loss))
  /\ TrainingPhase_loss (set_loss plain_phase (deepcopy caller_loss))
     = Ok caller_loss
  /\ loss_weights (set_loss plain_phase (deepcopy caller_loss))
     = loss_weights plain_phase.
Proof.
  exact (proj2 (determine_loss_single_key
                  plain_phase "loss" one_loss "" eq_refl)
           caller_loss eq_refl).
Defined.

(** The phase with the keys ["a"] and ["b"] and two weights. *)
Lemma determine_loss_compound_witness :
  _determine_loss named_ab_phase ab_losses ""
  = Ok (set_loss named_ab_phase
          (CompoundLoss [position_loss; caller_loss] [num 1; num 1] "both")).
Proof.
  exact (proj2 (determine_loss_compound
                  named_ab_phase ab_losses ""
                  ltac:(discriminate))
           [position_loss; caller_loss]
           ltac:(repeat constructor)).
Defined.

(** The dataset of an array of three rows. *)
Lemma Dataset_init_columns_aligned_witness :
  exists ds n,
    Dataset_init (ATensor three_rows) = Ok ds
    /\ Dataset_len ds = Ok n
    /\ columns_aligned ds n
    /\ dict_in "data" (data ds) = true
    /\ dict_in "indices" (data ds) = true.
Proof.
  eexists.
  assert (H : exists n,
             Dataset_len small_dataset = Ok n
             /\ columns_aligned small_dataset n
             /\ dict_in "data" (data small_dataset) = true
             /\ dict_in "indices" (data small_dataset) = true).
  { apply (Dataset_init_columns_aligned (L := SmallLibrary)
             (fun t => eq_refl) (ATensor three_rows) small_dataset).
    reflexivity. }
  destruct H as [n H]. exists n. split; [reflexivity | exact H].
Defined.

(** The row 1 of the small dataset, and the index 3 out of its bounds. *)
Lemma Dataset_getitem_within_bounds_witness :
  columns_aligned small_dataset 3
  /\ (exists item,
        Dataset_getitem small_dataset 1 = Ok item
        /\ dict_keys item = dict_keys (data small_dataset)
        /\ (forall k t, dict_get (data small_dataset) k = Some t ->
            exists r, take_row (value t) 1 = Ok r
                      /\ dict_get item k = Some (mkTensor r (device t))))
  /\ Dataset_getitem small_dataset 3 = Raise IndexError.
Proof.
  assert (Hal : columns_aligned small_dataset 3)
    by (repeat constructor).
  split; [exact Hal|]. split.
  - apply (proj1 (Dataset_getitem_within_bounds
                    small_dataset 3 1%Z Hal)). lia.
  - apply (proj2 (Dataset_getitem_within_bounds
                    small_dataset 3 3%Z Hal)); [lia | discriminate].
Defined.

(** The item 1 of the dataset of the three rows. *)
Lemma Dataset_of_array_getitem_witness :
  exists r,
    take_row (value (to_torch three_rows)) 1 = Ok r
    /\ Dataset_getitem small_dataset 1
       = Ok [("data", mkTensor r (device (to_torch three_rows)));
             ("indices", mkTensor (Int 1) cpu)].
Proof.
  apply (Dataset_of_array_getitem
           three_rows small_dataset 3 1); [reflexivity | reflexivity | lia].
Defined.

(** The item 0 of the edge dataset: the edge (5, 7) and one draw. *)
Lemma edge_item_first_pair_witness :
  exists it r c,
    NegSampledEdgeDataset_getitem edge_dataset 0 draw_six = Ok it
    /\ np_index (coo_row (p_ij edge_dataset)) 0 = Ok r
    /\ np_index (coo_col (p_ij edge_dataset)) 0 = Ok c
    /\ (0 <= nse_neg_sampling_rate edge_dataset)%Z
    /\ dict_get it "row"
       = Some (of_ints
                 (repeat r (S (Z.to_nat (nse_neg_sampling_rate edge_dataset)))))
    /\ dict_get it "col"
       = Some (of_ints
                 (c :: map draw_six
                         (seq 1 (Z.to_nat (nse_neg_sampling_rate edge_dataset)))))
    /\ dict_get it "rel"
       = Some (mkTensor
                 (Arr (Flt f1
                       :: repeat (Flt f0)
                            (Z.to_nat (nse_neg_sampling_rate edge_dataset))))
                 cpu).
Proof.
  eexists.
  match goal with
  | |- exists r c, NegSampledEdgeDataset_getitem _ _ _ = Ok ?it /\ _ =>
      assert (Hit : NegSampledEdgeDataset_getitem edge_dataset 0 draw_six
                    = Ok it) by (vm_compute; reflexivity);
      destruct (edge_item_first_pair_is_the_edge edge_dataset 0%Z draw_six it
                  Hit) as [r [c H]];
      exists r, c; split; [exact Hit | exact H]
  end.
Defined.

(** The batch of two items of the edge dataset: its columns ["data"]
    and ["indices"] have one row for each of the five indices. *)
Lemma collate_edge_batch_columns_witness :
  exists item1 item2 cb flat,
    NegSampledEdgeDataset_getitem edge_dataset 0 draw_six = Ok item1
    /\ NegSampledEdgeDataset_getitem edge_dataset 1 draw_three = Ok item2
    /\ _collate_edge_batch [item1; item2] = Ok cb
    /\ batch_indices [item1; item2] = Ok flat
    /\ (forall k, dict_in k cb = true
                  <-> k = "indices" \/ In k (dict_keys item1))
    /\ (forall k, In k (dict_keys item1) -> ~ In k edge_keys ->
        exists t rows,
          dict_get cb k = Some t /\ value t = Arr rows
          /\ List.length rows = List.length (np_unique flat)).
Proof.
  do 3 eexists.
  match goal with
  | |- exists flat, ?g1 = Ok ?i1 /\ ?g2 = Ok ?i2 /\ ?c = Ok ?cb /\ _ =>
      assert (H1 : g1 = Ok i1) by (vm_compute; reflexivity);
      assert (H2 : g2 = Ok i2) by (vm_compute; reflexivity);
      assert (Hc : c = Ok cb) by (vm_compute; reflexivity);
      destruct (collate_edge_batch_columns_follow_indices [i1; i2] cb i1 Hc
                  eq_refl) as [flat H];
      exists flat; split; [exact H1|]; split; [exact H2|]; split; [exact Hc|];
      exact H
  end.
Defined.


(** Seven batches per epoch as a default, and a phase from the
    defaults: its batch size is 7. *)
Lemma defaults_batches_per_epoch_witness :
  exists self1 self2 tp,
    set_training_defaults None (only_batches_per_epoch 7) no_phase_dr
    = Ret tt self1
    /\ add_training_phase None no_arguments "" self1 = Ret tt self2
    /\ training_phases self2 = training_phases no_phase_dr ++ [tp]
    /\ batch_size tp = 7%Z
    /\ batches_per_epoch tp = batches_per_epoch (training_defaults no_phase_dr)
    /\ batches_per_epoch (training_defaults self2)
       = batches_per_epoch (training_defaults no_phase_dr)
    /\ batch_size (training_defaults self2) = 7%Z.
Proof.
  do 2 eexists.
  match goal with
  | |- exists tp, ?c1 = Ret tt ?s1 /\ ?c2 = Ret tt ?s2 /\ _ =>
      assert (H1 : c1 = Ret tt s1) by reflexivity;
      assert (H2 : c2 = Ret tt s2) by (vm_compute; reflexivity);
      destruct (defaults_batches_per_epoch_sets_batch_size 7%Z "" no_phase_dr
                  s1 s2 H1 H2) as [tp H];
      exists tp; split; [exact H1|]; split; [exact H2 | exact H]
  end.
Defined.

(** Adding a column to the small dataset. *)
Lemma add_to_dataset_witness :
  exists self' ds',
    add_to_dataset [("extra", VTensor three_rows)] no_phase_dr = Ret tt self'
    /\ dataset self' = Ok ds'
    /\ (forall k t, In (k, VTensor t) [("extra", VTensor three_rows)] ->
        dict_get (data ds') k = Some (to_torch t))
    /\ (forall k e, In (k, VEntry e) [("extra", VTensor three_rows)] ->
        dict_get (_derived_entries ds') k = Some e)
    /\ (forall k, (forall t, ~ In (k, VTensor t)
                               [("extra", VTensor three_rows)]) ->
        dict_get (data ds') k = dict_get (data small_dataset) k)
    /\ (forall k, (forall e, ~ In (k, VEntry e)
                               [("extra", VTensor three_rows)]) ->
        dict_get (_derived_entries ds') k
        = dict_get (_derived_entries small_dataset) k).
Proof.
  eexists.
  match goal with
  | |- exists ds', ?c = Ret tt ?s /\ _ =>
      assert (H1 : c = Ret tt s) by (vm_compute; reflexivity);
      destruct (add_to_dataset_stores_every_value
                  [("extra", VTensor three_rows)] no_phase_dr s small_dataset
                  H1 eq_refl) as [ds' H];
      [repeat constructor; simpl; tauto|];
      exists ds'; split; [exact H1 | exact H]
  end.
Defined.

(** A column and then a value that is no array: the column is added
    and the call raises [ValueError]. *)
Lemma add_to_dataset_bad_value_witness :
  exists self1,
    add_to_dataset [("extra", VTensor three_rows)] no_phase_dr = Ret tt self1
    /\ add_to_dataset [("extra", VTensor three_rows); ("bad", VOther None)]
         no_phase_dr
       = Exc ValueError self1
    /\ In "extra" (fst (columns_and_definitions self1)).
Proof.
  eexists.
  match goal with
  | |- ?c = Ret tt ?s /\ _ =>
      assert (H1 : c = Ret tt s) by (vm_compute; reflexivity);
      split; [exact H1|]; split;
      [exact (add_to_dataset_keeps_values_before_a_bad_one
                [("extra", VTensor three_rows)] [] "bad" None no_phase_dr s H1)|]
  end.
  vm_compute; auto.
Defined.

(** The two derived entries computed with their definitions kept: both
    are still defined, now with [out_dim]. *)
Lemma compute_derived_data_keeps_definitions_witness :
  exists self' ds',
    compute_derived_data true two_derived_dr = Ret tt self'
    /\ _dataset self' = Some ds'
    /\ _derived_entries ds'
       = map (fun kv => (fst kv, default_out_dim (snd kv)))
           (_derived_entries two_derived_dataset)
    /\ Forall (fun kv => dict_in "out_dim" (entry_kwargs (snd kv)) = true)
         (_derived_entries ds')
    /\ derived_computed (events self')
       = derived_computed (events two_derived_dr)
         ++ dict_keys (_derived_entries two_derived_dataset).
Proof.
  eexists.
  match goal with
  | |- exists ds', ?c = Ret tt ?s /\ _ =>
      assert (H1 : c = Ret tt s) by (vm_compute; reflexivity);
      destruct (compute_derived_data_keeps_definitions_with_out_dim
                  two_derived_dr s two_derived_dataset H1 eq_refl)
        as [ds' H];
      [repeat constructor; simpl; intuition discriminate|];
      exists ds'; split; [exact H1 | exact H]
  end.
Defined.

(** [train()] on the routine without phases. *)
Lemma train_without_an_epoch_witness :
  exists self',
    train (fun _ => one_batch_loader) no_phase_dr = Ret tt self'
    /\ trained self' = trained no_phase_dr
    /\ (trained no_phase_dr = false ->
        forall X, apply self' X None = Raise NotTrainedError).
Proof.
  eexists.
  match goal with
  | |- ?c = Ret tt ?s /\ _ =>
      assert (H1 : c = Ret tt s) by (vm_compute; reflexivity);
      split; [exact H1|];
      exact (train_without_an_epoch_does_not_train (fun _ => one_batch_loader)
               no_phase_dr s H1 (Forall_nil _))
  end.
Defined.

(** [train()] on the small routine. *)
Lemma train_prepares_the_data_witness :
  exists self',
    train (fun _ => one_batch_loader) (small_dr false caller_loss)
    = Ret tt self'
    /\ _global_relations_computed self' = true
    /\ _dataset_registered self' = true
    /\ List.length (training_phases self')
       = List.length (training_phases (small_dr false caller_loss))
    /\ dict_in "rel" (global_relation_data self') = true.
Proof.
  eexists.
  match goal with
  | |- ?c = Ret tt ?s /\ _ =>
      assert (H1 : c = Ret tt s) by (vm_compute; reflexivity);
      split; [exact H1|];
      destruct (train_prepares_the_data (fun _ => one_batch_loader)
                  (small_dr false caller_loss) s H1)
        as [Hc [Hr [Hl [Hv _]]]]
  end.
  split; [exact Hc|]. split; [exact Hr|]. split; [exact Hl|].
  apply Hv; [reflexivity | left; reflexivity].
Defined.

(** A routine with the model given, the small dataset, the caller's
    loss and one phase. *)
Lemma ParametricDR_init_fresh_routine_witness :
  exists self,
    ParametricDR_init (Some the_model) None 2 [] (Some (inl small_dataset))
      None None (Some (inl caller_loss)) plain_phase (Some [plain_phase])
      false false no_uuid = Ok self
    /\ trained self = false
    /\ _global_relations_computed self = false
    /\ global_relation_data self = []
    /\ _dataset_registered self = true
    /\ losses self = one_loss
    /\ List.length (training_phases self) = 1.
Proof.
  eexists.
  match goal with
  | |- ?c = Ok ?s /\ _ =>
      assert (H1 : c = Ok s) by (vm_compute; reflexivity);
      split; [exact H1|];
      destruct (ParametricDR_init_fresh_routine _ _ _ _ _ _ _ _ _ _ _ _ _ _ H1)
        as [Ht [Hc [Hg [Hr [Hl [_ Hp]]]]]]
  end.
  split; [exact Ht|]. split; [exact Hc|]. split; [exact Hg|].
  split; [exact Hr|]. split; [reflexivity|].
  apply Forall2_length in Hp. symmetry. exact Hp.
Defined.

(** A spec in which validation finds nothing. *)
Lemma from_spec_never_returns_witness :
  from_spec any_transform any_relations validate_nothing tt no_uuid no_uuid
  = Raise AttributeError.
Proof.
  apply (proj1 (proj2 (from_spec_never_returns unit unit any_transform
                         any_relations validate_nothing tt no_uuid no_uuid))
           plain_phase empty_spec ([], []));
    reflexivity.
Defined.

(** Training the trained routine again, and a call on it that raises. *)
Lemma trained_is_never_reset_witness :
  trained trained_dr = true
  /\ match train (fun _ => one_batch_loader) trained_dr with
     | Ret _ s' => trained s' = true
     | Exc _ s' => trained s' = true
     end
  /\ match add_to_dataset [("bad", VOther None)] trained_dr with
     | Ret _ s' => trained s' = true
     | Exc _ s' => trained s' = true
     end.
Proof.
  split; [reflexivity|]. split.
  - exact (proj2 (proj2 (proj2 (proj2 (proj2 (proj2 (proj2
             trained_is_never_reset))))))
             (fun _ => one_batch_loader) trained_dr eq_refl).
  - exact (proj1 (proj2 trained_is_never_reset)
             [("bad", VOther None)] trained_dr eq_refl).
Defined.

(** The batch of two items of the edge dataset: two rows of data for
    each of the four pairs. *)
Lemma collate_edge_batch_from_to_data_witness :
  exists item1 item2 cb t from to,
    NegSampledEdgeDataset_getitem edge_dataset 0 draw_six = Ok item1
    /\ NegSampledEdgeDataset_getitem edge_dataset 1 draw_three = Ok item2
    /\ _collate_edge_batch [item1; item2] = Ok cb
    /\ dict_get cb "from_to_data" = Some t
    /\ value t = Arr [Arr from; Arr to]
    /\ List.length from = 4
    /\ List.length to = 4.
Proof.
  do 3 eexists.
  match goal with
  | |- exists t from to, ?g1 = Ok ?i1 /\ ?g2 = Ok ?i2 /\ ?c = Ok ?cb /\ _ =>
      assert (H1 : g1 = Ok i1) by (vm_compute; reflexivity);
      assert (H2 : g2 = Ok i2) by (vm_compute; reflexivity);
      assert (Hc : c = Ok cb) by (vm_compute; reflexivity);
      assert (HF : Forall2
                     (fun d it =>
                        NegSampledEdgeDataset_getitem edge_dataset (fst d)
                          (snd d) = Ok it)
                     [(0%Z, draw_six); (1%Z, draw_three)] [i1; i2])
        by (constructor; [exact H1 | constructor; [exact H2 | constructor]]);
      destruct (collate_edge_batch_from_to_data edge_dataset
                  [(0%Z, draw_six); (1%Z, draw_three)] [i1; i2] cb HF Hc)
        as [t [from [to [Hg [Hv [Hf Ht]]]]]];
      exists t, from, to;
      split; [exact H1|]; split; [exact H2|]; split; [exact Hc|];
      split; [exact Hg|]; split; [exact Hv|]; split; [exact Hf | exact Ht]
  end.
Defined.

(** A spec of a relation with the level ["global"] and of one with the
    level ["Global"]: the second is a batch relation. *)
Lemma relations_from_spec_witness :
  exists g b,
    _relations_from_spec any_transform any_relations two_relations_spec
    = Ok (g, b)
    /\ dict_in "hd" g = true
    /\ dict_in "ld" b = true
    /\ dict_in "ld" g = false.
Proof.
  do 2 eexists.
  match goal with
  | |- ?c = Ok (?g, ?b) /\ _ =>
      assert (H1 : c = Ok (g, b)) by (vm_compute; reflexivity);
      split; [exact H1|];
      destruct (relations_from_spec_sorts_by_level unit any_transform
                  any_relations two_relations_spec g b H1) as [Hg Hb]
  end.
  split; [|split; [|reflexivity]].
  - apply Hg. left. exists (PStr "global"). repeat split; reflexivity.
  - apply Hb. right. left. exists (PStr "Global"). repeat split; reflexivity.
Defined.

